(** * HassClient: the websocket session of [api_client/client.py]

    A shallow embedding of the [HassClient] class: its fields as a record,
    its methods as computations in a small state-and-exception monad that
    also records the observable effects (socket writes, opens and closes,
    printed lines), and the two thread bodies as step functions of the
    iteration they perform.  The JSON documents exchanged with the server are
    the values Python's [json.loads] builds. *)

From Stdlib Require Import ZArith String List Bool Lia SpecFloat Sorted.
From stdpp Require Import base option list gmap strings.
Import ListNotations.

Set Warnings "-register-all".
Local Open Scope Z_scope.

(* ===================================================================== *)
(** * Python values decoded from JSON                                      *)
(* ===================================================================== *)

(** What [json.loads] returns: [None], [bool], [int] (unbounded), [float]
    (binary64, here the specification-level floats of the Standard Library),
    [str], [list] and [dict] with string keys.  A decoded [dict] has unique
    keys; it is kept as an association list and read with [assoc_get]. *)
Inductive json : Type :=
| JNull
| JBool (b : bool)
| JInt (n : Z)
| JFloat (f : spec_float)
| JStr (s : string)
| JList (items : list json)
| JObj (fields : list (string * json)).

(** The exceptions the modelled code can raise. *)
Inductive exn : Type :=
| RuntimeError (msg : string)
| AttributeError
| TypeError
| KeyError
| ValueError
| RecursionError
| SocketError.

Inductive outcome (A : Type) : Type :=
| Ok (a : A)
| Raise (e : exn).
Arguments Ok {A} a.
Arguments Raise {A} e.

Definition obind {A B} (o : outcome A) (k : A -> outcome B) : outcome B :=
  match o with
  | Ok a => k a
  | Raise e => Raise e
  end.

Notation "'let?' x := o 'in' k" := (obind o (fun x => k))
  (at level 10, x name, o at level 100, k at level 200).

Definition is_ok {A} (o : outcome A) : bool :=
  match o with Ok _ => true | Raise _ => false end.

(** ** Truth value of a decoded document ([if x:]) *)

Definition float_is_zero (f : spec_float) : bool :=
  match f with S754_zero _ => true | _ => false end.

Definition truthy (v : json) : bool :=
  match v with
  | JNull => false
  | JBool b => b
  | JInt n => negb (n =? 0)
  | JFloat f => negb (float_is_zero f)
  | JStr s => negb (String.eqb s EmptyString)
  | JList items => match items with [] => false | _ => true end
  | JObj fields => match fields with [] => false | _ => true end
  end.

(** ** Dictionaries decoded from JSON objects *)

Fixpoint assoc_get {A} (k : string) (kvs : list (string * A)) : option A :=
  match kvs with
  | [] => None
  | (k', v) :: rest => if String.eqb k k' then Some v else assoc_get k rest
  end.

(** [d[k] = v] on a [dict]: the value of an existing key is replaced in
    place, a new key goes to the end. *)
Fixpoint assoc_set {A} (k : string) (v : A) (kvs : list (string * A))
  : list (string * A) :=
  match kvs with
  | [] => [(k, v)]
  | (k', v') :: rest =>
      if String.eqb k k' then (k', v) :: rest else (k', v') :: assoc_set k v rest
  end.

(** [d.get(k, dflt)]; only a [dict] has the method. *)
Definition py_get (d : json) (k : string) (dflt : json) : outcome json :=
  match d with
  | JObj fields => Ok (default dflt (assoc_get k fields))
  | _ => Raise AttributeError
  end.

(** [d[k]] on a decoded document, for a string key. *)
Definition py_getitem (d : json) (k : string) : outcome json :=
  match d with
  | JObj fields =>
      match assoc_get k fields with
      | Some v => Ok v
      | None => Raise KeyError
      end
  | _ => Raise TypeError
  end.

(** [d[k] = v] for a string key: a [dict] is updated; [list], [str] and the
    scalars refuse a string subscript. *)
Definition py_setitem (d : json) (k : string) (v : json) : outcome json :=
  match d with
  | JObj fields => Ok (JObj (assoc_set k v fields))
  | _ => Raise TypeError
  end.

(** [for x in v]: a list yields its items, a dict its keys, a string its
    characters; nothing else is iterable. *)
Fixpoint chars (s : string) : list json :=
  match s with
  | EmptyString => []
  | String c rest => JStr (String c EmptyString) :: chars rest
  end.

Definition py_iter (v : json) : outcome (list json) :=
  match v with
  | JList items => Ok items
  | JObj fields => Ok (map (fun kv => JStr (fst kv)) fields)
  | JStr s => Ok (chars s)
  | _ => Raise TypeError
  end.

(** [x == "literal"] *)
Definition str_eq (v : json) (lit : string) : bool :=
  match v with
  | JStr s => String.eqb s lit
  | _ => false
  end.

(** ** Keys of Python dictionaries

    A [dict] accepts any hashable key and identifies keys that compare
    equal: [True == 1 == 1.0].  [py_key] gives the key a decoded value
    stands for, or [TypeError] for the unhashable [list] and [dict]. *)
Inductive pykey : Type :=
| KNone
| KInt (n : Z)
| KFloat (f : spec_float)
| KStr (s : string).

(** The integer a float is equal to, if any. *)
Definition float_int_value (f : spec_float) : option Z :=
  match f with
  | S754_zero _ => Some 0
  | S754_finite sign m e =>
      let mag :=
        if 0 <=? e then Some (Z.pos m * 2 ^ e)
        else if Z.pos m mod 2 ^ (- e) =? 0 then Some (Z.pos m / 2 ^ (- e))
        else None in
      (fun z => if sign then - z else z) <$> mag
  | _ => None
  end.

Definition py_key (v : json) : outcome pykey :=
  match v with
  | JNull => Ok KNone
  | JBool b => Ok (KInt (if b then 1 else 0))
  | JInt n => Ok (KInt n)
  | JFloat f =>
      Ok (match float_int_value f with Some n => KInt n | None => KFloat f end)
  | JStr s => Ok (KStr s)
  | JList _ | JObj _ => Raise TypeError
  end.

(** The key of [_callbacks] a value can match: the keys there are the
    integers handed out by [send_message]. *)
Definition int_key (k : pykey) : option Z :=
  match k with KInt n => Some n | _ => None end.

#[global] Instance spec_float_eq_dec : EqDecision spec_float.
Proof. solve_decision. Defined.

#[global] Instance pykey_eq_dec : EqDecision pykey.
Proof. solve_decision. Defined.

Definition spec_float_code (f : spec_float)
  : bool + (bool + (unit + bool * positive * Z)) :=
  match f with
  | S754_zero s => inl s
  | S754_infinity s => inr (inl s)
  | S754_nan => inr (inr (inl tt))
  | S754_finite s m e => inr (inr (inr (s, m, e)))
  end.

Definition spec_float_decode (c : bool + (bool + (unit + bool * positive * Z)))
  : spec_float :=
  match c with
  | inl s => S754_zero s
  | inr (inl s) => S754_infinity s
  | inr (inr (inl _)) => S754_nan
  | inr (inr (inr (s, m, e))) => S754_finite s m e
  end.

#[global] Instance spec_float_countable : Countable spec_float.
Proof.
  apply (inj_countable' spec_float_code spec_float_decode).
  by intros [].
Defined.

Definition pykey_code (k : pykey) : unit + (Z + (spec_float + string)) :=
  match k with
  | KNone => inl tt
  | KInt n => inr (inl n)
  | KFloat f => inr (inr (inl f))
  | KStr s => inr (inr (inr s))
  end.

Definition pykey_decode (c : unit + (Z + (spec_float + string))) : pykey :=
  match c with
  | inl _ => KNone
  | inr (inl n) => KInt n
  | inr (inr (inl f)) => KFloat f
  | inr (inr (inr s)) => KStr s
  end.

#[global] Instance pykey_countable : Countable pykey.
Proof.
  apply (inj_countable' pykey_code pykey_decode).
  by intros [].
Defined.

(** A Python dictionary built by the client: hashable keys, decoded values. *)
Abbreviation pydict := (gmap pykey json).

(** ** The string methods the event router uses *)

Definition endswith (s suffix : string) : bool :=
  let n := String.length s in
  let m := String.length suffix in
  (m <=? n)%nat && String.eqb (substring (n - m) m s) suffix.

(** [s.replace(old, new)] for a non-empty [old]: occurrences are found left
    to right and do not overlap.  [skip] counts the characters of the
    occurrence just replaced that are still to be dropped. *)
Fixpoint replace_from (old new : string) (skip : nat) (s : string) : string :=
  match s with
  | EmptyString => EmptyString
  | String c rest =>
      match skip with
      | S k => replace_from old new k rest
      | O =>
          if String.prefix old s
          then String.append new (replace_from old new (String.length old - 1) rest)
          else String c (replace_from old new 0 rest)
      end
  end.

Definition replace (s old new : string) : string := replace_from old new 0 s.

(* ===================================================================== *)
(** * The client object                                                    *)
(* ===================================================================== *)

(** A connection handle returned by [create_connection]. *)
Definition websocket := nat.

(** The closures registered as response callbacks: the nested function of
    [refresh_registry] with the registry name it captured, the bound method
    [_handle_get_states], the lambda of [_post_auth_init], the nested
    function of [update_registry] with the registry and the caller's callback
    it captured, and a callback handed in by a caller of the class, of which
    only the invocation is observed. *)
Inductive callback : Type :=
| Cb_on_list_result (registry_name : string)
| Cb_handle_get_states
| Cb_store_services
| Cb_on_update_result (registry : string) (user : option callback)
| Cb_external (tag : nat).

(** A [threading.Thread] held in a field: still running its loop, or
    finished (by leaving the loop or by an exception that escaped it). *)
Inductive thread_state : Type := Running | Finished.

(** The thread a method is called from. *)
Inductive thread : Type := MainThread | ReceiverThread | PingThread.

(** A value of [self.store]: the mappings built by the client, and the
    service catalog kept as it was decoded. *)
Inductive store_val : Type :=
| SDict (d : pydict)
| SJson (j : json).

Record client : Type := Client {
  url : string;
  token : string;
  verbose : bool;
  _ws : option websocket;
  _stop_event : bool;
  _current_id : Z;
  _callbacks : gmap Z callback;
  _last_ping_id : option Z;
  _ping_interval : Z;
  _last_ping_time : Z;
  _receiver_thread : option thread_state;
  _ping_thread : option thread_state;
  _authenticated : bool;
  _manual_stop : bool;
  store : gmap string store_val
}.

Definition set_ws (v : option websocket) (c : client) : client :=
  Client (url c) (token c) (verbose c) v (_stop_event c) (_current_id c)
    (_callbacks c) (_last_ping_id c) (_ping_interval c) (_last_ping_time c)
    (_receiver_thread c) (_ping_thread c) (_authenticated c) (_manual_stop c)
    (store c).

Definition set_stop_event (v : bool) (c : client) : client :=
  Client (url c) (token c) (verbose c) (_ws c) v (_current_id c)
    (_callbacks c) (_last_ping_id c) (_ping_interval c) (_last_ping_time c)
    (_receiver_thread c) (_ping_thread c) (_authenticated c) (_manual_stop c)
    (store c).

Definition set_current_id (v : Z) (c : client) : client :=
  Client (url c) (token c) (verbose c) (_ws c) (_stop_event c) v
    (_callbacks c) (_last_ping_id c) (_ping_interval c) (_last_ping_time c)
    (_receiver_thread c) (_ping_thread c) (_authenticated c) (_manual_stop c)
    (store c).

Definition set_callbacks (v : gmap Z callback) (c : client) : client :=
  Client (url c) (token c) (verbose c) (_ws c) (_stop_event c) (_current_id c)
    v (_last_ping_id c) (_ping_interval c) (_last_ping_time c)
    (_receiver_thread c) (_ping_thread c) (_authenticated c) (_manual_stop c)
    (store c).

Definition set_last_ping_id (v : option Z) (c : client) : client :=
  Client (url c) (token c) (verbose c) (_ws c) (_stop_event c) (_current_id c)
    (_callbacks c) v (_ping_interval c) (_last_ping_time c)
    (_receiver_thread c) (_ping_thread c) (_authenticated c) (_manual_stop c)
    (store c).

Definition set_last_ping_time (v : Z) (c : client) : client :=
  Client (url c) (token c) (verbose c) (_ws c) (_stop_event c) (_current_id c)
    (_callbacks c) (_last_ping_id c) (_ping_interval c) v
    (_receiver_thread c) (_ping_thread c) (_authenticated c) (_manual_stop c)
    (store c).

Definition set_receiver_thread (v : option thread_state) (c : client) : client :=
  Client (url c) (token c) (verbose c) (_ws c) (_stop_event c) (_current_id c)
    (_callbacks c) (_last_ping_id c) (_ping_interval c) (_last_ping_time c)
    v (_ping_thread c) (_authenticated c) (_manual_stop c)
    (store c).

Definition set_ping_thread (v : option thread_state) (c : client) : client :=
  Client (url c) (token c) (verbose c) (_ws c) (_stop_event c) (_current_id c)
    (_callbacks c) (_last_ping_id c) (_ping_interval c) (_last_ping_time c)
    (_receiver_thread c) v (_authenticated c) (_manual_stop c)
    (store c).

Definition set_authenticated (v : bool) (c : client) : client :=
  Client (url c) (token c) (verbose c) (_ws c) (_stop_event c) (_current_id c)
    (_callbacks c) (_last_ping_id c) (_ping_interval c) (_last_ping_time c)
    (_receiver_thread c) (_ping_thread c) v (_manual_stop c)
    (store c).

Definition set_manual_stop (v : bool) (c : client) : client :=
  Client (url c) (token c) (verbose c) (_ws c) (_stop_event c) (_current_id c)
    (_callbacks c) (_last_ping_id c) (_ping_interval c) (_last_ping_time c)
    (_receiver_thread c) (_ping_thread c) (_authenticated c) v
    (store c).

Definition set_store (v : gmap string store_val) (c : client) : client :=
  Client (url c) (token c) (verbose c) (_ws c) (_stop_event c) (_current_id c)
    (_callbacks c) (_last_ping_id c) (_ping_interval c) (_last_ping_time c)
    (_receiver_thread c) (_ping_thread c) (_authenticated c) (_manual_stop c)
    v.

(* ===================================================================== *)
(** * Observable effects                                                   *)
(* ===================================================================== *)

(** The lines the client prints. *)
Inductive logline : Type :=
| LogAlreadyConnected
| LogConnecting (u : string)
| LogInitialConnectFailed
| LogReceiverClosed
| LogReceiverError
| LogReceiverExiting
| LogPingNoSocket
| LogPingUnanswered
| LogPingExiting
| LogReconnected
| LogReconnectFailed
| LogNonJson (raw : string)
| LogAuthRequested
| LogAuthenticated
| LogAuthInvalid (data : json)
| LogSendingAuth
| LogSending (payload : json)
| LogRegistryChanged (registry_name : string)
| LogUnhandledEvent (data : json)
| LogUnhandledMessage (data : json).

Inductive event : Type :=
| EvPrint (line : logline)
| EvSleep (seconds : Z)
| EvOpen (w : websocket)
| EvOpenFailed
| EvSend (w : websocket) (payload : json)
| EvSendFailed (w : websocket) (payload : json)
| EvClose (w : websocket)
| EvCallback (tag : nat) (msg : json).

(* ===================================================================== *)
(** * The monad of the methods                                             *)
(* ===================================================================== *)

(** A method runs on the client object, sees the effects so far (the
    network answers as a function of them) and gives its outcome, the
    object as it left it and the effects it added.  Assignments made before
    an exception stay made. *)
Definition M (A : Type) : Type :=
  client -> list event -> outcome A * client * list event.

Definition ret {A} (a : A) : M A := fun c _ => (Ok a, c, []).

Definition raise {A} (e : exn) : M A := fun c _ => (Raise e, c, []).

Definition bind {A B} (m : M A) (k : A -> M B) : M B :=
  fun c h =>
    match m c h with
    | (Ok a, c1, es1) =>
        match k a c1 (h ++ es1) with
        | (o, c2, es2) => (o, c2, es1 ++ es2)
        end
    | (Raise e, c1, es1) => (Raise e, c1, es1)
    end.

(** [try: m  except Exception: handler] *)
Definition try_except {A} (m : M A) (handler : exn -> M A) : M A :=
  fun c h =>
    match m c h with
    | (Ok a, c1, es1) => (Ok a, c1, es1)
    | (Raise e, c1, es1) =>
        match handler e c1 (h ++ es1) with
        | (o, c2, es2) => (o, c2, es1 ++ es2)
        end
    end.

Definition gets {A} (f : client -> A) : M A := fun c _ => (Ok (f c), c, []).

Definition modify (f : client -> client) : M unit := fun c _ => (Ok tt, f c, []).

Definition emit (e : event) : M unit := fun c _ => (Ok tt, c, [e]).

Definition lift {A} (o : outcome A) : M A := fun c _ => (o, c, []).

Definition when (b : bool) (m : M unit) : M unit := if b then m else ret tt.

Declare Scope py_scope.
Delimit Scope py_scope with py.
Notation "x <- m ;; k" := (bind m (fun x => k))
  (at level 100, m at next level, k at level 200, right associativity) : py_scope.
Notation "m ;; k" := (bind m (fun _ => k))
  (at level 100, k at level 200, right associativity) : py_scope.
Local Open Scope py_scope.

Definition print (l : logline) : M unit := emit (EvPrint l).
Definition sleep (seconds : Z) : M unit := emit (EvSleep seconds).

Definition result_of {A} (r : outcome A * client * list event) : outcome A :=
  fst (fst r).
Definition client_of {A} (r : outcome A * client * list event) : client :=
  snd (fst r).
Definition events_of {A} (r : outcome A * client * list event) : list event :=
  snd r.

(* ===================================================================== *)
(** * The methods of [HassClient]                                          *)
(* ===================================================================== *)

(** The registry table of the source: registry name to the id field of
    its records. *)
Definition REGISTRIES : list (string * string) :=
  [ ("entity_registry", "entity_id");
    ("device_registry", "id");
    ("area_registry", "area_id");
    ("label_registry", "id");
    ("floor_registry", "floor_id") ]%string.

(** What [self._ws.recv()] gave the receiver loop. *)
Inductive recv_result : Type :=
| RecvTimeout
| RecvClosed
| RecvError
| RecvData (raw : string).

(** [for x in xs: body(x)] *)
Fixpoint for_each {A} (xs : list A) (body : A -> M unit) : M unit :=
  match xs with
  | [] => ret tt
  | x :: rest => body x ;; for_each rest body
  end.

(** The loop shared by [on_list_result] and [_handle_get_states]: each item
    with a truthy id goes into the new mapping under that id. *)
Fixpoint index_by (id_field : string) (items : list json) (new_data : pydict)
  : outcome pydict :=
  match items with
  | [] => Ok new_data
  | item :: rest =>
      let? rec_id := py_get item id_field JNull in
      if truthy rec_id
      then let? k := py_key rec_id in index_by id_field rest (<[k := item]> new_data)
      else index_by id_field rest new_data
  end.

Definition store_set (name : string) (v : store_val) : M unit :=
  modify (fun c => set_store (<[name := v]> (store c)) c).

Section Client.

(** The decoder: [json.loads] returns the decoded document or raises --
    [ValueError] on text that is not JSON, and whatever else it raises
    (as [RecursionError] on text nested too deep). *)
Variable json_loads : string -> outcome json.

(** The network, as a function of what has happened so far:
    [create_connection] returns a handle or raises, [ws.send] writes the
    frame or raises. *)
Variable create_connection : list event -> option websocket.
Variable ws_send : list event -> websocket -> json -> bool.

(** The table the client is configured with ([REGISTRIES] in the source). *)
Variable registry_table : list (string * string).

Definition open_connection : M websocket := fun c h =>
  match create_connection h with
  | Some w => (Ok w, c, [EvOpen w])
  | None => (Raise SocketError, c, [EvOpenFailed])
  end.

(** [self._ws.send(json.dumps(payload))] *)
Definition sock_send (payload : json) : M unit := fun c h =>
  match _ws c with
  | None => (Raise AttributeError, c, [])
  | Some w =>
      if ws_send h w payload
      then (Ok tt, c, [EvSend w payload])
      else (Raise SocketError, c, [EvSendFailed w payload])
  end.

Definition _establish_ws : M unit :=
  u <- gets url ;;
  print (LogConnecting u) ;;
  modify (set_authenticated false) ;;
  w <- open_connection ;;
  modify (set_ws (Some w)).

Definition _close_ws : M unit :=
  ws <- gets _ws ;;
  match ws with
  | Some w => emit (EvClose w)
  | None => ret tt
  end ;;
  modify (set_ws None) ;;
  modify (set_authenticated false).

Definition send_message (payload : json) (callback : option callback) : M Z :=
  ws <- gets _ws ;;
  match ws with
  | None => raise (RuntimeError "Not connected, can't send message.")
  | Some _ =>
      auth <- gets _authenticated ;;
      if negb auth
      then raise (RuntimeError "Not authenticated, can't send message.")
      else
        msg_id <- gets _current_id ;;
        modify (set_current_id (msg_id + 1)) ;;
        payload <- lift (py_setitem payload "id" (JInt msg_id)) ;;
        match callback with
        | Some cb => modify (fun c => set_callbacks (<[msg_id := cb]> (_callbacks c)) c)
        | None => ret tt
        end ;;
        v <- gets verbose ;;
        when v (print (LogSending payload)) ;;
        sock_send payload ;;
        ret msg_id
  end.

Definition refresh_registry (registry_name : string) : M unit :=
  send_message
    (JObj [("type"%string, JStr ("config/" +:+ registry_name +:+ "/list"))])
    (Some (Cb_on_list_result registry_name)) ;;
  ret tt.

Definition on_list_result (registry_name : string) (msg : json) : M unit :=
  r <- lift (py_get msg "result" JNull) ;;
  if negb (truthy r) then ret tt
  else
    items <- lift (py_getitem msg "result") ;;
    id_field <- lift (match assoc_get registry_name registry_table with
                      | Some f => Ok f
                      | None => Raise KeyError
                      end) ;;
    new_data <- lift (let? its := py_iter items in index_by id_field its ∅) ;;
    store_set registry_name (SDict new_data).

Definition _handle_get_states (msg : json) : M unit :=
  result <- lift (py_get msg "result" (JList [])) ;;
  new_states <- lift (let? its := py_iter result in index_by "entity_id" its ∅) ;;
  store_set "states" (SDict new_states).

Definition _get_states : M unit :=
  send_message (JObj [("type"%string, JStr "get_states")])
    (Some Cb_handle_get_states) ;;
  ret tt.

(** [lambda msg: self.store.update({"services": msg.get("result", {})})] *)
Definition store_services (msg : json) : M unit :=
  r <- lift (py_get msg "result" (JObj [])) ;;
  store_set "services" (SJson r).

(** Calling a registered callback with the decoded frame. *)
Fixpoint invoke (cb : callback) (msg : json) : M unit :=
  match cb with
  | Cb_on_list_result registry_name => on_list_result registry_name msg
  | Cb_handle_get_states => _handle_get_states msg
  | Cb_store_services => store_services msg
  | Cb_on_update_result registry user =>
      refresh_registry registry ;;
      match user with
      | Some cb' => invoke cb' msg
      | None => ret tt
      end
  | Cb_external tag => emit (EvCallback tag msg)
  end.

(** [{"type": f"config/{registry}/update", **kwargs}] *)
Definition update_payload (registry : string) (kwargs : list (string * json))
  : json :=
  JObj (fold_left (fun acc kv => assoc_set (fst kv) (snd kv) acc) kwargs
          [("type"%string, JStr ("config/" +:+ registry +:+ "/update"))]).

Definition update_registry (registry : string) (callback : option callback)
    (kwargs : list (string * json)) : M Z :=
  send_message (update_payload registry kwargs)
    (Some (Cb_on_update_result registry callback)).

Definition _send_auth : M unit :=
  ws <- gets _ws ;;
  match ws with
  | None => ret tt
  | Some _ =>
      modify (set_authenticated false) ;;
      v <- gets verbose ;;
      when v (print LogSendingAuth) ;;
      tok <- gets token ;;
      sock_send (JObj [("type", JStr "auth"); ("access_token", JStr tok)]%string)
  end.

Definition _post_auth_init : M unit :=
  modify (set_authenticated true) ;;
  send_message (JObj [("type"%string, JStr "subscribe_events")]) None ;;
  for_each (map fst registry_table) refresh_registry ;;
  _get_states ;;
  send_message (JObj [("type"%string, JStr "get_services")])
    (Some Cb_store_services) ;;
  ret tt.

(** [self.store["states"][entity_id] = new_state]; the entry under
    ["states"] is a mapping from [__init__] on (see [states_is_mapping]). *)
Definition states_setitem (entity_id new_state : json) : M unit :=
  st <- gets store ;;
  match st !! "states"%string with
  | None => raise KeyError
  | Some (SJson _) => raise TypeError
  | Some (SDict d) =>
      k <- lift (py_key entity_id) ;;
      store_set "states" (SDict (<[k := new_state]> d))
  end.

Definition _handle_state_changed_event (event_obj : json) : M unit :=
  data <- lift (py_get event_obj "data" (JObj [])) ;;
  entity_id <- lift (py_get data "entity_id" JNull) ;;
  if negb (truthy entity_id) then ret tt
  else
    new_state <- lift (py_get data "new_state" JNull) ;;
    match new_state with
    | JNull => ret tt
    | _ => states_setitem entity_id new_state
    end.

(** [event_type and event_type.endswith("_registry_updated")]: a falsy
    value stops the test, a string is examined, anything else has no
    such method. *)
Definition is_registry_update (event_type : json) : outcome bool :=
  if negb (truthy event_type) then Ok false
  else match event_type with
       | JStr s => Ok (endswith s "_registry_updated")
       | _ => Raise AttributeError
       end.

Definition registry_of (event_type : json) : string :=
  match event_type with
  | JStr s => replace s "_updated" ""
  | _ => EmptyString
  end.

Definition in_table (registry_name : string) : bool :=
  match assoc_get registry_name registry_table with
  | Some _ => true
  | None => false
  end.

Definition _handle_event (data : json) : M unit :=
  event_obj <- lift (py_get data "event" (JObj [])) ;;
  event_type <- lift (py_get event_obj "event_type" JNull) ;;
  is_upd <- lift (is_registry_update event_type) ;;
  if is_upd then
    let registry_name := registry_of event_type in
    if in_table registry_name then
      print (LogRegistryChanged registry_name) ;;
      refresh_registry registry_name ;;
      if String.eqb registry_name "entity_registry" then _get_states else ret tt
    else ret tt
  else if str_eq event_type "state_changed" then
    _handle_state_changed_event event_obj
  else if str_eq event_type "recorder_5min_statistics_generated"
          || str_eq event_type "recorder_hourly_statistics_generated" then
    ret tt
  else print (LogUnhandledEvent data).

Definition join (exit_line : logline) (t : thread_state) : M unit :=
  match t with
  | Running => print exit_line
  | Finished => ret tt
  end.

(** [stop], called from thread [caller]; a thread does not join itself.
    The joined loop sees the stop signal and leaves. *)
Definition stop (caller : thread) : M unit :=
  modify (set_manual_stop true) ;;
  modify (set_stop_event true) ;;
  modify (set_authenticated false) ;;
  _close_ws ;;
  rt <- gets _receiver_thread ;;
  match rt, caller with
  | Some _, ReceiverThread => ret tt
  | Some t, _ => join LogReceiverExiting t ;; modify (set_receiver_thread None)
  | None, _ => ret tt
  end ;;
  pt <- gets _ping_thread ;;
  match pt, caller with
  | Some _, PingThread => ret tt
  | Some t, _ => join LogPingExiting t ;; modify (set_ping_thread None)
  | None, _ => ret tt
  end.

(** [msg_id in self._callbacks] followed by [self._callbacks.pop(msg_id)]:
    the callback registered under the value, if it is a key. *)
Definition lookup_callback (msg_id : json) : M (option (Z * callback)) :=
  k <- lift (py_key msg_id) ;;
  cbs <- gets _callbacks ;;
  match int_key k with
  | None => ret None
  | Some n => ret ((fun cb => (n, cb)) <$> cbs !! n)
  end.

Definition pop_callback (n : Z) : M unit :=
  modify (fun c => set_callbacks (delete n (_callbacks c)) c).

Definition _handle_message (thr : thread) (raw_msg : string) : M unit :=
  match json_loads raw_msg with
  | Raise ValueError => print (LogNonJson raw_msg)
  | Raise e => raise e
  | Ok data =>
      msg_type <- lift (py_get data "type" JNull) ;;
      msg_id <- lift (py_get data "id" JNull) ;;
      if str_eq msg_type "auth_required" then
        print LogAuthRequested ;; _send_auth
      else if str_eq msg_type "auth_ok" then
        print LogAuthenticated ;; _post_auth_init
      else if str_eq msg_type "auth_invalid" then
        print (LogAuthInvalid data) ;; stop thr
      else if str_eq msg_type "pong" then
        found <- lookup_callback msg_id ;;
        match found with
        | Some (n, cb) => pop_callback n ;; invoke cb data
        | None => ret tt
        end ;;
        modify (set_last_ping_id None)
      else if str_eq msg_type "result" then
        success <- lift (py_get data "success" (JBool false)) ;;
        if truthy success then
          found <- lookup_callback msg_id ;;
          match found with
          | Some (n, cb) => pop_callback n ;; invoke cb data
          | None => ret tt
          end
        else ret tt
      else if str_eq msg_type "event" then
        _handle_event data
      else
        found <- lookup_callback msg_id ;;
        match found with
        | Some (n, cb) => pop_callback n ;; invoke cb data
        | None => print (LogUnhandledMessage data)
        end
  end.

Definition _attempt_reconnect : M unit :=
  _close_ws ;;
  manual <- gets _manual_stop ;;
  if manual then ret tt
  else
    sleep 1 ;;
    ok <- try_except
            (_establish_ws ;; print LogReconnected ;; ret true)
            (fun _ =>
               print LogReconnectFailed ;;
               _close_ws ;;
               modify (set_ws None) ;;
               ret false) ;;
    if ok then modify (set_last_ping_id None) else ret tt.

(** One pass through the body of the [while] of [_ping_loop], with [now]
    the value [time.time()] returns in it. *)
Definition _ping_loop_body (now : Z) : M unit :=
  ws <- gets _ws ;;
  match ws with
  | None => print LogPingNoSocket ;; _attempt_reconnect
  | Some _ =>
      last <- gets _last_ping_time ;;
      interval <- gets _ping_interval ;;
      auth <- gets _authenticated ;;
      if (interval <=? now - last) && auth then
        modify (set_last_ping_time now) ;;
        outstanding <- gets _last_ping_id ;;
        match outstanding with
        | Some _ => print LogPingUnanswered ;; _attempt_reconnect
        | None =>
            id <- send_message (JObj [("type"%string, JStr "ping")]) None ;;
            modify (set_last_ping_id (Some id))
        end
      else ret tt
  end ;;
  sleep 1.

(** One pass through the body of the [while] of [_receiver_loop], with
    [r] what [recv] does if it is called. *)
Definition _receiver_loop_body (r : recv_result) : M unit :=
  ws <- gets _ws ;;
  match ws with
  | None => sleep 1
  | Some _ =>
      match r with
      | RecvTimeout => ret tt
      | RecvClosed => print LogReceiverClosed ;; modify (set_ws None)
      | RecvError => print LogReceiverError ;; modify (set_ws None)
      | RecvData raw =>
          if String.eqb raw EmptyString then ret tt
          else _handle_message ReceiverThread raw
      end
  end.

End Client.

Section Session.

Variable json_loads : string -> outcome json.
Variable create_connection : list event -> option websocket.
Variable ws_send : list event -> websocket -> json -> bool.
Variable registry_table : list (string * string).

(** [{registry_name: {} for registry_name in REGISTRIES}] and then
    [store["states"] = {}] *)
Definition initial_store : gmap string store_val :=
  <["states"%string := SDict ∅]>
    (fold_left (fun st name => <[name := SDict ∅]> st)
       (map fst registry_table) ∅).

Definition __init__ (url token : string) (verbose : bool) : client :=
  {| url := url; token := token; verbose := verbose;
     _ws := None;
     _stop_event := false;
     _current_id := 1;
     _callbacks := ∅;
     _last_ping_id := None;
     _ping_interval := 10;
     _last_ping_time := 0;
     _receiver_thread := None;
     _ping_thread := None;
     _authenticated := false;
     _manual_stop := false;
     store := initial_store |}.

(** [if not t or not t.is_alive(): t = Thread(...); t.start()] *)
Definition ensure_running (t : option thread_state) : option thread_state :=
  match t with
  | Some Running => t
  | Some Finished | None => Some Running
  end.

Definition connect : M unit :=
  ws <- gets _ws ;;
  match ws with
  | Some _ => print LogAlreadyConnected
  | None =>
      stop MainThread ;;
      modify (set_manual_stop false) ;;
      modify (set_stop_event false) ;;
      try_except (_establish_ws create_connection)
        (fun _ =>
           print LogInitialConnectFailed ;;
           _close_ws ;;
           modify (set_ws None)) ;;
      modify (fun c => set_receiver_thread (ensure_running (_receiver_thread c)) c) ;;
      modify (fun c => set_ping_thread (ensure_running (_ping_thread c)) c)
  end.

(** ** The three activities sharing the client

    The ping thread and the receiver thread each perform one iteration of
    their loop at a time; a caller of the class invokes a public method.
    An exception that escapes a loop ends its thread; one that escapes a
    method goes to the caller. *)
Inductive activity : Type :=
| PingIteration (now : Z)
| ReceiverIteration (r : recv_result)
| CallSendMessage (payload : json) (callback : option callback)
| CallUpdateRegistry (registry : string) (callback : option callback)
    (kwargs : list (string * json))
| CallRefreshRegistry (registry_name : string)
| CallStop
| CallConnect.

Definition ping_thread_step (now : Z) : M unit :=
  t <- gets _ping_thread ;;
  match t with
  | Some Running =>
      stopped <- gets _stop_event ;;
      if stopped then
        print LogPingExiting ;; modify (set_ping_thread (Some Finished))
      else
        try_except (_ping_loop_body create_connection ws_send now)
          (fun _ => modify (set_ping_thread (Some Finished)))
  | _ => ret tt
  end.

Definition receiver_thread_step (r : recv_result) : M unit :=
  t <- gets _receiver_thread ;;
  match t with
  | Some Running =>
      stopped <- gets _stop_event ;;
      if stopped then
        print LogReceiverExiting ;; modify (set_receiver_thread (Some Finished))
      else
        try_except (_receiver_loop_body json_loads ws_send registry_table r)
          (fun _ => modify (set_receiver_thread (Some Finished)))
  | _ => ret tt
  end.

Definition discard {A} (m : M A) : M unit :=
  try_except (m ;; ret tt) (fun _ => ret tt).

Definition perform (a : activity) : M unit :=
  match a with
  | PingIteration now => ping_thread_step now
  | ReceiverIteration r => receiver_thread_step r
  | CallSendMessage payload callback =>
      discard (send_message ws_send payload callback)
  | CallUpdateRegistry registry callback kwargs =>
      discard (update_registry ws_send registry callback kwargs)
  | CallRefreshRegistry registry_name =>
      discard (refresh_registry ws_send registry_name)
  | CallStop => stop MainThread
  | CallConnect => connect
  end.

Definition run (schedule : list activity) : M unit := for_each schedule perform.

End Session.

(* ===================================================================== *)
(** * Stand-ins for the outside world, used in the examples               *)
(* ===================================================================== *)

(** A network where every open and every write succeeds; the handle of a
    new connection is numbered by the effects before it. *)
Definition open_always : list event -> option websocket :=
  fun h => Some (length h).
Definition open_never : list event -> option websocket := fun _ => None.
Definition write_always : list event -> websocket -> json -> bool :=
  fun _ _ _ => true.

(** A decoder given by the table of the frames it understands. *)
Definition loads_table (frames : list (string * json)) : string -> outcome json :=
  fun raw =>
    match assoc_get raw frames with
    | Some data => Ok data
    | None => Raise ValueError
    end.

Definition client0 : client := __init__ REGISTRIES "wss://hub/api/websocket" "secret" false.

(** [client0] once connected and authenticated. *)
Definition client_ready : client := set_authenticated true (set_ws (Some 0%nat) client0).

(** The text of a few frames as they travel. *)
Definition dq : string :=
  String (Ascii.Ascii false true false false false true false false) EmptyString.
Definition q (s : string) : string := dq +:+ s +:+ dq.

(** [{"type": "pong", "id": 7}] *)
Definition raw_pong7 : string :=
  "{" +:+ q "type" +:+ ": " +:+ q "pong" +:+ ", " +:+ q "id" +:+ ": 7}".
Definition pong7 : json := JObj [("type", JStr "pong"); ("id", JInt 7)]%string.

(** [{"id": 3, "type": "result", "success": false}] *)
Definition raw_failed3 : string :=
  "{" +:+ q "id" +:+ ": 3, " +:+ q "type" +:+ ": " +:+ q "result" +:+ ", "
      +:+ q "success" +:+ ": false}".
Definition failed3 : json :=
  JObj [("id", JInt 3); ("type", JStr "result"); ("success", JBool false)]%string.

(* ===================================================================== *)
(** * Reading the record of effects                                        *)
(* ===================================================================== *)

(** A call of [create_connection], whether it returned or raised. *)
Definition is_open_attempt (e : event) : bool :=
  match e with
  | EvOpen _ | EvOpenFailed => true
  | _ => false
  end.

Definition open_attempts (es : list event) : nat :=
  length (filter (fun e => is_open_attempt e = true) es).

(** The [type] of each frame written to the socket, in order. *)
Definition frame_type (payload : json) : string :=
  match py_get payload "type" JNull with
  | Ok (JStr t) => t
  | _ => EmptyString
  end.

Fixpoint sent_types (es : list event) : list string :=
  match es with
  | [] => []
  | EvSend _ payload :: rest => frame_type payload :: sent_types rest
  | _ :: rest => sent_types rest
  end.

(** A frame handed to the socket, written or not. *)
Definition is_write (e : event) : bool :=
  match e with
  | EvSend _ _ | EvSendFailed _ _ => true
  | _ => false
  end.

Definition is_connect (a : activity) : bool :=
  match a with
  | CallConnect => true
  | _ => false
  end.

(** A schedule that stays within the run started by the last [connect]. *)
Definition same_run (schedule : list activity) : bool :=
  forallb (fun a => negb (is_connect a)) schedule.

(** After a full stop: the manual-stop flag is up and there is no handle. *)
Definition halted (c : client) : Prop :=
  _manual_stop c = true /\ _ws c = None.

(** The frames on which [_handle_message] reaches one of its three
    [self._callbacks.pop]: a pong, a result whose [success] is truthy, and
    a frame that is none of the kinds with a branch of their own. *)
Definition popping_kind (data : json) : bool :=
  match py_get data "type" JNull with
  | Ok t =>
      if str_eq t "auth_required" || str_eq t "auth_ok" || str_eq t "auth_invalid"
      then false
      else if str_eq t "pong" then true
      else if str_eq t "result" then
        match py_get data "success" (JBool false) with
        | Ok s => truthy s
        | Raise _ => false
        end
      else if str_eq t "event" then false
      else true
  | Raise _ => false
  end.

(** The key of [_callbacks] the [id] of a frame designates, if any. *)
Definition frame_key (data : json) : option Z :=
  match (let? id := py_get data "id" JNull in py_key id) with
  | Ok k => int_key k
  | Raise _ => None
  end.

Definition frame_pops (data : json) (n : Z) : bool :=
  popping_kind data
  && match frame_key data with Some m => m =? n | None => false end.

Definition is_pong (data : json) : bool :=
  match py_get data "type" JNull with
  | Ok t => str_eq t "pong"
  | Raise _ => false
  end.

(** The session is Ready: a handle is present and authentication is done. *)
Definition ready (c : client) : Prop :=
  is_Some (_ws c) /\ _authenticated c = true.

(** The [type] of the listing request of a registry. *)
Definition list_request (registry_name : string) : string :=
  "config/" +:+ registry_name +:+ "/list".

Definition count_type (t : string) (types : list string) : nat :=
  count_occ string_dec types t.

(** Every registered callback sits under an id already handed out. *)
Definition ids_fresh (c : client) : Prop :=
  forall n, is_Some (_callbacks c !! n) -> n < _current_id c.

(** Whether an activity is the receiver handling a frame that pops the
    callback registered under [n]. *)
Definition activity_pops (json_loads : string -> outcome json)
    (a : activity) (n : Z) : bool :=
  match a with
  | ReceiverIteration (RecvData raw) =>
      match json_loads raw with
      | Ok data => frame_pops data n
      | Raise _ => false
      end
  | _ => false
  end.

(* ===================================================================== *)
(** * Probes and reconnections in the record of effects                    *)
(* ===================================================================== *)

(** A probe that went out: a [ping] frame written to the socket. *)
Definition is_probe (e : event) : bool :=
  match e with
  | EvSend _ payload => String.eqb (frame_type payload) "ping"
  | _ => false
  end.

(** A connection that was established. *)
Definition is_opened (e : event) : bool :=
  match e with
  | EvOpen _ => true
  | _ => false
  end.

(** Reading the effects in order and counting the connections established
    since the last probe ([None] before the first probe): a probe is in
    order as the first one, or after exactly one reconnection; [None] as a
    result reports a probe out of order. *)
Fixpoint probe_scan (since : option nat) (es : list event) : option (option nat) :=
  match es with
  | [] => Some since
  | e :: rest =>
      if is_probe e then
        match since with
        | None | Some 1%nat => probe_scan (Some 0%nat) rest
        | Some _ => None
        end
      else if is_opened e then probe_scan (S <$> since) rest
      else probe_scan since rest
  end.

(** Between two consecutive probes there is exactly one reconnection. *)
Definition probes_spaced (es : list event) : Prop :=
  is_Some (probe_scan None es).

Definition probes (es : list event) : nat :=
  length (filter (fun e => is_probe e = true) es).

(** The activities of a run in which no probe is ever answered and the
    connection is lost only through the monitor: the two loops iterate, the
    receiver gets timeouts and frames other than [pong], callers send
    frames other than [ping] and may stop the client. *)
Definition unanswered (json_loads : string -> outcome json) (a : activity) : bool :=
  match a with
  | PingIteration _ => true
  | ReceiverIteration RecvTimeout => true
  | ReceiverIteration (RecvData raw) =>
      match json_loads raw with
      | Ok data => negb (is_pong data)
      | Raise _ => true
      end
  | ReceiverIteration _ => false
  | CallSendMessage payload _ => negb (String.eqb (frame_type payload) "ping")
  | CallUpdateRegistry registry _ kwargs =>
      negb (String.eqb (frame_type (update_payload registry kwargs)) "ping")
  | CallRefreshRegistry _ => true
  | CallStop => true
  | CallConnect => false
  end.

(** What the probe tracker says, given the connections established since
    the last probe: right after a probe it holds an id; after the one
    reconnection it is empty and the handle is there (or the client was
    stopped). *)
Definition phase (c : client) (since : option nat) : Prop :=
  match since with
  | None => True
  | Some k =>
      (is_Some (_last_ping_id c) /\ k = 0%nat)
      \/ (_last_ping_id c = None /\ k = 1%nat
          /\ (is_Some (_ws c) \/ _manual_stop c = true))
  end.

(** It holds as long as the ping thread runs. *)
Definition tracker_inv (c : client) (since : option nat) : Prop :=
  _ping_thread c = Some Running -> phase c since.

(* ===================================================================== *)
(** * Vocabulary of the specifications                                     *)
(* ===================================================================== *)

(** The client after [send_message] has numbered a frame and recorded its
    callback. *)
Definition after_send (callback : option callback) (c : client) : client :=
  match callback with
  | Some cb =>
      set_callbacks (<[_current_id c := cb]> (_callbacks c))
        (set_current_id (_current_id c + 1) c)
  | None => set_current_id (_current_id c + 1) c
  end.

Definition send_log (c : client) (payload : json) : list event :=
  if verbose c then [EvPrint (LogSending payload)] else [].

(** The frame of a probe once [send_message] has numbered it. *)
Definition ping_frame (id : Z) : json :=
  JObj [("type", JStr "ping"); ("id", JInt id)]%string.

Definition no_write (e : event) : Prop := is_write e = false.

(** A method that, started Ready, returns normally, stays Ready and
    writes frames of exactly the given types. *)
Definition issues {A} (m : M A) (types : list string) : Prop :=
  forall c h, ready c ->
    exists a c' es, m c h = (Ok a, c', es) /\ ready c' /\ sent_types es = types.

(** [R c es c'] relates the client before, the effects added and the
    client after.  A method respects [R] when every run of it does; if [R]
    holds of doing nothing and of doing one thing after another, it is
    enough that the elementary steps respect it. *)
Definition preserves (R : client -> list event -> client -> Prop)
    {A} (m : M A) : Prop :=
  forall c h, R c (events_of (m c h)) (client_of (m c h)).

Record closed (R : client -> list event -> client -> Prop) : Prop := {
  closed_nil : forall c, R c [] c;
  closed_app : forall c c1 c2 es1 es2,
    R c es1 c1 -> R c1 es2 c2 -> R c (es1 ++ es2) c2
}.

(** The elementary steps of the frame handler, apart from popping a
    callback and clearing the probe tracker. *)
Record handler_safe (ws_send : list event -> websocket -> json -> bool)
    (R : client -> list event -> client -> Prop) : Prop := {
  safe_closed : closed R;
  safe_print : forall l c, R c [EvPrint l] c;
  safe_callback : forall tag msg c, R c [EvCallback tag msg] c;
  safe_authenticated : forall b c, R c [] (set_authenticated b c);
  safe_store : forall st c, R c [] (set_store st c);
  safe_send_message : forall payload callback,
    frame_type payload <> "ping"%string ->
    preserves R (send_message ws_send payload callback);
  safe_sock_send : forall payload,
    frame_type payload <> "ping"%string ->
    preserves R (sock_send ws_send payload);
  safe_stop : forall thr, preserves R (stop thr)
}.

(** The step relation: while ids are fresh they stay fresh, the counter
    does not go back, and the callback under [n] is still there. *)
Definition keeps (n : Z) : client -> list event -> client -> Prop :=
  fun c _ c' =>
    ids_fresh c ->
    ids_fresh c'
    /\ _current_id c <= _current_id c'
    /\ (forall cb, _callbacks c !! n = Some cb -> _callbacks c' !! n = Some cb).

Definition quiet_event (e : event) : Prop :=
  is_probe e = false /\ is_opened e = false.

(** The step relation of everything but the monitor and a pong: the
    tracker is as before, no probe went out and no connection was opened,
    the handle is as before unless the client was stopped, a stop is not
    undone and no ping thread is started. *)
Definition quiet : client -> list event -> client -> Prop :=
  fun c es c' =>
    _last_ping_id c' = _last_ping_id c
    /\ Forall quiet_event es
    /\ (_ws c' = _ws c \/ _manual_stop c' = true)
    /\ (_manual_stop c = true -> _manual_stop c' = true)
    /\ (_ping_thread c' = Some Running -> _ping_thread c = Some Running).

(* ===================================================================== *)
(** * Example data                                                         *)
(* ===================================================================== *)

Definition labels_before : pydict :=
  {[ KStr "kitchen" := JObj [("id", JStr "kitchen"); ("name", JStr "Kitchen")]%string ]}.

Definition client_with_label : client :=
  set_store (<["label_registry"%string := SDict labels_before]> (store client_ready))
    client_ready.

Definition empty_listing : json :=
  JObj [("id", JInt 4); ("type", JStr "result"); ("success", JBool true);
        ("result", JList [])]%string.

Definition kitchen_on : json :=
  JObj [("entity_id", JStr "light.kitchen"); ("state", JStr "on")]%string.

Definition client_with_state : client :=
  set_store (<["states"%string := SDict {[ KStr "light.kitchen" := kitchen_on ]}]>
               (store client_ready))
    client_ready.

(** The [event] object of a [state_changed] push for a removed entity. *)
Definition removed_event : json :=
  JObj [("event_type", JStr "state_changed");
        ("data", JObj [("entity_id", JStr "light.kitchen");
                       ("old_state", kitchen_on);
                       ("new_state", JNull)])]%string.

(** [{"type": "auth_ok", "ha_version": "2024.1.0"}] *)
Definition raw_auth_ok : string :=
  "{" +:+ q "type" +:+ ": " +:+ q "auth_ok" +:+ ", " +:+ q "ha_version" +:+ ": "
      +:+ q "2024.1.0" +:+ "}".
Definition auth_ok_frame : json :=
  JObj [("type", JStr "auth_ok"); ("ha_version", JStr "2024.1.0")]%string.

(** [{"type": "auth_invalid", "message": "Invalid access token"}] *)
Definition raw_auth_invalid : string :=
  "{" +:+ q "type" +:+ ": " +:+ q "auth_invalid" +:+ ", " +:+ q "message" +:+ ": "
      +:+ q "Invalid access token" +:+ "}".
Definition auth_invalid_frame : json :=
  JObj [("type", JStr "auth_invalid"); ("message", JStr "Invalid access token")]%string.

(** [{"id": 2, "type": "event", "event": {"event_type":
    "entity_registry_updated", "data": {"action": "update", "entity_id":
    "light.kitchen"}}}] *)
Definition raw_entity_updated : string :=
  "{" +:+ q "id" +:+ ": 2, " +:+ q "type" +:+ ": " +:+ q "event" +:+ ", "
      +:+ q "event" +:+ ": {" +:+ q "event_type" +:+ ": "
      +:+ q "entity_registry_updated" +:+ ", " +:+ q "data" +:+ ": {"
      +:+ q "action" +:+ ": " +:+ q "update" +:+ ", " +:+ q "entity_id" +:+ ": "
      +:+ q "light.kitchen" +:+ "}}}".
Definition entity_updated_event : json :=
  JObj [("event_type", JStr "entity_registry_updated");
        ("data", JObj [("action", JStr "update");
                       ("entity_id", JStr "light.kitchen")])]%string.
Definition entity_updated_frame : json :=
  JObj [("id", JInt 2); ("type", JStr "event"); ("event", entity_updated_event)]%string.

(** [{"type": "pong", "id": 3}] *)
Definition raw_pong3 : string :=
  "{" +:+ q "type" +:+ ": " +:+ q "pong" +:+ ", " +:+ q "id" +:+ ": 3}".
Definition pong3 : json := JObj [("type", JStr "pong"); ("id", JInt 3)]%string.

(** The decoder of the examples: the frames above, nothing else. *)
Definition frames_loads : string -> outcome json :=
  loads_table [(raw_pong7, pong7); (raw_failed3, failed3);
               (raw_auth_ok, auth_ok_frame);
               (raw_auth_invalid, auth_invalid_frame);
               (raw_entity_updated, entity_updated_frame)].

(** [n] opening brackets: arrays nested [n] deep. *)
Fixpoint nested_text (n : nat) : string :=
  match n with
  | O => EmptyString
  | S k => "[" +:+ nested_text k
  end.

(** A decoder with a recursion limit, as CPython's has: on a thousand
    opening brackets [json.loads] raises [RecursionError]. *)
Definition loads_with_limit : string -> outcome json :=
  fun raw =>
    if String.eqb raw (nested_text 1000) then Raise RecursionError
    else frames_loads raw.

(** A listing of two labels. *)
Definition hall_label : json :=
  JObj [("id", JStr "hall"); ("name", JStr "Hall")]%string.
Definition attic_label : json :=
  JObj [("id", JStr "attic"); ("name", JStr "Attic")]%string.
Definition labels_listing : json :=
  JObj [("id", JInt 4); ("type", JStr "result"); ("success", JBool true);
        ("result", JList [hall_label; attic_label])]%string.
Definition labels_after : pydict :=
  <[KStr "attic" := attic_label]> (<[KStr "hall" := hall_label]> ∅).

(** A [state_changed] push that turns the kitchen light off. *)
Definition kitchen_off : json :=
  JObj [("entity_id", JStr "light.kitchen"); ("state", JStr "off")]%string.
Definition kitchen_event_data : json :=
  JObj [("entity_id", JStr "light.kitchen"); ("old_state", kitchen_on);
        ("new_state", kitchen_off)]%string.
Definition kitchen_event : json :=
  JObj [("event_type", JStr "state_changed"); ("data", kitchen_event_data)]%string.

(** [client_ready] with both threads running. *)
Definition client_running : client :=
  set_ping_thread (Some Running) (set_receiver_thread (Some Running) client_ready).

(** ... and with probe 1 outstanding since time 10. *)
Definition client_probing : client :=
  set_last_ping_time 10 (set_last_ping_id (Some 1) (set_current_id 2 client_running)).

(** ... and with a callback pending under id 3. *)
Definition client_pending : client :=
  set_callbacks {[ 3 := Cb_external 0 ]} (set_current_id 4 client_running).

(** A run in which the probe of time 10 is never answered: the monitor
    reconnects at time 20, the server accepts the credentials again, and
    the next probe goes out at time 30. *)
Definition unanswered_run : list activity :=
  [PingIteration 10; PingIteration 11; PingIteration 20;
   ReceiverIteration (RecvData raw_auth_ok); PingIteration 21;
   ReceiverIteration RecvTimeout; PingIteration 30].

(* ===================================================================== *)
(** * Invariants of a whole session                                        *)
(* ===================================================================== *)

(** The elementary steps of the client, as far as the store, the pending
    callbacks, the id counter and the frames written are concerned.  A
    relation that holds of each of them, of doing nothing and of doing one
    thing after another, holds of every method and of every run. *)
Record session_steps
    (ws_send : list event -> websocket -> json -> bool)
    (R : client -> list event -> client -> Prop) : Prop := {
  steps_closed : closed R;
  steps_silent : forall e c, is_write e = false -> R c [e] c;
  steps_field : forall c c',
    store c' = store c -> _callbacks c' = _callbacks c ->
    _current_id c' = _current_id c -> R c [] c';
  steps_cache : forall name d c,
    R c [] (set_store (<[name := SDict d]> (store c)) c);
  steps_services : forall v c,
    R c [] (set_store (<["services"%string := SJson v]> (store c)) c);
  steps_pop : forall n c, R c [] (set_callbacks (delete n (_callbacks c)) c);
  steps_send_message : forall payload callback,
    preserves R (send_message ws_send payload callback);
  steps_auth : forall tok,
    preserves R
      (sock_send ws_send
         (JObj [("type", JStr "auth"); ("access_token", JStr tok)]%string))
}.

(** The State Cache is there and is a mapping. *)
Definition has_state_cache (c : client) : Prop :=
  exists d, store c !! "states"%string = Some (SDict d).

Definition cache_kept : client -> list event -> client -> Prop :=
  fun c _ c' => has_state_cache c -> has_state_cache c'.

(** The id a frame carries, and the ids of the frames handed to the
    socket, in order. *)
Definition frame_id (payload : json) : option Z :=
  match py_get payload "id" JNull with
  | Ok (JInt n) => Some n
  | _ => None
  end.

Fixpoint request_ids (es : list event) : list Z :=
  match es with
  | [] => []
  | EvSend _ payload :: rest | EvSendFailed _ payload :: rest =>
      match frame_id payload with
      | Some n => n :: request_ids rest
      | None => request_ids rest
      end
  | _ :: rest => request_ids rest
  end.

(** [ids] goes up strictly, from [lo] at least and staying below [hi]. *)
Fixpoint ids_between (lo : Z) (ids : list Z) (hi : Z) : Prop :=
  match ids with
  | [] => lo <= hi
  | i :: rest => lo <= i /\ ids_between (i + 1) rest hi
  end.

(** The frames written carry increasing ids taken from the counter. *)
Definition numbered : client -> list event -> client -> Prop :=
  fun c es c' => ids_between (_current_id c) (request_ids es) (_current_id c').

(** The id [n] was handed out and no callback waits under it. *)
Definition retired (n : Z) (c : client) : Prop :=
  ids_fresh c /\ n < _current_id c /\ _callbacks c !! n = None.

Definition stays_retired (n : Z) : client -> list event -> client -> Prop :=
  fun c _ c' => retired n c -> retired n c'.

(* ===================================================================== *)
(** * [service_utils.flatten_fields]                                       *)
(* ===================================================================== *)

(** [sub in s] for two strings. *)
Fixpoint contains_str (sub s : string) : bool :=
  match s with
  | EmptyString => String.prefix sub EmptyString
  | String _ rest => String.prefix sub s || contains_str sub rest
  end.

(** [k in v] for a string [k]: a key of a dict, an item of a list, a piece
    of a string; the other values are not containers. *)
Definition py_contains (v : json) (k : string) : outcome bool :=
  match v with
  | JObj fields =>
      Ok (match assoc_get k fields with Some _ => true | None => false end)
  | JList items => Ok (existsb (fun item => str_eq item k) items)
  | JStr s => Ok (contains_str k s)
  | _ => Raise TypeError
  end.

(** [d.items()]; only a [dict] has the method. *)
Definition py_items (v : json) : outcome (list (string * json)) :=
  match v with
  | JObj fields => Ok fields
  | _ => Raise AttributeError
  end.

(** [for k, v in items: result[k] = v] *)
Definition set_all (items result : list (string * json)) : list (string * json) :=
  fold_left (fun acc kv => assoc_set (fst kv) (snd kv) acc) items result.

(** The loop of [flatten_fields] over the items still to visit. *)
Fixpoint flatten_loop (items result : list (string * json))
  : outcome (list (string * json)) :=
  match items with
  | [] => Ok result
  | (key, val) :: rest =>
      let? advanced :=
        (if String.eqb key "advanced_fields" then py_contains val "fields"
         else Ok false) in
      if advanced then
        let? inner := py_getitem val "fields" in
        let? adv_items := py_items inner in
        flatten_loop rest (set_all adv_items result)
      else flatten_loop rest (assoc_set key val result)
  end.

Definition flatten_fields (fields : json) : outcome json :=
  let? items := py_items fields in
  let? result := flatten_loop items [] in
  Ok (JObj result).

(** The fields of a service definition with an advanced section. *)
Definition light_turn_on_fields : json :=
  JObj [("transition", JObj [("example", JInt 3)]);
        ("advanced_fields",
         JObj [("collapsed", JBool true);
               ("fields", JObj [("flash", JObj [("example", JStr "short")]);
                                ("transition", JObj [("example", JInt 5)])])]);
        ("brightness", JObj [("example", JInt 120)])]%string.

(* ===================================================================== *)
(** * Laws of the monad                                                    *)
(* ===================================================================== *)

Lemma run_eta {A} (r : outcome A * client * list event) :
  r = (result_of r, client_of r, events_of r).
Proof. by destruct r as [[o c] es]. Qed.

Lemma bind_run {A B} (m : M A) (k : A -> M B) c h a c1 es1 :
  m c h = (Ok a, c1, es1) ->
  bind m k c h
  = (result_of (k a c1 (h ++ es1)), client_of (k a c1 (h ++ es1)),
     es1 ++ events_of (k a c1 (h ++ es1))).
Proof.
  intros Hm. unfold bind. rewrite Hm.
  by destruct (k a c1 (h ++ es1)) as [[o c2] es2].
Qed.

Lemma bind_raise {A B} (m : M A) (k : A -> M B) c h e c1 es1 :
  m c h = (Raise e, c1, es1) -> bind m k c h = (Raise e, c1, es1).
Proof. intros Hm. unfold bind. by rewrite Hm. Qed.

Lemma bind_ok_inv {A B} (m : M A) (k : A -> M B) c h b c2 es :
  bind m k c h = (Ok b, c2, es) ->
  exists a c1 es1 es2,
    m c h = (Ok a, c1, es1)
    /\ k a c1 (h ++ es1) = (Ok b, c2, es2)
    /\ es = es1 ++ es2.
Proof.
  unfold bind. destruct (m c h) as [[[a|e] c1] es1]; [| discriminate].
  destruct (k a c1 (h ++ es1)) as [[o c2'] es2] eqn:Hk.
  intros [= -> -> <-]. by exists a, c1, es1, es2.
Qed.

(** Steps that add no effect: the continuation runs on the same history. *)
Lemma bind_silent {A B} (m : M A) (k : A -> M B) c h a c1 :
  m c h = (Ok a, c1, []) -> bind m k c h = k a c1 h.
Proof.
  intros Hm. rewrite (bind_run _ _ _ _ _ _ _ Hm), app_nil_r.
  symmetry. apply run_eta.
Qed.

Lemma bind_ret {A B} (a : A) (k : A -> M B) c h : bind (ret a) k c h = k a c h.
Proof. by apply bind_silent. Qed.

Lemma bind_gets {A B} (f : client -> A) (k : A -> M B) c h :
  bind (gets f) k c h = k (f c) c h.
Proof. by apply bind_silent. Qed.

Lemma bind_modify {B} (f : client -> client) (k : unit -> M B) c h :
  bind (modify f) k c h = k tt (f c) h.
Proof. by apply bind_silent. Qed.

Lemma bind_lift_ok {A B} (a : A) (k : A -> M B) c h :
  bind (lift (Ok a)) k c h = k a c h.
Proof. by apply bind_silent. Qed.

Lemma bind_lift_raise {A B} (e : exn) (k : A -> M B) c h :
  bind (lift (Raise e)) k c h = (Raise e, c, []).
Proof. by apply bind_raise. Qed.

Lemma bind_raise_now {A B} (e : exn) (k : A -> M B) c h :
  bind (raise e) k c h = (Raise e, c, []).
Proof. by apply bind_raise. Qed.

Lemma bind_emit {B} (e : event) (k : unit -> M B) c h :
  bind (emit e) k c h
  = (result_of (k tt c (h ++ [e])), client_of (k tt c (h ++ [e])),
     e :: events_of (k tt c (h ++ [e]))).
Proof. by apply (bind_run (emit e) k c h tt c [e]). Qed.

Lemma bind_assoc {A B C} (m : M A) (k1 : A -> M B) (k2 : B -> M C) c h :
  bind (bind m k1) k2 c h = bind m (fun a => bind (k1 a) k2) c h.
Proof.
  unfold bind. destruct (m c h) as [[[a|e] c1] es1]; [| done].
  destruct (k1 a c1 (h ++ es1)) as [[[b|e] c2] es2]; [| done].
  rewrite <- app_assoc.
  destruct (k2 b c2 (h ++ es1 ++ es2)) as [[o c3] es3].
  by rewrite <- app_assoc.
Qed.

Lemma bind_print {B} (l : logline) (k : unit -> M B) c h :
  bind (print l) k c h
  = (result_of (k tt c (h ++ [EvPrint l])), client_of (k tt c (h ++ [EvPrint l])),
     EvPrint l :: events_of (k tt c (h ++ [EvPrint l]))).
Proof. apply bind_emit. Qed.

Lemma bind_sleep {B} (n : Z) (k : unit -> M B) c h :
  bind (sleep n) k c h
  = (result_of (k tt c (h ++ [EvSleep n])), client_of (k tt c (h ++ [EvSleep n])),
     EvSleep n :: events_of (k tt c (h ++ [EvSleep n]))).
Proof. apply bind_emit. Qed.

Lemma try_except_ok {A} (m : M A) (handler : exn -> M A) c h a c1 es1 :
  m c h = (Ok a, c1, es1) -> try_except m handler c h = (Ok a, c1, es1).
Proof. intros Hm. unfold try_except. by rewrite Hm. Qed.

Lemma try_except_raise {A} (m : M A) (handler : exn -> M A) c h e c1 es1 :
  m c h = (Raise e, c1, es1) ->
  try_except m handler c h
  = (result_of (handler e c1 (h ++ es1)), client_of (handler e c1 (h ++ es1)),
     es1 ++ events_of (handler e c1 (h ++ es1))).
Proof.
  intros Hm. unfold try_except. rewrite Hm.
  by destruct (handler e c1 (h ++ es1)) as [[o c2] es2].
Qed.

Lemma result_of_pair {A} (o : outcome A) c es : result_of (o, c, es) = o.
Proof. done. Qed.
Lemma client_of_pair {A} (o : outcome A) c es : client_of (o, c, es) = c.
Proof. done. Qed.
Lemma events_of_pair {A} (o : outcome A) c es : events_of (o, c, es) = es.
Proof. done. Qed.

Create Rewrite HintDb py.
#[export] Hint Rewrite @bind_ret @bind_gets @bind_modify @bind_lift_ok
  @bind_lift_raise @bind_raise_now @bind_assoc
  @result_of_pair @client_of_pair @events_of_pair : py.

(** Symbolic execution of the silent steps at the head of a method. *)
Ltac py_step := autorewrite with py; cbv beta.

Ltac py_fields :=
  cbn [url token verbose _ws _stop_event _current_id _callbacks _last_ping_id
       _ping_interval _last_ping_time _receiver_thread _ping_thread
       _authenticated _manual_stop store
       set_ws set_stop_event set_current_id set_callbacks set_last_ping_id
       set_last_ping_time set_receiver_thread set_ping_thread set_authenticated
       set_manual_stop set_store negb when].

Ltac py_run := repeat (progress (autorewrite with py; cbv beta; py_fields)).

(* ===================================================================== *)
(** * Sending while not Ready                                              *)
(* ===================================================================== *)

(** C2: when the session is not Ready (no connection handle, or the
    authenticated flag is false), [send_message] raises at once: nothing is
    written, the id counter and the callback map -- the whole client -- are
    as before. *)
Theorem send_message_not_ready :
  forall ws_send payload callback (c : client) (h : list event),
    _ws c = None \/ _authenticated c = false ->
    exists msg, send_message ws_send payload callback c h
                = (Raise (RuntimeError msg), c, []).
Proof.
  intros ws_send payload callback c h Hnot.
  unfold send_message, bind, gets. simpl.
  destruct (_ws c) as [w|] eqn:Hws.
  - destruct Hnot as [Hnone | Hauth]; [discriminate |].
    rewrite Hauth. simpl. eexists. reflexivity.
  - eexists. reflexivity.
Qed.

Lemma send_message_not_ready_witness :
  exists msg,
    send_message write_always (JObj [("type"%string, JStr "call_service")])
      (Some (Cb_external 0)) client0 []
    = (Raise (RuntimeError msg), client0, []).
Proof.
  apply send_message_not_ready. left. reflexivity.
Defined.

(* ===================================================================== *)
(** * Frames that do not parse                                             *)
(* ===================================================================== *)

(** A payload that [json.loads] rejects with [ValueError] is printed and
    dropped; the client object is left exactly as it was (handle,
    authenticated flag, callbacks, probe tracker, store), nothing is closed
    or written, and the receiver loop that delivered it goes on running. *)
Theorem malformed_frame_discarded :
  forall json_loads ws_send table thr raw (c : client) (h : list event),
    json_loads raw = Raise ValueError ->
    _handle_message json_loads ws_send table thr raw c h
      = (Ok tt, c, [EvPrint (LogNonJson raw)])
    /\ (forall w, _ws c = Some w -> raw <> EmptyString ->
        _receiver_loop_body json_loads ws_send table (RecvData raw) c h
          = (Ok tt, c, [EvPrint (LogNonJson raw)])).
Proof.
  intros json_loads ws_send table thr raw c h Hbad.
  assert (Hmsg : forall t h', _handle_message json_loads ws_send table t raw c h'
                 = (Ok tt, c, [EvPrint (LogNonJson raw)])).
  { intros t h'. unfold _handle_message. rewrite Hbad. reflexivity. }
  split; [apply Hmsg |].
  intros w Hws Hne.
  unfold _receiver_loop_body, bind, gets. cbn beta iota. rewrite Hws.
  destruct (String.eqb_spec raw EmptyString) as [-> | _]; [congruence |].
  rewrite Hmsg. reflexivity.
Qed.

Lemma malformed_frame_discarded_witness :
  _handle_message frames_loads write_always REGISTRIES ReceiverThread
      "not json" client_ready []
    = (Ok tt, client_ready, [EvPrint (LogNonJson "not json")])
  /\ (forall w, _ws client_ready = Some w -> "not json"%string <> EmptyString ->
      _receiver_loop_body frames_loads write_always REGISTRIES
          (RecvData "not json") client_ready []
        = (Ok tt, client_ready, [EvPrint (LogNonJson "not json")])).
Proof.
  apply malformed_frame_discarded. reflexivity.
Defined.

(** Any other exception of the decoder leaves the handler as it is. *)
Lemma decoder_exception_escapes :
  forall json_loads ws_send table thr raw e (c : client) (h : list event),
    json_loads raw = Raise e ->
    e <> ValueError ->
    _handle_message json_loads ws_send table thr raw c h = (Raise e, c, []).
Proof.
  intros json_loads ws_send table thr raw e c h Hbad Hne.
  unfold _handle_message. rewrite Hbad. by destruct e.
Qed.

(** C9: the claim fails on the code.  A payload that fails to parse
    with an exception other than [ValueError] -- a thousand opening
    brackets make the decoder raise [RecursionError] -- is neither logged
    nor discarded: the exception leaves the handler and, nothing catching
    it, the receiver loop; no line is printed, the receiver thread ends,
    and the frames that arrive later (here a pong) are not handled. *)
Theorem deep_frame_ends_receiver :
  let raw := nested_text 1000 in
  let ended := set_receiver_thread (Some Finished) client_probing in
  loads_with_limit raw = Raise RecursionError
  /\ _handle_message loads_with_limit write_always REGISTRIES ReceiverThread raw
       client_probing []
     = (Raise RecursionError, client_probing, [])
  /\ receiver_thread_step loads_with_limit write_always REGISTRIES (RecvData raw)
       client_probing []
     = (Ok tt, ended, [])
  /\ _receiver_thread client_probing = Some Running
  /\ receiver_thread_step loads_with_limit write_always REGISTRIES
       (RecvData raw_pong7) ended []
     = (Ok tt, ended, []).
Proof.
  vm_compute. repeat split; reflexivity.
Qed.

(** A result frame whose [success] is falsy is dropped without a trace. *)
Lemma failed_result_is_dropped :
  forall json_loads ws_send table thr raw data success (c : client) (h : list event),
    json_loads raw = Ok data ->
    py_get data "type" JNull = Ok (JStr "result") ->
    py_get data "success" (JBool false) = Ok success ->
    truthy success = false ->
    _handle_message json_loads ws_send table thr raw c h = (Ok tt, c, []).
Proof.
  intros json_loads ws_send table thr raw data success c h Hload Htype Hsucc Hfalse.
  unfold _handle_message. rewrite Hload.
  destruct data as [| | | | | |fields]; try discriminate.
  rewrite Htype. py_step. cbn [py_get] in Hsucc |- *. py_step.
  cbn [str_eq String.eqb Ascii.eqb Bool.eqb].
  injection Hsucc as <-. py_step. rewrite Hfalse. reflexivity.
Qed.

(** C3: the claim fails on the code.  A listing response whose result
    is the empty list -- the last label was deleted -- is dropped by the
    truthiness guard at the head of the callback: the callback returns
    without touching the store, the label cached before is still there and
    the cache entry is not the empty mapping.  The sibling handler of the
    [get_states] response, given the same response, does empty its
    cache. *)
Theorem empty_listing_keeps_old_mapping :
  let r := on_list_result REGISTRIES "label_registry" empty_listing
             client_with_label [] in
  py_get empty_listing "result" JNull = Ok (JList [])
  /\ r = (Ok tt, client_with_label, [])
  /\ store (client_of r) !! "label_registry"%string = Some (SDict labels_before)
  /\ store (client_of r) !! "label_registry"%string <> Some (SDict ∅)
  /\ store (client_of (_handle_get_states empty_listing client_with_state []))
       !! "states"%string = Some (SDict ∅).
Proof.
  vm_compute. repeat split; try reflexivity. discriminate.
Qed.

Lemma index_by_from {id_field} items :
  forall acc m,
    index_by id_field items acc = Ok m ->
    (forall k item, m !! k = Some item ->
       acc !! k = Some item
       \/ (In item items
           /\ exists rec_id, py_get item id_field JNull = Ok rec_id
                             /\ truthy rec_id = true /\ py_key rec_id = Ok k))
    /\ (forall k, is_Some (acc !! k) -> is_Some (m !! k))
    /\ (forall item rec_id k,
          In item items -> py_get item id_field JNull = Ok rec_id ->
          truthy rec_id = true -> py_key rec_id = Ok k -> is_Some (m !! k)).
Proof.
  induction items as [|item rest IH]; intros acc m Hidx; cbn in Hidx.
  - injection Hidx as <-. repeat split; [by left | done | by intros ? ? ? []].
  - destruct (py_get item id_field JNull) as [rec_id|] eqn:Hget; [| discriminate].
    cbn in Hidx. destruct (truthy rec_id) eqn:Htruthy.
    + destruct (py_key rec_id) as [k0|] eqn:Hkey; [| discriminate].
      cbn in Hidx. destruct (IH _ _ Hidx) as (Hfrom & Hkeep & Hall).
      repeat split.
      * intros k it Hm. destruct (Hfrom k it Hm) as [Hacc | (Hin & rid & ? & ? & ?)].
        -- destruct (decide (k0 = k)) as [<- | Hne].
           ++ rewrite lookup_insert_eq in Hacc. injection Hacc as <-.
              right. split; [by left |]. by exists rec_id.
           ++ rewrite lookup_insert_ne in Hacc by done. by left.
        -- right. split; [by right |]. by exists rid.
      * intros k Hk. apply Hkeep. destruct (decide (k0 = k)) as [<- | Hne].
        -- rewrite lookup_insert_eq. by eexists.
        -- by rewrite lookup_insert_ne.
      * intros it rid k [<- | Hin] Hg Ht Hk.
        -- rewrite Hget in Hg. injection Hg as <-. rewrite Hkey in Hk.
           injection Hk as <-. apply Hkeep. rewrite lookup_insert_eq. by eexists.
        -- by apply (Hall it rid k).
    + destruct (IH _ _ Hidx) as (Hfrom & Hkeep & Hall).
      repeat split.
      * intros k it Hm. destruct (Hfrom k it Hm) as [Hacc | (Hin & rid & ? & ? & ?)].
        -- by left.
        -- right. split; [by right |]. by exists rid.
      * done.
      * intros it rid k [<- | Hin] Hg Ht Hk.
        -- rewrite Hget in Hg. injection Hg as <-. congruence.
        -- by apply (Hall it rid k).
Qed.

(** C8, as stated, fails: a [state_changed] event whose [new_state] is
    null (the entity was removed) overwrites no entry; the state cached for
    the entity stays and is not set to the event's new state. *)
Lemma state_changed_without_new_state_writes_nothing :
  let r := _handle_state_changed_event removed_event client_with_state [] in
  (let? data := py_get removed_event "data" (JObj []) in
   py_get data "new_state" JNull) = Ok JNull
  /\ r = (Ok tt, client_with_state, [])
  /\ store (client_of r) !! "states"%string
     = Some (SDict {[ KStr "light.kitchen" := kitchen_on ]})
  /\ store (client_of r) !! "states"%string
     <> Some (SDict {[ KStr "light.kitchen" := JNull ]}).
Proof.
  vm_compute. repeat split; try reflexivity. discriminate.
Qed.

(** C8, amended: a [state_changed] event with a truthy entity id and a
    non-null new state sets exactly the entry of the State Cache under that
    id to the new state; every other entry of the State Cache and every
    other entry of the store (the registry mappings) is as before.  With a
    missing or empty entity id, or a null new state, nothing is written. *)
Theorem state_changed_overwrites_one_entry :
  forall event_obj data entity_id new_state d (c : client) (h : list event),
    py_get event_obj "data" (JObj []) = Ok data ->
    py_get data "entity_id" JNull = Ok entity_id ->
    py_get data "new_state" JNull = Ok new_state ->
    store c !! "states"%string = Some (SDict d) ->
    let r := _handle_state_changed_event event_obj c h in
    (truthy entity_id = false \/ new_state = JNull -> r = (Ok tt, c, []))
    /\ (forall k,
          truthy entity_id = true -> new_state <> JNull ->
          py_key entity_id = Ok k ->
          r = (Ok tt,
               set_store (<["states"%string := SDict (<[k := new_state]> d)]> (store c)) c,
               [])
          /\ (forall k', k' <> k -> (<[k := new_state]> d) !! k' = d !! k')
          /\ (<[k := new_state]> d) !! k = Some new_state
          /\ (forall name, name <> "states"%string ->
                store (client_of r) !! name = store c !! name)).
Proof.
  intros event_obj data entity_id new_state d c h Hdata Hid Hnew Hstates r.
  subst r. unfold _handle_state_changed_event.
  rewrite Hdata. py_step. rewrite Hid. py_step.
  split.
  - intros [-> | ->]; [reflexivity |].
    destruct (truthy entity_id); [| reflexivity].
    cbn [negb]. rewrite Hnew. py_step. reflexivity.
  - intros k Htrue Hnn Hkey. rewrite Htrue. cbn [negb].
    rewrite Hnew. py_step.
    assert (Hset : states_setitem entity_id new_state c h
                   = (Ok tt,
                      set_store (<["states"%string := SDict (<[k := new_state]> d)]>
                                   (store c)) c, [])).
    { unfold states_setitem. py_step. rewrite Hstates, Hkey. py_step. reflexivity. }
    assert (Hrun : match new_state with
                   | JNull => ret tt
                   | _ => states_setitem entity_id new_state
                   end c h
                   = (Ok tt,
                      set_store (<["states"%string := SDict (<[k := new_state]> d)]>
                                   (store c)) c, [])).
    { destruct new_state; done. }
    rewrite Hrun. repeat split.
    + intros k' Hne. by rewrite lookup_insert_ne.
    + by rewrite lookup_insert_eq.
    + intros name Hne. cbn. by rewrite lookup_insert_ne.
Qed.

(** C7, amended: a pong clears the outstanding probe id whatever id it
    carries; the id only selects the pending callback.  Whenever the
    handler returns, the tracker is empty.  When no callback is registered
    under the pong's id, the handler returns and nothing but the tracker
    changes.  When a callback is registered under it, that callback is
    removed from the pending callbacks and called with the frame, and the
    tracker is cleared once the callback has returned; if the callback
    raises, the handler raises.  An id that cannot be a key (a list or an
    object) makes the lookup raise, and nothing changes. *)
Theorem pong_clears_tracker :
  forall json_loads ws_send table thr raw data (c : client) (h : list event),
    json_loads raw = Ok data ->
    py_get data "type" JNull = Ok (JStr "pong") ->
    let r := _handle_message json_loads ws_send table thr raw c h in
    (result_of r = Ok tt -> _last_ping_id (client_of r) = None)
    /\ (forall id k,
          py_get data "id" JNull = Ok id ->
          py_key id = Ok k ->
          (forall n, int_key k = Some n -> _callbacks c !! n = None) ->
          r = (Ok tt, set_last_ping_id None c, []))
    /\ (forall id k n cb,
          py_get data "id" JNull = Ok id ->
          py_key id = Ok k ->
          int_key k = Some n ->
          _callbacks c !! n = Some cb ->
          let popped := set_callbacks (delete n (_callbacks c)) c in
          r = match invoke ws_send table cb data popped h with
              | (Ok _, c2, es) => (Ok tt, set_last_ping_id None c2, es)
              | (Raise e, c2, es) => (Raise e, c2, es)
              end)
    /\ (forall id e,
          py_get data "id" JNull = Ok id ->
          py_key id = Raise e ->
          r = (Raise e, c, [])).
Proof.
  intros json_loads ws_send table thr raw data c h Hload Htype r.
  subst r. unfold _handle_message. rewrite Hload.
  destruct data as [| | | | | |fields]; try discriminate.
  rewrite Htype. py_step.
  cbn [py_get]. py_step.
  cbn [str_eq String.eqb Ascii.eqb Bool.eqb].
  split; [| split; [| split]].
  - intros Hok.
    match type of Hok with
    | result_of ?r = _ => destruct r as [[o c'] es] eqn:Hr
    end.
    cbn in Hok. subst o.
    apply bind_ok_inv in Hr as (found & c1 & es1 & es2 & _ & Hr & _).
    apply bind_ok_inv in Hr as (u & c2 & es3 & es4 & _ & Hr & _).
    injection Hr as <- _. reflexivity.
  - intros id k [= <-] Hkey Hfree.
    unfold lookup_callback. rewrite Hkey. py_step.
    destruct (int_key k) as [n|] eqn:Hn.
    + rewrite (Hfree n eq_refl). py_step. reflexivity.
    + py_step. reflexivity.
  - intros id k n cb [= <-] Hkey Hn Hcb.
    unfold lookup_callback. rewrite Hkey. py_step. rewrite Hn. py_step.
    rewrite Hcb. cbn [fmap option_fmap option_map]. py_step.
    unfold pop_callback. py_step.
    unfold bind, modify.
    destruct (invoke ws_send table cb (JObj fields) _ h) as [[[[]|e] c2] es];
      [by rewrite app_nil_r | reflexivity].
  - intros id e [= <-] Hkey.
    unfold lookup_callback. rewrite Hkey. py_step. reflexivity.
Qed.

Lemma stop_spec thr c h :
  exists c' es,
    stop thr c h = (Ok tt, c', es)
    /\ _stop_event c' = true /\ _manual_stop c' = true
    /\ _ws c' = None /\ _authenticated c' = false
    /\ (forall w, _ws c = Some w -> In (EvClose w) es)
    /\ open_attempts es = 0%nat.
Proof.
  destruct c as [u t v ws se cid cbs lp pi lpt rt pt au ms st].
  destruct ws as [w|], rt as [[]|], pt as [[]|], thr; vm_compute;
    eexists _, _; (split; [reflexivity |]);
    repeat split; try reflexivity; intros w' [= <-]; auto.
Qed.

Section Halted.
Variable json_loads : string -> outcome json.
Variable create_connection : list event -> option websocket.
Variable ws_send : list event -> websocket -> json -> bool.
Variable table : list (string * string).

Lemma attempt_reconnect_halted c h :
  halted c -> _attempt_reconnect create_connection c h = (Ok tt, set_authenticated false (set_ws None c), []).
Proof.
  intros [Hms Hws]. unfold _attempt_reconnect, _close_ws. py_step.
  rewrite Hws. py_step. cbn [_manual_stop set_authenticated set_ws].
  rewrite Hms. reflexivity.
Qed.

Lemma perform_halted a c h :
  halted c -> is_connect a = false ->
  exists c' es,
    perform json_loads create_connection ws_send table a c h = (Ok tt, c', es)
    /\ halted c' /\ open_attempts es = 0%nat.
Proof.
  intros [Hms Hws] Hnc.
  destruct c as [u t v ws se cid cbs lp pi lpt rt pt au ms st].
  cbn in Hms, Hws. subst ms ws.
  destruct a as [now | r | payload cb | registry cb kwargs | registry | | ];
    try discriminate.
  - destruct pt as [[]|], se; vm_compute; eexists _, _; (split; [reflexivity |]);
      split; try split; reflexivity.
  - destruct rt as [[]|], se; vm_compute; eexists _, _; (split; [reflexivity |]);
      split; try split; reflexivity.
  - vm_compute. eexists _, _; (split; [reflexivity |]); split; try split; reflexivity.
  - vm_compute. eexists _, _; (split; [reflexivity |]); split; try split; reflexivity.
  - vm_compute. eexists _, _; (split; [reflexivity |]); split; try split; reflexivity.
  - destruct rt as [[]|], pt as [[]|]; vm_compute; eexists _, _;
      (split; [reflexivity |]); split; try split; reflexivity.
Qed.

Lemma open_attempts_app es1 es2 :
  open_attempts (es1 ++ es2) = (open_attempts es1 + open_attempts es2)%nat.
Proof. unfold open_attempts. by rewrite filter_app, length_app. Qed.

Lemma run_halted schedule :
  forall c h,
    halted c -> same_run schedule = true ->
    exists c' es,
      run json_loads create_connection ws_send table schedule c h = (Ok tt, c', es)
      /\ halted c' /\ open_attempts es = 0%nat.
Proof.
  induction schedule as [|a rest IH]; intros c h Hc Hsame.
  - exists c, []. split; [reflexivity |]. split; [done | reflexivity].
  - cbn in Hsame. apply andb_prop in Hsame as [Ha Hrest].
    apply negb_true_iff in Ha.
    destruct (perform_halted a c h Hc Ha) as (c1 & es1 & Hp & Hc1 & Ho1).
    destruct (IH c1 (h ++ es1) Hc1 Hrest) as (c2 & es2 & Hr & Hc2 & Ho2).
    exists c2, (es1 ++ es2). split.
    + unfold run in *. cbn [for_each].
      rewrite (bind_run _ _ _ _ _ _ _ Hp), Hr. reflexivity.
    + split; [done |]. rewrite open_attempts_app. lia.
Qed.
End Halted.

(** C6: an [auth_invalid] frame makes the handler perform a full stop:
    the stop signal and the manual-stop flag are set, the handle is closed
    and dropped, the authenticated flag is cleared.  From then on a
    reconnect step returns without calling [create_connection], and in any
    schedule that does not call [connect] again no connection is opened and
    the handle stays absent. *)
Theorem auth_invalid_is_final :
  forall json_loads create_connection ws_send table thr raw data
         (c : client) (h : list event),
    json_loads raw = Ok data ->
    py_get data "type" JNull = Ok (JStr "auth_invalid") ->
    let r := _handle_message json_loads ws_send table thr raw c h in
    let c' := client_of r in
    (result_of r = Ok tt
     /\ _stop_event c' = true /\ _manual_stop c' = true
     /\ _ws c' = None /\ _authenticated c' = false
     /\ (forall w, _ws c = Some w -> In (EvClose w) (events_of r))
     /\ open_attempts (events_of r) = 0%nat)
    /\ (forall h', exists c'',
          _attempt_reconnect create_connection c' h' = (Ok tt, c'', [])
          /\ halted c'')
    /\ (forall schedule h',
          same_run schedule = true ->
          let r' := run json_loads create_connection ws_send table schedule c' h' in
          result_of r' = Ok tt
          /\ _ws (client_of r') = None
          /\ _manual_stop (client_of r') = true
          /\ open_attempts (events_of r') = 0%nat).
Proof.
  intros json_loads create_connection ws_send table thr raw data c h Hload Htype r c'.
  assert (Hr : exists es, r = (Ok tt, c', es)
            /\ _stop_event c' = true /\ _manual_stop c' = true
            /\ _ws c' = None /\ _authenticated c' = false
            /\ (forall w, _ws c = Some w -> In (EvClose w) es)
            /\ open_attempts es = 0%nat).
  { subst c' r. unfold _handle_message. rewrite Hload.
    destruct data as [| | | | | |fields]; try discriminate.
    rewrite Htype. py_step. cbn [py_get]. py_step.
    cbn [str_eq String.eqb Ascii.eqb Bool.eqb].
    destruct (stop_spec thr c (h ++ [EvPrint (LogAuthInvalid (JObj fields))]))
      as (c1 & es & Hstop & Hse & Hms & Hws & Hau & Hclose & Hopen).
    unfold print. rewrite (bind_run _ _ c h tt c [EvPrint (LogAuthInvalid (JObj fields))])
      by reflexivity.
    rewrite Hstop. cbn.
    eexists. split; [reflexivity |]. repeat split; try done.
    intros w Hw. right. by apply Hclose. }
  destruct Hr as (es & Hr & Hse & Hms & Hws & Hau & Hclose & Hopen).
  assert (Hhalt : halted c') by done.
  split; [| split].
  - rewrite Hr. done.
  - intros h'. eexists. split.
    + by apply attempt_reconnect_halted.
    + done.
  - intros schedule h' Hsame r'.
    destruct (run_halted json_loads create_connection ws_send table schedule
                c' h' Hhalt Hsame) as (c2 & es2 & Hrun & [Hms2 Hws2] & Ho2).
    subst r'. rewrite Hrun. done.
Qed.

(* ===================================================================== *)
(** * Relations every step of a method respects                            *)
(* ===================================================================== *)

Section Preserves.
Variable R : client -> list event -> client -> Prop.
Hypothesis HR : closed R.

Lemma preserves_ret {A} (a : A) : preserves R (ret a).
Proof. intros c h. apply (closed_nil R HR). Qed.

Lemma preserves_raise {A} (e : exn) : preserves R (@raise A e).
Proof. intros c h. apply (closed_nil R HR). Qed.

Lemma preserves_lift {A} (o : outcome A) : preserves R (lift o).
Proof. intros c h. apply (closed_nil R HR). Qed.

Lemma preserves_gets {A} (f : client -> A) : preserves R (gets f).
Proof. intros c h. apply (closed_nil R HR). Qed.

Lemma preserves_modify (f : client -> client) :
  (forall c, R c [] (f c)) -> preserves R (modify f).
Proof. intros Hf c h. apply Hf. Qed.

Lemma preserves_emit (e : event) :
  (forall c, R c [e] c) -> preserves R (emit e).
Proof. intros He c h. apply He. Qed.

Lemma preserves_bind {A B} (m : M A) (k : A -> M B) :
  preserves R m -> (forall a, preserves R (k a)) -> preserves R (bind m k).
Proof.
  intros Hm Hk c h. specialize (Hm c h). unfold bind.
  destruct (m c h) as [[[a|e] c1] es1]; cbn in Hm |- *; [| exact Hm].
  specialize (Hk a c1 (h ++ es1)).
  destruct (k a c1 (h ++ es1)) as [[o c2] es2]. cbn in Hk |- *.
  by apply (closed_app R HR) with c1.
Qed.

Lemma preserves_try_except {A} (m : M A) (handler : exn -> M A) :
  preserves R m -> (forall e, preserves R (handler e)) ->
  preserves R (try_except m handler).
Proof.
  intros Hm Hk c h. specialize (Hm c h). unfold try_except.
  destruct (m c h) as [[[a|e] c1] es1]; cbn in Hm |- *; [exact Hm |].
  specialize (Hk e c1 (h ++ es1)).
  destruct (handler e c1 (h ++ es1)) as [[o c2] es2]. cbn in Hk |- *.
  by apply (closed_app R HR) with c1.
Qed.

Lemma preserves_when (b : bool) (m : M unit) :
  preserves R m -> preserves R (when b m).
Proof. destruct b; [done |]. intros _. apply preserves_ret. Qed.

Lemma preserves_for_each {A} (xs : list A) (body : A -> M unit) :
  (forall x, preserves R (body x)) -> preserves R (for_each xs body).
Proof.
  intros Hbody. induction xs as [|x rest IH]; cbn [for_each].
  - apply preserves_ret.
  - apply preserves_bind; [apply Hbody | intros _; exact IH].
Qed.
End Preserves.

Create HintDb pres.

#[export] Hint Resolve preserves_ret preserves_raise preserves_lift preserves_gets
  preserves_when : pres.

(** Descend through the structure of a method. *)
Ltac pres_step HR :=
  lazymatch goal with
  | |- preserves _ (bind _ _) => apply (preserves_bind _ HR); [| intro]
  | |- preserves _ (if ?b then _ else _) => destruct b
  | |- preserves _ (match ?x with _ => _ end) => destruct x
  | |- preserves _ (when _ _) => apply (preserves_when _ HR)
  | |- preserves _ (ret _) => apply (preserves_ret _ HR)
  | |- preserves _ (raise _) => apply (preserves_raise _ HR)
  | |- preserves _ (lift _) => apply (preserves_lift _ HR)
  | |- preserves _ (gets _) => apply (preserves_gets _ HR)
  end.

Section Handler.
Variable json_loads : string -> outcome json.
Variable ws_send : list event -> websocket -> json -> bool.
Variable table : list (string * string).
Variable R : client -> list event -> client -> Prop.
Hypothesis Hsafe : handler_safe ws_send R.

Let HR : closed R := safe_closed _ _ Hsafe.

Lemma preserves_print l : preserves R (print l).
Proof. apply preserves_emit, (safe_print _ _ Hsafe). Qed.

Lemma preserves_store_set name v : preserves R (store_set name v).
Proof. apply preserves_modify. intros c. apply (safe_store _ _ Hsafe). Qed.

Lemma list_type_not_ping name :
  frame_type (JObj [("type"%string, JStr ("config/" +:+ name +:+ "/list"))])
  <> "ping"%string.
Proof. cbn. discriminate. Qed.

Lemma preserves_refresh_registry name :
  preserves R (refresh_registry ws_send name).
Proof.
  unfold refresh_registry. repeat pres_step HR.
  apply (safe_send_message _ _ Hsafe), list_type_not_ping.
Qed.

Lemma preserves_get_states : preserves R (_get_states ws_send).
Proof.
  unfold _get_states. repeat pres_step HR.
  apply (safe_send_message _ _ Hsafe). cbn. discriminate.
Qed.

Lemma preserves_on_list_result name msg :
  preserves R (on_list_result table name msg).
Proof.
  unfold on_list_result. repeat pres_step HR. apply preserves_store_set.
Qed.

Lemma preserves_handle_get_states msg : preserves R (_handle_get_states msg).
Proof.
  unfold _handle_get_states. repeat pres_step HR. apply preserves_store_set.
Qed.

Lemma preserves_store_services msg : preserves R (store_services msg).
Proof.
  unfold store_services. repeat pres_step HR. apply preserves_store_set.
Qed.

Lemma preserves_invoke : forall cb msg, preserves R (invoke ws_send table cb msg).
Proof.
  fix IH 1. intros [name | | | registry [user|] | tag] msg; cbn [invoke].
  - apply preserves_on_list_result.
  - apply preserves_handle_get_states.
  - apply preserves_store_services.
  - apply (preserves_bind _ HR); [apply preserves_refresh_registry | intros _].
    apply IH.
  - apply (preserves_bind _ HR); [apply preserves_refresh_registry | intros _].
    apply (preserves_ret _ HR).
  - apply preserves_emit. intros c. apply (safe_callback _ _ Hsafe).
Qed.

Lemma preserves_send_auth : preserves R (_send_auth ws_send).
Proof.
  unfold _send_auth. repeat pres_step HR.
  - apply preserves_modify. intros c. apply (safe_authenticated _ _ Hsafe).
  - apply preserves_print.
  - apply (safe_sock_send _ _ Hsafe). cbn. discriminate.
Qed.

Lemma preserves_post_auth_init : preserves R (_post_auth_init ws_send table).
Proof.
  unfold _post_auth_init. repeat pres_step HR.
  - apply preserves_modify. intros c. apply (safe_authenticated _ _ Hsafe).
  - apply (safe_send_message _ _ Hsafe). cbn. discriminate.
  - apply (preserves_for_each _ HR). intros name. apply preserves_refresh_registry.
  - apply preserves_get_states.
  - apply (safe_send_message _ _ Hsafe). cbn. discriminate.
Qed.

Lemma preserves_states_setitem entity_id new_state :
  preserves R (states_setitem entity_id new_state).
Proof.
  unfold states_setitem. repeat pres_step HR; apply preserves_store_set.
Qed.

Lemma preserves_handle_state_changed_event event_obj :
  preserves R (_handle_state_changed_event event_obj).
Proof.
  unfold _handle_state_changed_event.
  repeat pres_step HR; apply preserves_states_setitem.
Qed.

Lemma preserves_handle_event data :
  preserves R (_handle_event ws_send table data).
Proof.
  unfold _handle_event. repeat pres_step HR;
    lazymatch goal with
    | |- preserves _ (print _) => apply preserves_print
    | |- preserves _ (refresh_registry _ _) => apply preserves_refresh_registry
    | |- preserves _ (_get_states _) => apply preserves_get_states
    | |- preserves _ (_handle_state_changed_event _) =>
        apply preserves_handle_state_changed_event
    end.
Qed.

Lemma preserves_lookup_then {B} msg_id (k : option (Z * callback) -> M B) :
  (forall key n cb, py_key msg_id = Ok key -> int_key key = Some n ->
     preserves R (k (Some (n, cb)))) ->
  preserves R (k None) ->
  preserves R (bind (lookup_callback msg_id) k).
Proof.
  intros Hsome Hnone c h. unfold lookup_callback.
  destruct (py_key msg_id) as [key|e] eqn:Hkey; autorewrite with py; cbv beta.
  - destruct (int_key key) as [n|] eqn:Hn; autorewrite with py.
    + destruct (_callbacks c !! n) as [cb|]; cbn [fmap option_fmap option_map].
      * by apply (Hsome key n cb).
      * apply Hnone.
    + apply Hnone.
  - apply (closed_nil _ HR).
Qed.

Lemma frame_key_obj fields id key n :
  default JNull (assoc_get "id" fields) = id ->
  py_key id = Ok key -> int_key key = Some n ->
  frame_key (JObj fields) = Some n.
Proof. intros <- Hkey Hn. unfold frame_key. cbn. by rewrite Hkey. Qed.

(** The handler respects [R] on a frame as soon as the pops the frame
    can cause and, for a pong, the clearing of the tracker do. *)
Lemma preserves_handle_message thr raw :
  (forall data n, json_loads raw = Ok data -> frame_pops data n = true ->
     preserves R (pop_callback n)) ->
  (forall data, json_loads raw = Ok data -> is_pong data = true ->
     preserves R (modify (set_last_ping_id None))) ->
  preserves R (_handle_message json_loads ws_send table thr raw).
Proof.
  intros Hpop Hpong. unfold _handle_message.
  destruct (json_loads raw) as [data|e] eqn:Hload;
    [| destruct e; first [apply preserves_print | apply (preserves_raise _ HR)]].
  specialize (Hpop data). specialize (Hpong data eq_refl).
  assert (Hpop' : forall n, frame_pops data n = true -> preserves R (pop_callback n))
    by (intros n; by apply Hpop).
  clear Hpop.
  destruct data as [| | | | | |fields];
    try (intros c h; autorewrite with py; apply (closed_nil _ HR)).
  intros c h. cbn [py_get]. autorewrite with py. cbv beta. revert c h.
  unfold frame_pops, popping_kind, is_pong in *. cbn [py_get] in *.
  set (t := default JNull (assoc_get "type" fields)) in *.
  set (id := default JNull (assoc_get "id" fields)) in *.
  assert (Hk : forall key n, py_key id = Ok key -> int_key key = Some n ->
               frame_key (JObj fields) = Some n).
  { intros key n. by apply frame_key_obj. }
  change (preserves R
    (if str_eq t "auth_required" then print LogAuthRequested ;; _send_auth ws_send
     else if str_eq t "auth_ok" then print LogAuthenticated ;; _post_auth_init ws_send table
     else if str_eq t "auth_invalid" then print (LogAuthInvalid (JObj fields)) ;; stop thr
     else if str_eq t "pong" then
       found <- lookup_callback id ;;
       match found with
       | Some (n, cb) => pop_callback n ;; invoke ws_send table cb (JObj fields)
       | None => ret tt
       end ;;
       modify (set_last_ping_id None)
     else if str_eq t "result" then
       success <- lift (py_get (JObj fields) "success" (JBool false)) ;;
       if truthy success then
         found <- lookup_callback id ;;
         match found with
         | Some (n, cb) => pop_callback n ;; invoke ws_send table cb (JObj fields)
         | None => ret tt
         end
       else ret tt
     else if str_eq t "event" then _handle_event ws_send table (JObj fields)
     else
       found <- lookup_callback id ;;
       match found with
       | Some (n, cb) => pop_callback n ;; invoke ws_send table cb (JObj fields)
       | None => print (LogUnhandledMessage (JObj fields))
       end)).
  destruct (str_eq t "auth_required") eqn:E1.
  { apply (preserves_bind _ HR); [apply preserves_print | intros _].
    apply preserves_send_auth. }
  destruct (str_eq t "auth_ok") eqn:E2.
  { apply (preserves_bind _ HR); [apply preserves_print | intros _].
    apply preserves_post_auth_init. }
  destruct (str_eq t "auth_invalid") eqn:E3.
  { apply (preserves_bind _ HR); [apply preserves_print | intros _].
    apply (safe_stop _ _ Hsafe). }
  cbn [orb] in Hpop'.
  destruct (str_eq t "pong") eqn:E4.
  { apply preserves_lookup_then.
    - intros key n cb Hkey Hn.
      apply (preserves_bind _ HR); [| intros _; by apply Hpong].
      apply (preserves_bind _ HR); [| intros _; apply preserves_invoke].
      apply Hpop'. rewrite (Hk key n Hkey Hn). cbn. apply Z.eqb_refl.
    - apply (preserves_bind _ HR); [apply (preserves_ret _ HR) | intros _].
      by apply Hpong. }
  destruct (str_eq t "result") eqn:E5.
  { cbn [py_get] in *. intros c h. autorewrite with py. cbv beta. revert c h.
    match goal with |- forall c h, R c (events_of (?m c h)) _ =>
      change (preserves R m) end.
    destruct (truthy (default (JBool false) (assoc_get "success" fields))) eqn:E6;
      [| apply (preserves_ret _ HR)].
    apply preserves_lookup_then; [| apply (preserves_ret _ HR)].
    intros key n cb Hkey Hn.
    apply (preserves_bind _ HR); [| intros _; apply preserves_invoke].
    apply Hpop'. rewrite (Hk key n Hkey Hn). cbn. apply Z.eqb_refl. }
  destruct (str_eq t "event") eqn:E7; [apply preserves_handle_event |].
  apply preserves_lookup_then; [| apply preserves_print].
  intros key n cb Hkey Hn.
  apply (preserves_bind _ HR); [| intros _; apply preserves_invoke].
  apply Hpop'. rewrite (Hk key n Hkey Hn). cbn. apply Z.eqb_refl.
Qed.
End Handler.

(* ===================================================================== *)
(** * Requests issued while Ready                                          *)
(* ===================================================================== *)

Lemma assoc_get_set_ne {A} (k k' : string) (v : A) kvs :
  k <> k' -> assoc_get k' (assoc_set k v kvs) = assoc_get k' kvs.
Proof.
  intros Hne. induction kvs as [|[k0 v0] rest IH]; cbn.
  - destruct (String.eqb_spec k' k); [congruence | done].
  - destruct (String.eqb_spec k k0) as [<- | Hk0]; cbn.
    + destruct (String.eqb_spec k' k); [congruence | done].
    + destruct (String.eqb_spec k' k0); [done | exact IH].
Qed.

Lemma frame_type_setitem payload v payload' :
  py_setitem payload "id" v = Ok payload' -> frame_type payload' = frame_type payload.
Proof.
  destruct payload as [| | | | | |fields]; try discriminate.
  intros [= <-]. unfold frame_type. cbn. by rewrite assoc_get_set_ne.
Qed.

Lemma sent_types_app es1 es2 :
  sent_types (es1 ++ es2) = sent_types es1 ++ sent_types es2.
Proof.
  induction es1 as [|e rest IH]; [done |].
  destruct e; cbn; by rewrite ?IH.
Qed.

(** [send_message] on a Ready client, step by step. *)
Lemma send_message_run ws_send payload payload' callback c h w :
  _ws c = Some w -> _authenticated c = true ->
  py_setitem payload "id" (JInt (_current_id c)) = Ok payload' ->
  send_message ws_send payload callback c h
  = if ws_send (h ++ send_log c payload') w payload'
    then (Ok (_current_id c), after_send callback c,
          send_log c payload' ++ [EvSend w payload'])
    else (Raise SocketError, after_send callback c,
          send_log c payload' ++ [EvSendFailed w payload']).
Proof.
  intros Hw Hauth Hset.
  destruct c as [u t v ws se cid cbs lp pi lpt rt pt au ms st].
  cbn in Hw, Hauth, Hset. subst ws au.
  unfold send_message. py_run. rewrite Hset. py_run.
  unfold send_log, after_send, sock_send, print, emit, bind, ret, modify.
  destruct callback as [cb|], v; cbn;
    rewrite ?app_nil_r; destruct (ws_send _ w payload'); reflexivity.
Qed.

Section Ready.
Variable ws_send : list event -> websocket -> json -> bool.
Hypothesis writes_succeed : forall h w payload, ws_send h w payload = true.

Lemma issues_ret {A} (a : A) : issues (ret a) [].
Proof. intros c h Hc. by exists a, c, []. Qed.

Lemma issues_bind {A B} (m : M A) (k : A -> M B) ts1 ts2 :
  issues m ts1 -> (forall a, issues (k a) ts2) -> issues (bind m k) (ts1 ++ ts2).
Proof.
  intros Hm Hk c h Hc.
  destruct (Hm c h Hc) as (a & c1 & es1 & Em & Hc1 & <-).
  destruct (Hk a c1 (h ++ es1) Hc1) as (b & c2 & es2 & Ek & Hc2 & <-).
  exists b, c2, (es1 ++ es2). rewrite (bind_run _ _ _ _ _ _ _ Em), Ek.
  by rewrite sent_types_app.
Qed.

Lemma issues_send_message fields callback :
  issues (send_message ws_send (JObj fields) callback) [frame_type (JObj fields)].
Proof.
  intros c h [[w Hw] Hauth].
  set (payload := JObj (assoc_set "id" (JInt (_current_id c)) fields)).
  assert (Hty : frame_type payload = frame_type (JObj fields)).
  { by apply (frame_type_setitem (JObj fields) (JInt (_current_id c))). }
  rewrite (send_message_run ws_send (JObj fields) payload callback c h w Hw Hauth)
    by reflexivity.
  rewrite writes_succeed. eexists _, _, _. split; [reflexivity |]. split.
  - destruct c as [u t v ws se cid cbs lp pi lpt rt pt au ms st].
    cbn in Hw, Hauth. subst ws au. destruct callback; split; by eauto.
  - rewrite sent_types_app. unfold send_log.
    destruct (verbose c); cbn [sent_types app]; by rewrite Hty.
Qed.

Lemma issues_refresh_registry name :
  issues (refresh_registry ws_send name) [list_request name].
Proof.
  unfold refresh_registry.
  apply (issues_bind _ _ [list_request name] []); [| intros _; apply issues_ret].
  apply issues_send_message.
Qed.

Lemma issues_get_states : issues (_get_states ws_send) ["get_states"%string].
Proof.
  unfold _get_states.
  apply (issues_bind _ _ ["get_states"%string] []); [| intros _; apply issues_ret].
  apply issues_send_message.
Qed.

Lemma issues_refresh_all names :
  issues (for_each names (refresh_registry ws_send)) (map list_request names).
Proof.
  induction names as [|name rest IH]; cbn [for_each map].
  - apply issues_ret.
  - apply (issues_bind _ _ [list_request name]); [| intros _; exact IH].
    apply issues_refresh_registry.
Qed.

Lemma issues_post_auth_init table c h :
  is_Some (_ws c) ->
  exists c' es,
    _post_auth_init ws_send table c h = (Ok tt, c', es)
    /\ ready c'
    /\ sent_types es
       = "subscribe_events"%string :: map list_request (map fst table)
         ++ ["get_states"; "get_services"]%string.
Proof.
  intros Hws. unfold _post_auth_init. py_step.
  assert (Hready : ready (set_authenticated true c)) by done.
  assert (Hrest : issues
    (send_message ws_send (JObj [("type"%string, JStr "subscribe_events")]) None ;;
     for_each (map fst table) (refresh_registry ws_send) ;;
     _get_states ws_send ;;
     send_message ws_send (JObj [("type"%string, JStr "get_services")])
       (Some Cb_store_services) ;;
     ret tt)
    (["subscribe_events"%string] ++ map list_request (map fst table)
       ++ ["get_states"%string] ++ ["get_services"%string] ++ [])).
  { apply issues_bind; [apply issues_send_message | intros _].
    apply issues_bind; [apply issues_refresh_all | intros _].
    apply issues_bind; [apply issues_get_states | intros _].
    apply issues_bind; [apply issues_send_message | intros _].
    apply issues_ret. }
  destruct (Hrest _ h Hready) as ([] & c' & es & Erun & Hc' & Htypes).
  exists c', es. split; [exact Erun |]. split; [done |].
  rewrite Htypes. reflexivity.
Qed.
End Ready.

(** ** Counting the requests *)

Lemma length_append (a b : string) :
  String.length (a +:+ b) = (String.length a + String.length b)%nat.
Proof. induction a as [|ch a IH]; simpl; [done | by rewrite IH]. Qed.

Lemma append_inj_r (s a b : string) : a +:+ s = b +:+ s -> a = b.
Proof.
  revert b. induction a as [|ch a IH]; intros [|ch' b] Heq.
  - done.
  - apply (f_equal String.length) in Heq.
    rewrite !length_append in Heq. simpl in Heq. lia.
  - apply (f_equal String.length) in Heq.
    rewrite !length_append in Heq. simpl in Heq. lia.
  - simpl in Heq. injection Heq as -> Heq. f_equal. by apply IH.
Qed.

Lemma list_request_inj a b : list_request a = list_request b -> a = b.
Proof.
  unfold list_request. cbn. intros [= Heq]. by apply (append_inj_r "/list").
Qed.

Lemma count_type_cons t x types :
  count_type t (x :: types)
  = ((if String.eqb x t then 1 else 0) + count_type t types)%nat.
Proof.
  unfold count_type. cbn. destruct (string_dec x t) as [-> | Hne].
  - by rewrite String.eqb_refl.
  - apply String.eqb_neq in Hne. by rewrite Hne.
Qed.

Lemma count_type_app t l1 l2 :
  count_type t (l1 ++ l2) = (count_type t l1 + count_type t l2)%nat.
Proof. apply count_occ_app. Qed.

Lemma count_list_requests name names :
  count_type (list_request name) (map list_request names)
  = count_occ string_dec names name.
Proof.
  unfold count_type. symmetry.
  apply (count_occ_map list_request string_dec string_dec list_request_inj).
Qed.

Lemma count_other_in_list_requests t names :
  (forall name, list_request name <> t) ->
  count_type t (map list_request names) = 0%nat.
Proof.
  intros Hne. induction names as [|name rest IH]; [done |].
  cbn [map]. rewrite count_type_cons, IH.
  destruct (String.eqb_spec (list_request name) t) as [Heq | _]; [| done].
  by destruct (Hne name).
Qed.

Lemma count_occ_NoDup (names : list string) name :
  NoDup names -> In name names -> count_occ string_dec names name = 1%nat.
Proof.
  intros Hnd Hin. apply NoDup_ListNoDup in Hnd.
  by apply (proj1 (NoDup_count_occ' string_dec names) Hnd).
Qed.

(** C4: whatever the registry table (a dictionary, so without repeated
    names), handling [auth_ok] on an open connection whose writes succeed
    issues [subscribe_events], then one listing request per registry of the
    table, then [get_states], then [get_services]: exactly one listing
    request for each configured registry, none for any other, exactly one
    [get_states] and exactly one [get_services]. *)
Theorem bootstrap_requests :
  forall json_loads ws_send table thr raw data (c : client) (h : list event),
    (forall h' w payload, ws_send h' w payload = true) ->
    NoDup (map fst table) ->
    json_loads raw = Ok data ->
    py_get data "type" JNull = Ok (JStr "auth_ok") ->
    is_Some (_ws c) ->
    let r := _handle_message json_loads ws_send table thr raw c h in
    let types := sent_types (events_of r) in
    result_of r = Ok tt
    /\ types = "subscribe_events"%string :: map list_request (map fst table)
               ++ ["get_states"; "get_services"]%string
    /\ (forall name, In name (map fst table) ->
          count_type (list_request name) types = 1%nat)
    /\ (forall name, ~ In name (map fst table) ->
          count_type (list_request name) types = 0%nat)
    /\ count_type "get_states" types = 1%nat
    /\ count_type "get_services" types = 1%nat.
Proof.
  intros json_loads ws_send table thr raw data c h Hsend Hnd Hload Htype Hws r types.
  destruct (issues_post_auth_init ws_send Hsend table c (h ++ [EvPrint LogAuthenticated]) Hws)
    as (c' & es & Hrun & _ & Htypes).
  assert (Hr : r = (Ok tt, c', EvPrint LogAuthenticated :: es)).
  { subst r. unfold _handle_message. rewrite Hload.
    destruct data as [| | | | | |fields]; try discriminate.
    rewrite Htype. py_step. cbn [py_get]. py_step.
    cbn [str_eq String.eqb Ascii.eqb Bool.eqb].
    unfold print. rewrite bind_emit, Hrun. reflexivity. }
  assert (Ht : types = "subscribe_events"%string :: map list_request (map fst table)
               ++ ["get_states"; "get_services"]%string).
  { subst types. rewrite Hr. exact Htypes. }
  split; [by rewrite Hr |]. split; [exact Ht |].
  rewrite Ht. repeat split.
  - intros name Hin. rewrite count_type_cons, count_type_app, count_list_requests.
    rewrite (count_occ_NoDup _ _ Hnd Hin). reflexivity.
  - intros name Hin. rewrite count_type_cons, count_type_app, count_list_requests.
    rewrite (proj1 (count_occ_not_In string_dec _ _) Hin). reflexivity.
  - rewrite count_type_cons, count_type_app, count_other_in_list_requests; [done |].
    intros name. discriminate.
  - rewrite count_type_cons, count_type_app, count_other_in_list_requests; [done |].
    intros name. discriminate.
Qed.

(** C5: on a Ready session whose writes succeed, handling an event frame
    with [event_type] ["entity_registry_updated"] issues exactly the two
    requests [config/entity_registry/list] and [get_states], one each, and
    no listing request for any other registry. *)
Theorem entity_registry_update_requests :
  forall json_loads ws_send table thr raw data event_obj (c : client) (h : list event),
    (forall h' w payload, ws_send h' w payload = true) ->
    json_loads raw = Ok data ->
    py_get data "type" JNull = Ok (JStr "event") ->
    py_get data "event" (JObj []) = Ok event_obj ->
    py_get event_obj "event_type" JNull = Ok (JStr "entity_registry_updated") ->
    in_table table "entity_registry" = true ->
    ready c ->
    let r := _handle_message json_loads ws_send table thr raw c h in
    let types := sent_types (events_of r) in
    result_of r = Ok tt
    /\ types = [list_request "entity_registry"; "get_states"%string]
    /\ count_type (list_request "entity_registry") types = 1%nat
    /\ count_type "get_states" types = 1%nat
    /\ (forall name, name <> "entity_registry"%string ->
          count_type (list_request name) types = 0%nat).
Proof.
  intros json_loads ws_send table thr raw data event_obj c h Hsend Hload Htype
    Hev Hety Hin Hready r types.
  assert (Hiss : issues
            (refresh_registry ws_send "entity_registry" ;; _get_states ws_send)
            ([list_request "entity_registry"] ++ ["get_states"%string])).
  { apply issues_bind; [by apply issues_refresh_registry | intros _].
    by apply issues_get_states. }
  destruct (Hiss c (h ++ [EvPrint (LogRegistryChanged "entity_registry")]) Hready)
    as ([] & c' & es & Hrun & _ & Htypes).
  assert (Hr : r = (Ok tt, c', EvPrint (LogRegistryChanged "entity_registry") :: es)).
  { subst r. unfold _handle_message. rewrite Hload.
    destruct data as [| | | | | |fields]; try discriminate.
    rewrite Htype. py_step. cbn [py_get]. py_step.
    cbn [str_eq String.eqb Ascii.eqb Bool.eqb].
    unfold _handle_event. rewrite Hev. py_step. rewrite Hety. py_step.
    cbn [is_registry_update truthy negb String.eqb]. py_step.
    change (endswith "entity_registry_updated" "_registry_updated") with true.
    cbv iota.
    change (registry_of (JStr "entity_registry_updated")) with "entity_registry"%string.
    rewrite Hin.
    change ("entity_registry" =? "entity_registry")%string with true. cbv iota.
    unfold print. rewrite bind_emit, Hrun. reflexivity. }
  assert (Ht : types = [list_request "entity_registry"; "get_states"%string]).
  { subst types. rewrite Hr. exact Htypes. }
  split; [by rewrite Hr |]. split; [exact Ht |].
  rewrite Ht. repeat split.
  intros name Hne. rewrite !count_type_cons.
  destruct (String.eqb_spec (list_request "entity_registry") (list_request name))
    as [Heq | _].
  - apply list_request_inj in Heq. congruence.
  - reflexivity.
Qed.

(* ===================================================================== *)
(** * Pending callbacks stay until a frame pops them                       *)
(* ===================================================================== *)

Lemma keeps_closed n : closed (keeps n).
Proof.
  split.
  - intros c Hc. repeat split; [done | lia | done].
  - intros c c1 c2 es1 es2 H1 H2 Hc.
    destruct (H1 Hc) as (Hc1 & Hle1 & Hk1).
    destruct (H2 Hc1) as (Hc2 & Hle2 & Hk2).
    repeat split; [done | lia | auto].
Qed.

Lemma keeps_same n c es c' :
  _callbacks c' = _callbacks c -> _current_id c' = _current_id c ->
  keeps n c es c'.
Proof.
  intros Hcb Hid Hc. unfold ids_fresh. rewrite Hcb, Hid.
  repeat split; [done | lia | done].
Qed.

Lemma keeps_modify n (f : client -> client) :
  (forall c, _callbacks (f c) = _callbacks c /\ _current_id (f c) = _current_id c) ->
  preserves (keeps n) (modify f).
Proof. intros Hf c h. destruct (Hf c). by apply keeps_same. Qed.

Lemma keeps_emit n e : preserves (keeps n) (emit e).
Proof. intros c h. by apply keeps_same. Qed.

Lemma keeps_pop n m : m <> n -> preserves (keeps n) (pop_callback m).
Proof.
  intros Hne c h Hc. cbn. repeat split.
  - intros k [cb Hk]. apply Hc. destruct c; cbn in *.
    apply lookup_delete_Some in Hk as [_ Hk]. by eexists.
  - destruct c; cbn. lia.
  - intros cb Hcb. destruct c; cbn in *. by rewrite lookup_delete_ne.
Qed.

Lemma keeps_after_send n callback c es :
  keeps n c es (after_send callback c).
Proof.
  intros Hc. destruct c as [u t v ws se cid cbs lp pi lpt rt pt au ms st].
  unfold ids_fresh in *. cbn in *.
  destruct callback as [cb|]; cbn; repeat split; try lia.
  - intros k [cb' Hk]. destruct (decide (cid = k)) as [<- | Hne]; [lia |].
    rewrite lookup_insert_ne in Hk by done.
    assert (k < cid) by (apply Hc; by eexists). lia.
  - intros cb' Hcb. assert (n < cid) by (apply Hc; by eexists).
    rewrite lookup_insert_ne by lia. done.
  - intros k Hk. assert (k < cid) by by apply Hc. lia.
  - done.
Qed.

Lemma keeps_next_id n c es :
  keeps n c es (set_current_id (_current_id c + 1) c).
Proof. apply (keeps_after_send n None). Qed.

Lemma keeps_send_message ws_send n payload callback :
  preserves (keeps n) (send_message ws_send payload callback).
Proof.
  intros c h.
  destruct (_ws c) as [w|] eqn:Hw.
  2:{ unfold send_message. py_run. rewrite Hw. by apply keeps_same. }
  destruct (_authenticated c) eqn:Hauth.
  2:{ unfold send_message. py_run. rewrite Hw. py_run. rewrite Hauth. py_run.
      by apply keeps_same. }
  destruct (py_setitem payload "id" (JInt (_current_id c))) as [payload'|e] eqn:Hset.
  - rewrite (send_message_run ws_send payload payload' callback c h w Hw Hauth Hset).
    destruct (ws_send _ w payload'); apply keeps_after_send.
  - unfold send_message. py_run. rewrite Hw. py_run. rewrite Hauth. py_run.
    rewrite Hset. py_run. apply keeps_next_id.
Qed.

Lemma keeps_sock_send ws_send n payload :
  preserves (keeps n) (sock_send ws_send payload).
Proof.
  intros c h. unfold sock_send. destruct (_ws c) as [w|]; [| by apply keeps_same].
  destruct (ws_send h w payload); by apply keeps_same.
Qed.

Lemma keeps_open_connection create_connection n :
  preserves (keeps n) (open_connection create_connection).
Proof.
  intros c h. unfold open_connection.
  destruct (create_connection h); by apply keeps_same.
Qed.

(** A setter of a field other than the callbacks and the id counter. *)
Ltac keeps_field :=
  apply keeps_modify; intros []; split; reflexivity.

Ltac keeps_step :=
  lazymatch goal with
  | |- preserves (keeps ?n) _ => pres_step (keeps_closed n)
  end.

Ltac keeps_leaf :=
  lazymatch goal with
  | |- preserves _ (modify _) => keeps_field
  | |- preserves _ (emit _) => apply keeps_emit
  | |- preserves _ (print _) => apply keeps_emit
  | |- preserves _ (sleep _) => apply keeps_emit
  | _ => idtac
  end.

Ltac keeps_auto := repeat keeps_step; keeps_leaf.

Section KeepsSession.
Variable json_loads : string -> outcome json.
Variable create_connection : list event -> option websocket.
Variable ws_send : list event -> websocket -> json -> bool.
Variable table : list (string * string).
Variable n : Z.

Lemma keeps_close_ws : preserves (keeps n) _close_ws.
Proof. unfold _close_ws. keeps_auto. Qed.

Lemma keeps_establish_ws : preserves (keeps n) (_establish_ws create_connection).
Proof.
  unfold _establish_ws, print. keeps_auto. apply keeps_open_connection.
Qed.

Lemma keeps_stop thr : preserves (keeps n) (stop thr).
Proof.
  unfold stop, join, print. keeps_auto. apply keeps_close_ws.
Qed.

Lemma keeps_handler_safe : handler_safe ws_send (keeps n).
Proof.
  split.
  - apply keeps_closed.
  - intros l c. by apply keeps_same.
  - intros tag msg c. by apply keeps_same.
  - intros b []. by apply keeps_same.
  - intros st []. by apply keeps_same.
  - intros payload callback _. apply keeps_send_message.
  - intros payload _. apply keeps_sock_send.
  - apply keeps_stop.
Qed.

Lemma keeps_attempt_reconnect :
  preserves (keeps n) (_attempt_reconnect create_connection).
Proof.
  unfold _attempt_reconnect, sleep, print.
  apply (preserves_bind _ (keeps_closed n)); [apply keeps_close_ws | intros ?].
  apply (preserves_bind _ (keeps_closed n)); [apply (preserves_gets _ (keeps_closed n)) | intros manual].
  destruct manual; [apply (preserves_ret _ (keeps_closed n)) |].
  apply (preserves_bind _ (keeps_closed n)); [apply keeps_emit | intros ?].
  apply (preserves_bind _ (keeps_closed n)).
  - apply (preserves_try_except _ (keeps_closed n)).
    + apply (preserves_bind _ (keeps_closed n)); [apply keeps_establish_ws | intros ?].
      keeps_auto.
    + intros e.
      apply (preserves_bind _ (keeps_closed n)); [apply keeps_emit | intros ?].
      apply (preserves_bind _ (keeps_closed n)); [apply keeps_close_ws | intros ?].
      keeps_auto.
  - intros ok. keeps_auto.
Qed.

Lemma keeps_ping_loop_body now :
  preserves (keeps n) (_ping_loop_body create_connection ws_send now).
Proof.
  unfold _ping_loop_body.
  keeps_auto;
    lazymatch goal with
    | |- preserves _ (_attempt_reconnect _) => apply keeps_attempt_reconnect
    | |- preserves _ (send_message _ _ _) => apply keeps_send_message
    end.
Qed.

Lemma keeps_handle_message thr raw :
  (forall data, json_loads raw = Ok data -> frame_pops data n = false) ->
  preserves (keeps n) (_handle_message json_loads ws_send table thr raw).
Proof.
  intros Hnot. apply (preserves_handle_message _ _ _ _ keeps_handler_safe).
  - intros data m Hload Hpops. apply keeps_pop. intros ->.
    rewrite (Hnot data Hload) in Hpops. discriminate.
  - intros data _ _. keeps_field.
Qed.

Lemma keeps_receiver_loop_body r :
  activity_pops json_loads (ReceiverIteration r) n = false ->
  preserves (keeps n) (_receiver_loop_body json_loads ws_send table r).
Proof.
  intros Hnot. unfold _receiver_loop_body, sleep, print.
  apply (preserves_bind _ (keeps_closed n)); [apply (preserves_gets _ (keeps_closed n)) | intros ws].
  destruct ws as [w|]; [| apply keeps_emit].
  destruct r as [| | |raw]; try keeps_auto.
  apply keeps_handle_message. intros data Hload.
  cbn in Hnot. by rewrite Hload in Hnot.
Qed.

Lemma keeps_connect : preserves (keeps n) (connect create_connection).
Proof.
  unfold connect, print.
  apply (preserves_bind _ (keeps_closed n)); [apply (preserves_gets _ (keeps_closed n)) | intros ws].
  destruct ws as [w|]; [apply keeps_emit |].
  apply (preserves_bind _ (keeps_closed n)); [apply keeps_stop | intros ?].
  apply (preserves_bind _ (keeps_closed n)); [keeps_field | intros ?].
  apply (preserves_bind _ (keeps_closed n)); [keeps_field | intros ?].
  apply (preserves_bind _ (keeps_closed n)).
  - apply (preserves_try_except _ (keeps_closed n)); [apply keeps_establish_ws |].
    intros e.
    apply (preserves_bind _ (keeps_closed n)); [apply keeps_emit | intros ?].
    apply (preserves_bind _ (keeps_closed n)); [apply keeps_close_ws | intros ?].
    keeps_field.
  - intros ?. keeps_auto.
Qed.

Lemma keeps_discard {A} (m : M A) :
  preserves (keeps n) m -> preserves (keeps n) (discard m).
Proof.
  intros Hm. unfold discard.
  apply (preserves_try_except _ (keeps_closed n)).
  - apply (preserves_bind _ (keeps_closed n)); [exact Hm | intros ?].
    apply (preserves_ret _ (keeps_closed n)).
  - intros ?. apply (preserves_ret _ (keeps_closed n)).
Qed.

Lemma keeps_perform a :
  activity_pops json_loads a n = false ->
  preserves (keeps n) (perform json_loads create_connection ws_send table a).
Proof.
  intros Hnot.
  destruct a as [now | r | payload cb | registry cb kwargs | registry | | ];
    cbn [perform].
  - unfold ping_thread_step, print.
    apply (preserves_bind _ (keeps_closed n)); [apply (preserves_gets _ (keeps_closed n)) | intros t].
    destruct t as [[]|]; try apply (preserves_ret _ (keeps_closed n)).
    apply (preserves_bind _ (keeps_closed n)); [apply (preserves_gets _ (keeps_closed n)) | intros stopped].
    destruct stopped; [keeps_auto |].
    apply (preserves_try_except _ (keeps_closed n)); [apply keeps_ping_loop_body |].
    intros ?. keeps_field.
  - unfold receiver_thread_step, print.
    apply (preserves_bind _ (keeps_closed n)); [apply (preserves_gets _ (keeps_closed n)) | intros t].
    destruct t as [[]|]; try apply (preserves_ret _ (keeps_closed n)).
    apply (preserves_bind _ (keeps_closed n)); [apply (preserves_gets _ (keeps_closed n)) | intros stopped].
    destruct stopped; [keeps_auto |].
    apply (preserves_try_except _ (keeps_closed n));
      [by apply keeps_receiver_loop_body |].
    intros ?. keeps_field.
  - apply keeps_discard, keeps_send_message.
  - apply keeps_discard. unfold update_registry. apply keeps_send_message.
  - apply keeps_discard. unfold refresh_registry.
    apply (preserves_bind _ (keeps_closed n)); [apply keeps_send_message | intros ?].
    apply (preserves_ret _ (keeps_closed n)).
  - apply keeps_stop.
  - apply keeps_connect.
Qed.

Lemma keeps_run schedule :
  Forall (fun a => activity_pops json_loads a n = false) schedule ->
  preserves (keeps n) (run json_loads create_connection ws_send table schedule).
Proof.
  unfold run. induction 1 as [|a rest Ha _ IH]; cbn [for_each].
  - apply (preserves_ret _ (keeps_closed n)).
  - apply (preserves_bind _ (keeps_closed n)); [by apply keeps_perform | intros ?; exact IH].
Qed.
End KeepsSession.

Lemma ids_fresh_init table u t v : ids_fresh (__init__ table u t v).
Proof. intros k [cb Hk]. cbn in Hk. by rewrite lookup_empty in Hk. Qed.

Lemma failed_result_never_pops data success n :
  py_get data "type" JNull = Ok (JStr "result") ->
  py_get data "success" (JBool false) = Ok success ->
  truthy success = false ->
  frame_pops data n = false.
Proof.
  intros Htype Hsucc Hfalse. unfold frame_pops, popping_kind.
  rewrite Htype, Hsucc, Hfalse. reflexivity.
Qed.

Lemma frame_pops_kind data n :
  frame_pops data n = true ->
  frame_key data = Some n
  /\ (is_pong data = true
      \/ (exists success,
            py_get data "type" JNull = Ok (JStr "result")
            /\ py_get data "success" (JBool false) = Ok success
            /\ truthy success = true)
      \/ (exists t, py_get data "type" JNull = Ok t /\ str_eq t "result" = false)).
Proof.
  unfold frame_pops, popping_kind, is_pong. intros Hp.
  apply andb_prop in Hp as [Hkind Hkey]. split.
  - destruct (frame_key data) as [m|]; [| discriminate].
    apply Z.eqb_eq in Hkey. by subst.
  - destruct (py_get data "type" JNull) as [t|] eqn:Ht; [| discriminate].
    destruct (str_eq t "auth_required" || str_eq t "auth_ok" || str_eq t "auth_invalid");
      [discriminate |].
    destruct (str_eq t "pong") eqn:Epong; [by left |].
    destruct (str_eq t "result") eqn:Eres.
    + right. left.
      destruct (py_get data "success" (JBool false)) as [s|] eqn:Hs; [| discriminate].
      exists s. repeat split; [| done].
      destruct t; try discriminate. cbn in Eres. apply String.eqb_eq in Eres.
      by subst.
    + right. right. by exists t.
Qed.

(** C10: a result frame whose [success] is falsy changes nothing -- the
    callback pending under its id is neither called nor removed -- and such a
    frame never counts as popping a callback.  Over any schedule of the
    three activities, a pending callback stays in the map as long as the
    receiver handles no frame that pops it; and a frame pops the callback
    under [n] only if its id designates [n] and it is a pong, a result
    with a truthy [success], or a frame that is not a result. *)
Theorem failed_result_keeps_callback :
  forall json_loads create_connection ws_send table,
    (forall thr raw data success (c : client) (h : list event),
       json_loads raw = Ok data ->
       py_get data "type" JNull = Ok (JStr "result") ->
       py_get data "success" (JBool false) = Ok success ->
       truthy success = false ->
       _handle_message json_loads ws_send table thr raw c h = (Ok tt, c, [])
       /\ (forall n, frame_pops data n = false))
    /\ (forall schedule n cb (c : client) (h : list event),
          ids_fresh c ->
          _callbacks c !! n = Some cb ->
          Forall (fun a => activity_pops json_loads a n = false) schedule ->
          _callbacks
            (client_of (run json_loads create_connection ws_send table schedule c h))
            !! n = Some cb)
    /\ (forall data n,
          frame_pops data n = true ->
          frame_key data = Some n
          /\ (is_pong data = true
              \/ (exists success,
                    py_get data "type" JNull = Ok (JStr "result")
                    /\ py_get data "success" (JBool false) = Ok success
                    /\ truthy success = true)
              \/ (exists t, py_get data "type" JNull = Ok t
                            /\ str_eq t "result" = false))).
Proof.
  intros json_loads create_connection ws_send table. split; [| split].
  - intros thr raw data success c h Hload Htype Hsucc Hfalse. split.
    + by apply (failed_result_is_dropped json_loads ws_send table thr raw data success).
    + intros n. by apply (failed_result_never_pops data success).
  - intros schedule n cb c h Hfresh Hcb Hsched.
    destruct (keeps_run json_loads create_connection ws_send table n schedule
                Hsched c h Hfresh) as (_ & _ & Hkeep).
    by apply Hkeep.
  - apply frame_pops_kind.
Qed.

(* ===================================================================== *)
(** * Steps that leave the probe tracker alone                             *)
(* ===================================================================== *)

Lemma quiet_closed : closed quiet.
Proof.
  split.
  - intros c. repeat split; auto.
  - intros c c1 c2 es1 es2 (Ht1 & He1 & Hw1 & Hm1 & Hp1) (Ht2 & He2 & Hw2 & Hm2 & Hp2).
    repeat split.
    + congruence.
    + by apply Forall_app.
    + destruct Hw2 as [Hw2 | ?]; [| by right].
      destruct Hw1 as [Hw1 | ?]; [left; congruence | right; auto].
    + auto.
    + auto.
Qed.

(** A step that touches none of the fields [quiet] reads. *)
Lemma quiet_same c es c' :
  _last_ping_id c' = _last_ping_id c -> _ws c' = _ws c ->
  _manual_stop c' = _manual_stop c -> _ping_thread c' = _ping_thread c ->
  Forall quiet_event es ->
  quiet c es c'.
Proof.
  intros Ht Hw Hm Hp He. repeat split; [done | done | by left | |]; congruence.
Qed.

Lemma quiet_modify (f : client -> client) :
  (forall c, _last_ping_id (f c) = _last_ping_id c /\ _ws (f c) = _ws c
             /\ _manual_stop (f c) = _manual_stop c
             /\ _ping_thread (f c) = _ping_thread c) ->
  preserves quiet (modify f).
Proof. intros Hf c h. destruct (Hf c) as (? & ? & ? & ?). by apply quiet_same. Qed.

Lemma quiet_emit e : quiet_event e -> preserves quiet (emit e).
Proof.
  intros He c h. apply quiet_same; try done.
  constructor; [exact He | constructor].
Qed.

Ltac quiet_field :=
  apply quiet_modify; intros []; repeat split; reflexivity.

Lemma quiet_write w payload :
  frame_type payload <> "ping"%string -> quiet_event (EvSend w payload).
Proof. intros Hne. split; [| done]. cbn. by apply String.eqb_neq. Qed.

Lemma after_send_fields callback c :
  _last_ping_id (after_send callback c) = _last_ping_id c
  /\ _ws (after_send callback c) = _ws c
  /\ _manual_stop (after_send callback c) = _manual_stop c
  /\ _ping_thread (after_send callback c) = _ping_thread c.
Proof. destruct c, callback; repeat split; reflexivity. Qed.

Lemma quiet_send_log c payload : Forall quiet_event (send_log c payload).
Proof. unfold send_log. destruct (verbose c); repeat constructor. Qed.

Lemma quiet_send_message ws_send payload callback :
  frame_type payload <> "ping"%string ->
  preserves quiet (send_message ws_send payload callback).
Proof.
  intros Hne c h.
  destruct (_ws c) as [w|] eqn:Hw.
  2:{ unfold send_message. py_run. rewrite Hw. by apply quiet_same. }
  destruct (_authenticated c) eqn:Hauth.
  2:{ unfold send_message. py_run. rewrite Hw. py_run. rewrite Hauth. py_run.
      by apply quiet_same. }
  destruct (py_setitem payload "id" (JInt (_current_id c))) as [payload'|e] eqn:Hset.
  - rewrite (send_message_run ws_send payload payload' callback c h w Hw Hauth Hset).
    destruct (after_send_fields callback c) as (? & ? & ? & ?).
    destruct (ws_send _ w payload'); cbn [events_of client_of fst snd];
      apply quiet_same; try done; apply Forall_app; (split; [apply quiet_send_log |]);
      repeat constructor.
    cbn. apply String.eqb_neq. by rewrite (frame_type_setitem _ _ _ Hset).
  - unfold send_message. py_run. rewrite Hw. py_run. rewrite Hauth. py_run.
    rewrite Hset. py_run. destruct c. by apply quiet_same.
Qed.

Lemma quiet_sock_send ws_send payload :
  frame_type payload <> "ping"%string ->
  preserves quiet (sock_send ws_send payload).
Proof.
  intros Hne c h. unfold sock_send. destruct (_ws c) as [w|]; [| by apply quiet_same].
  destruct (ws_send h w payload); apply quiet_same; try done; repeat constructor.
  cbn. by apply String.eqb_neq.
Qed.

Lemma quiet_stop thr : preserves quiet (stop thr).
Proof.
  intros c h.
  destruct c as [u t v ws se cid cbs lp pi lpt rt pt au ms st].
  destruct ws as [w|], rt as [[]|], pt as [[]|], thr; vm_compute;
    (split; [reflexivity |]);
    (split; [repeat constructor |]);
    (split; [by right |]);
    (split; [done | try done]).
Qed.

Lemma quiet_handler_safe ws_send : handler_safe ws_send quiet.
Proof.
  split.
  - apply quiet_closed.
  - intros l c. apply quiet_same; try done. repeat constructor.
  - intros tag msg c. apply quiet_same; try done. repeat constructor.
  - intros b []. by apply quiet_same.
  - intros st []. by apply quiet_same.
  - intros payload callback. apply quiet_send_message.
  - intros payload. apply quiet_sock_send.
  - apply quiet_stop.
Qed.

Lemma quiet_events_scan es since :
  Forall quiet_event es -> probe_scan since es = Some since.
Proof.
  induction 1 as [|e rest [Hp Ho] _ IH]; cbn; [done |].
  by rewrite Hp, Ho.
Qed.

Lemma probe_scan_app es1 es2 since :
  probe_scan since (es1 ++ es2)
  = match probe_scan since es1 with
    | Some since1 => probe_scan since1 es2
    | None => None
    end.
Proof.
  revert since. induction es1 as [|e rest IH]; intros since; cbn; [done |].
  destruct (is_probe e).
  - destruct since as [[|[|k]]|]; by rewrite ?IH.
  - destruct (is_opened e); by rewrite IH.
Qed.

Lemma quiet_tracker_inv c es c' since :
  quiet c es c' -> tracker_inv c since -> tracker_inv c' since.
Proof.
  intros (Ht & _ & Hw & Hm & Hp) Hinv Hrun. specialize (Hinv (Hp Hrun)).
  unfold phase in *. destruct since as [k|]; [| done]. rewrite Ht.
  destruct Hinv as [? | (? & ? & Hconn)]; [by left |].
  right. repeat split; try done.
  destruct Hw as [-> | ?]; [| by right].
  destruct Hconn as [? | ?]; [by left | right; auto].
Qed.

Section QuietSession.
Variable json_loads : string -> outcome json.
Variable create_connection : list event -> option websocket.
Variable ws_send : list event -> websocket -> json -> bool.
Variable table : list (string * string).

Lemma quiet_handle_message thr raw :
  (forall data, json_loads raw = Ok data -> is_pong data = false) ->
  preserves quiet (_handle_message json_loads ws_send table thr raw).
Proof.
  intros Hnot. apply (preserves_handle_message _ _ _ _ (quiet_handler_safe ws_send)).
  - intros data m _ _. quiet_field.
  - intros data Hload Hpong. rewrite (Hnot data Hload) in Hpong. discriminate.
Qed.

Lemma quiet_discard {A} (m : M A) :
  preserves quiet m -> preserves quiet (discard m).
Proof.
  intros Hm. unfold discard.
  apply (preserves_try_except _ quiet_closed).
  - apply (preserves_bind _ quiet_closed); [exact Hm | intros ?].
    apply (preserves_ret _ quiet_closed).
  - intros ?. apply (preserves_ret _ quiet_closed).
Qed.

Lemma quiet_receiver_thread_step r :
  unanswered json_loads (ReceiverIteration r) = true ->
  preserves quiet (receiver_thread_step json_loads ws_send table r).
Proof.
  intros Hok. unfold receiver_thread_step.
  apply (preserves_bind _ quiet_closed); [apply (preserves_gets _ quiet_closed) | intros t].
  destruct t as [[]|]; try apply (preserves_ret _ quiet_closed).
  apply (preserves_bind _ quiet_closed); [apply (preserves_gets _ quiet_closed) | intros stopped].
  destruct stopped.
  { apply (preserves_bind _ quiet_closed); [| intros ?; quiet_field].
    apply quiet_emit. by split. }
  apply (preserves_try_except _ quiet_closed); [| intros ?; quiet_field].
  unfold _receiver_loop_body.
  apply (preserves_bind _ quiet_closed); [apply (preserves_gets _ quiet_closed) | intros ws].
  destruct ws as [w|]; [| apply quiet_emit; by split].
  destruct r as [| | |raw]; try discriminate.
  - apply (preserves_ret _ quiet_closed).
  - destruct (String.eqb raw EmptyString); [apply (preserves_ret _ quiet_closed) |].
    apply quiet_handle_message. intros data Hload.
    cbn in Hok. rewrite Hload in Hok. by apply negb_true_iff.
Qed.

(** Everything in an unanswered run except the monitor's own iteration
    is quiet. *)
Lemma quiet_perform a :
  unanswered json_loads a = true ->
  (forall now, a <> PingIteration now) ->
  preserves quiet (perform json_loads create_connection ws_send table a).
Proof.
  intros Hok Hnp.
  destruct a as [now | r | payload cb | registry cb kwargs | registry | | ];
    cbn [perform]; try discriminate.
  - by destruct (Hnp now).
  - by apply quiet_receiver_thread_step.
  - apply quiet_discard, quiet_send_message.
    cbn in Hok. apply negb_true_iff in Hok. by apply String.eqb_neq.
  - apply quiet_discard. unfold update_registry. apply quiet_send_message.
    cbn in Hok. apply negb_true_iff in Hok. by apply String.eqb_neq.
  - apply quiet_discard. unfold refresh_registry.
    apply (preserves_bind _ quiet_closed); [| intros ?; apply (preserves_ret _ quiet_closed)].
    apply quiet_send_message. cbn. discriminate.
  - apply quiet_stop.
Qed.
End QuietSession.

(* ===================================================================== *)
(** * The monitor's iteration                                              *)
(* ===================================================================== *)

Ltac spec_branch :=
  repeat split; try reflexivity; try (by eexists);
  try (repeat constructor; fail); try (intros; reflexivity).

Section Monitor.
Variable json_loads : string -> outcome json.
Variable create_connection : list event -> option websocket.
Variable ws_send : list event -> websocket -> json -> bool.
Variable table : list (string * string).

(** One call of [_attempt_reconnect]: it returns, writes nothing, and
    either finds the client stopped and opens nothing, or opens a
    connection and clears the tracker, or fails to and leaves no handle. *)
Lemma attempt_reconnect_spec c h :
  exists c' es,
    _attempt_reconnect create_connection c h = (Ok tt, c', es)
    /\ Forall no_write es
    /\ _ping_thread c' = _ping_thread c
    /\ _manual_stop c' = _manual_stop c
    /\ _last_ping_time c' = _last_ping_time c
    /\ (forall w, _ws c = Some w -> In (EvClose w) es)
    /\ ((_manual_stop c = true /\ _ws c' = None
         /\ _last_ping_id c' = _last_ping_id c
         /\ Forall quiet_event es /\ open_attempts es = 0%nat)
        \/ (_manual_stop c = false /\ is_Some (_ws c')
            /\ _last_ping_id c' = None
            /\ (forall since, probe_scan since es = Some (S <$> since))
            /\ open_attempts es = 1%nat)
        \/ (_manual_stop c = false /\ _ws c' = None
            /\ _last_ping_id c' = _last_ping_id c
            /\ Forall quiet_event es /\ open_attempts es = 1%nat)).
Proof.
  destruct c as [u t v ws se cid cbs lp pi lpt rt pt au ms st].
  remember (_attempt_reconnect create_connection _ h) as r eqn:E.
  destruct ms, ws as [w|]; vm_compute in E;
    try match type of E with
        | context [create_connection ?x] => destruct (create_connection x) as [w'|]
        end;
    subst r; eexists _, _; (split; [reflexivity |]);
    (split; [repeat constructor |]);
    (split; [reflexivity |]); (split; [reflexivity |]); (split; [reflexivity |]);
    (split; [intros ? [= <-]; cbn; auto |]).
  all: cbn [_manual_stop _ws _last_ping_id].
  all: first [ solve [left; spec_branch]
             | solve [right; left; spec_branch]
             | solve [right; right; spec_branch] ].
Qed.
End Monitor.

Section MonitorLoop.
Variable json_loads : string -> outcome json.
Variable create_connection : list event -> option websocket.
Variable ws_send : list event -> websocket -> json -> bool.
Variable table : list (string * string).

(** What a reconnect attempt does to the phase. *)
Lemma attempt_reconnect_phase c h since :
  phase c since -> (_ws c = None \/ is_Some (_last_ping_id c)) ->
  exists c' es since',
    _attempt_reconnect create_connection c h = (Ok tt, c', es)
    /\ probe_scan since es = Some since'
    /\ _ping_thread c' = _ping_thread c
    /\ phase c' since'.
Proof.
  intros Hph Hwhy.
  destruct (attempt_reconnect_spec create_connection c h)
    as (c' & es & E & _ & Hpt & Hms & _ & _ & Hcases).
  exists c', es.
  destruct Hcases as [(Hm & Hws & Hlp & Hq & _) | [(Hm & Hws & Hlp & Hscan & _) | (Hm & Hws & Hlp & Hq & _)]].
  - exists since. repeat split; [done | by apply quiet_events_scan | done |].
    unfold phase in *. destruct since as [k|]; [| done]. rewrite Hlp.
    destruct Hph as [? | (? & ? & ?)]; [by left |].
    right. repeat split; try done. right. congruence.
  - exists (S <$> since). repeat split; [done | apply Hscan | done |].
    unfold phase in *. destruct since as [k|]; [| done]. cbn.
    right. split; [done |]. split; [| by left].
    destruct Hph as [[_ ->] | (Hnone & -> & Hconn)]; [done |].
    exfalso. destruct Hwhy as [Hw | [p Hp]]; [| congruence].
    destruct Hconn as [[w Hw'] | ?]; congruence.
  - exists since. repeat split; [done | by apply quiet_events_scan | done |].
    unfold phase in *. destruct since as [k|]; [| done]. rewrite Hlp.
    destruct Hph as [? | (Hnone & -> & Hconn)]; [by left |].
    exfalso. destruct Hwhy as [Hw | [p Hp]]; [| congruence].
    destruct Hconn as [[w Hw'] | ?]; congruence.
Qed.

Lemma reconnect_branch_run l c h c' es :
  _attempt_reconnect create_connection c (h ++ [EvPrint l]) = (Ok tt, c', es) ->
  ((print l ;; _attempt_reconnect create_connection) ;; sleep 1) c h
  = (Ok tt, c', EvPrint l :: es ++ [EvSleep 1]).
Proof.
  intros E. unfold bind, print, sleep, emit. rewrite E. reflexivity.
Qed.

Lemma phase_set_last_ping_time now c since :
  phase c since -> phase (set_last_ping_time now c) since.
Proof. by destruct c. Qed.

Lemma probe_scan_quiet_around l es since since' :
  probe_scan since es = Some since' ->
  probe_scan since (EvPrint l :: es ++ [EvSleep 1]) = Some since'.
Proof.
  intros Hscan. cbn [probe_scan is_probe is_opened].
  rewrite probe_scan_app, Hscan. reflexivity.
Qed.

Lemma probe_branch_run c h w :
  _ws c = Some w -> _authenticated c = true ->
  ((id <- send_message ws_send (JObj [("type"%string, JStr "ping")]) None ;;
    modify (set_last_ping_id (Some id))) ;; sleep 1) c h
  = if ws_send (h ++ send_log c (ping_frame (_current_id c))) w
         (ping_frame (_current_id c))
    then (Ok tt, set_last_ping_id (Some (_current_id c)) (after_send None c),
          send_log c (ping_frame (_current_id c))
          ++ [EvSend w (ping_frame (_current_id c)); EvSleep 1])
    else (Raise SocketError, after_send None c,
          send_log c (ping_frame (_current_id c))
          ++ [EvSendFailed w (ping_frame (_current_id c))]).
Proof.
  intros Hw Hauth.
  pose proof (send_message_run ws_send (JObj [("type"%string, JStr "ping")])
                (ping_frame (_current_id c)) None c h w Hw Hauth eq_refl) as E.
  unfold bind at 1 2. rewrite E.
  destruct (ws_send _ w _); [| reflexivity].
  unfold modify, sleep, emit. cbn. by rewrite app_nil_r, <- app_assoc.
Qed.

Lemma ping_loop_body_phase now c h since :
  phase c since ->
  let r := _ping_loop_body create_connection ws_send now c h in
  exists since',
    probe_scan since (events_of r) = Some since'
    /\ _ping_thread (client_of r) = _ping_thread c
    /\ (result_of r = Ok tt -> phase (client_of r) since').
Proof.
  intros Hph r. subst r. unfold _ping_loop_body. py_run.
  destruct (_ws c) as [w|] eqn:Hw.
  - py_run.
    destruct ((_ping_interval c <=? now - _last_ping_time c) && _authenticated c)
      eqn:Hdue.
    + py_run. destruct (_last_ping_id c) as [p|] eqn:Hlp.
      * destruct (attempt_reconnect_phase (set_last_ping_time now c)
                    (h ++ [EvPrint LogPingUnanswered]) since)
          as (c' & es & since' & E & Hscan & Hpt & Hph').
        { by apply phase_set_last_ping_time. }
        { right. destruct c; cbn in *. by eexists. }
        rewrite (reconnect_branch_run _ _ _ _ _ E). py_run.
        exists since'. split; [by apply probe_scan_quiet_around |].
        split; [by destruct c | done].
      * assert (Hauth : _authenticated c = true).
        { by apply andb_prop in Hdue as [_ ?]. }
        rewrite (probe_branch_run (set_last_ping_time now c) h w)
          by (by destruct c).
        set (c1 := set_last_ping_time now c).
        assert (Hlog : Forall quiet_event (send_log c1 (ping_frame (_current_id c1))))
          by apply quiet_send_log.
        destruct (ws_send _ w _); py_run.
        -- exists (Some 0%nat). split; [| split].
           ++ rewrite probe_scan_app, (quiet_events_scan _ _ Hlog).
              unfold phase in Hph. rewrite Hlp in Hph.
              destruct since as [k|]; [| reflexivity].
              destruct Hph as [[[? ?] _] | (_ & -> & _)]; [done | reflexivity].
           ++ by destruct c.
           ++ intros _. left. split; [| done]. destruct c; cbn. by eexists.
        -- exists since. split; [| split].
           ++ rewrite probe_scan_app, (quiet_events_scan _ _ Hlog). reflexivity.
           ++ by destruct c.
           ++ discriminate.
    + py_run. exists since. split; [reflexivity |]. split; [reflexivity | done].
  - destruct (attempt_reconnect_phase c (h ++ [EvPrint LogPingNoSocket]) since)
      as (c' & es & since' & E & Hscan & Hpt & Hph'); [done | by left |].
    rewrite (reconnect_branch_run _ _ _ _ _ E). py_run.
    exists since'. split; [by apply probe_scan_quiet_around | done].
Qed.

(** One iteration of the ping thread keeps the tracker invariant and
    writes a probe only when one is due. *)
Lemma ping_thread_step_inv now c h since :
  tracker_inv c since ->
  let r := ping_thread_step create_connection ws_send now c h in
  result_of r = Ok tt
  /\ exists since',
       probe_scan since (events_of r) = Some since'
       /\ tracker_inv (client_of r) since'.
Proof.
  intros Hinv r. subst r. unfold ping_thread_step. py_run.
  destruct (_ping_thread c) as [[]|] eqn:Hpt.
  - specialize (Hinv Hpt). py_run.
    destruct (_stop_event c).
    + unfold print. rewrite bind_emit. py_run. split; [done |].
      exists since. split; [done |]. intros Hrun. by destruct c.
    + destruct (ping_loop_body_phase now c h since Hinv) as (since' & Hscan & Hthr & Hok).
      destruct (_ping_loop_body create_connection ws_send now c h)
        as [[[[]|e] c1] es1] eqn:E.
      * rewrite (try_except_ok _ _ _ _ _ _ _ E). split; [done |].
        exists since'. split; [done |]. intros _. by apply Hok.
      * rewrite (try_except_raise _ _ _ _ _ _ _ E). cbn. split; [done |].
        exists since'. split; [by rewrite app_nil_r |].
        intros Hrun. by destruct c1.
  - split; [done |]. exists since. split; [done |]. intros Hrun. cbn in Hrun. congruence.
  - split; [done |]. exists since. split; [done |]. intros Hrun. cbn in Hrun. congruence.
Qed.

Lemma discard_ok {A} (m : M A) c h : result_of (discard m c h) = Ok tt.
Proof.
  unfold discard, try_except, bind.
  destruct (m c h) as [[[a|e] c1] es1]; reflexivity.
Qed.

Lemma receiver_thread_step_ok r c h :
  result_of (receiver_thread_step json_loads ws_send table r c h) = Ok tt.
Proof.
  unfold receiver_thread_step. py_run.
  destruct (_receiver_thread c) as [[]|]; py_run; try reflexivity.
  destruct (_stop_event c).
  - unfold print. rewrite bind_emit. py_run. reflexivity.
  - unfold try_except.
    destruct (_receiver_loop_body json_loads ws_send table r c h)
      as [[[[]|e] c1] es1]; reflexivity.
Qed.

Lemma stop_ok thr c h : result_of (stop thr c h) = Ok tt.
Proof.
  destruct c as [u t v ws se cid cbs lp pi lpt rt pt au ms st].
  destruct ws, rt as [[]|], pt as [[]|], thr; vm_compute; reflexivity.
Qed.

(** In a run where no probe is answered, the tracker invariant is kept
    and every probe is in order. *)
Lemma run_tracker_inv schedule :
  forall c h since,
    forallb (unanswered json_loads) schedule = true ->
    tracker_inv c since ->
    let r := run json_loads create_connection ws_send table schedule c h in
    result_of r = Ok tt
    /\ exists since',
         probe_scan since (events_of r) = Some since'
         /\ tracker_inv (client_of r) since'.
Proof.
  unfold run. induction schedule as [|a rest IH]; intros c h since Hsched Hinv.
  - cbn. split; [done |]. by exists since.
  - cbn in Hsched. apply andb_prop in Hsched as [Ha Hrest].
    assert (Hstep :
      result_of (perform json_loads create_connection ws_send table a c h) = Ok tt
      /\ exists since1,
           probe_scan since
             (events_of (perform json_loads create_connection ws_send table a c h))
           = Some since1
           /\ tracker_inv
                (client_of (perform json_loads create_connection ws_send table a c h))
                since1).
    { destruct a as [now | r | payload cb | registry cb kwargs | registry | | ];
        try discriminate.
      - by apply ping_thread_step_inv.
      - pose proof (quiet_perform json_loads create_connection ws_send table
                      (ReceiverIteration r) Ha) as Hq.
        specialize (Hq ltac:(discriminate) c h).
        split; [apply receiver_thread_step_ok |].
        exists since. split; [apply quiet_events_scan, Hq |].
        by apply (quiet_tracker_inv _ _ _ _ Hq).
      - pose proof (quiet_perform json_loads create_connection ws_send table
                      (CallSendMessage payload cb) Ha) as Hq.
        specialize (Hq ltac:(discriminate) c h).
        split; [apply discard_ok |].
        exists since. split; [apply quiet_events_scan, Hq |].
        by apply (quiet_tracker_inv _ _ _ _ Hq).
      - pose proof (quiet_perform json_loads create_connection ws_send table
                      (CallUpdateRegistry registry cb kwargs) Ha) as Hq.
        specialize (Hq ltac:(discriminate) c h).
        split; [apply discard_ok |].
        exists since. split; [apply quiet_events_scan, Hq |].
        by apply (quiet_tracker_inv _ _ _ _ Hq).
      - pose proof (quiet_perform json_loads create_connection ws_send table
                      (CallRefreshRegistry registry) Ha) as Hq.
        specialize (Hq ltac:(discriminate) c h).
        split; [apply discard_ok |].
        exists since. split; [apply quiet_events_scan, Hq |].
        by apply (quiet_tracker_inv _ _ _ _ Hq).
      - pose proof (quiet_perform json_loads create_connection ws_send table
                      CallStop Ha) as Hq.
        specialize (Hq ltac:(discriminate) c h).
        split; [apply stop_ok |].
        exists since. split; [apply quiet_events_scan, Hq |].
        by apply (quiet_tracker_inv _ _ _ _ Hq). }
    destruct Hstep as (Hok & since1 & Hscan1 & Hinv1).
    destruct (perform json_loads create_connection ws_send table a c h)
      as [[o c1] es1] eqn:E.
    cbn in Hok, Hscan1, Hinv1. subst o.
    cbn [for_each]. rewrite (bind_run _ _ _ _ _ _ _ E). py_run.
    destruct (IH c1 (h ++ es1) since1 Hrest Hinv1) as (Hok2 & since2 & Hscan2 & Hinv2).
    split; [done |]. exists since2. split; [| done].
    by rewrite probe_scan_app, Hscan1.
Qed.

(** The tick that finds a probe unanswered. *)
Lemma unanswered_probe_tick now c h w p :
  _ws c = Some w ->
  _ping_interval c <= now - _last_ping_time c ->
  _authenticated c = true ->
  _last_ping_id c = Some p ->
  exists c' es,
    _attempt_reconnect create_connection (set_last_ping_time now c)
      (h ++ [EvPrint LogPingUnanswered]) = (Ok tt, c', es)
    /\ _ping_loop_body create_connection ws_send now c h
       = (Ok tt, c', EvPrint LogPingUnanswered :: es ++ [EvSleep 1])
    /\ Forall no_write (EvPrint LogPingUnanswered :: es ++ [EvSleep 1])
    /\ In (EvClose w) es
    /\ open_attempts (EvPrint LogPingUnanswered :: es ++ [EvSleep 1])
       = (if _manual_stop c then 0 else 1)%nat.
Proof.
  intros Hw Hdue Hauth Hlp.
  destruct (attempt_reconnect_spec create_connection (set_last_ping_time now c)
              (h ++ [EvPrint LogPingUnanswered]))
    as (c' & es & E & Hnw & _ & _ & _ & Hclose & Hcases).
  exists c', es. split; [exact E |]. split; [| split; [| split]].
  - unfold _ping_loop_body. py_run. rewrite Hw. py_run.
    apply Z.leb_le in Hdue. rewrite Hdue, Hauth. cbn [andb]. py_run.
    rewrite Hlp. by apply reconnect_branch_run.
  - constructor; [done |]. apply Forall_app. split; [done | by repeat constructor].
  - apply Hclose. by destruct c.
  - change (EvPrint LogPingUnanswered :: es ++ [EvSleep 1])
      with ([EvPrint LogPingUnanswered] ++ es ++ [EvSleep 1]).
    rewrite !open_attempts_app.
    assert (Hms : _manual_stop (set_last_ping_time now c) = _manual_stop c)
      by by destruct c.
    rewrite Hms in Hcases.
    destruct Hcases as [(-> & _ & _ & _ & ->) | [(-> & _ & _ & _ & ->) | (-> & _ & _ & _ & ->)]];
      reflexivity.
Qed.

(** While a probe is outstanding, an iteration of the monitor writes
    nothing to the socket. *)
Lemma outstanding_probe_no_write now c h :
  is_Some (_last_ping_id c) ->
  Forall no_write (events_of (_ping_loop_body create_connection ws_send now c h)).
Proof.
  intros [p Hlp]. unfold _ping_loop_body. py_run.
  destruct (_ws c) as [w|] eqn:Hw.
  - py_run.
    destruct ((_ping_interval c <=? now - _last_ping_time c) && _authenticated c).
    + py_run. rewrite Hlp.
      destruct (attempt_reconnect_spec create_connection (set_last_ping_time now c)
                  (h ++ [EvPrint LogPingUnanswered]))
        as (c' & es & E & Hnw & _).
      rewrite (reconnect_branch_run _ _ _ _ _ E). cbn.
      constructor; [done |]. apply Forall_app. split; [done | by repeat constructor].
    + py_run. by repeat constructor.
  - destruct (attempt_reconnect_spec create_connection c
                (h ++ [EvPrint LogPingNoSocket]))
      as (c' & es & E & Hnw & _).
    rewrite (reconnect_branch_run _ _ _ _ _ E). cbn.
    constructor; [done |]. apply Forall_app. split; [done | by repeat constructor].
Qed.
End MonitorLoop.

(** C1: the monitor never has two probes outstanding.  On the tick where
    the interval has elapsed, the connection is authenticated and the
    tracker holds an unanswered probe id, the loop body is one call of
    [_attempt_reconnect] between a printed line and the sleep: nothing is
    written to the socket, the handle is closed, and [create_connection]
    is called once (not at all if the client was stopped).  While the
    tracker holds an id, no iteration writes anything.  And in every run
    where no pong arrives and the connection is lost only through the
    monitor, each probe after the first follows exactly one
    re-established connection. *)
Theorem one_probe_outstanding :
  forall json_loads create_connection ws_send table,
    (forall now (c : client) (h : list event) w p,
       _ws c = Some w ->
       _ping_interval c <= now - _last_ping_time c ->
       _authenticated c = true ->
       _last_ping_id c = Some p ->
       exists c' es,
         _attempt_reconnect create_connection (set_last_ping_time now c)
           (h ++ [EvPrint LogPingUnanswered]) = (Ok tt, c', es)
         /\ _ping_loop_body create_connection ws_send now c h
            = (Ok tt, c', EvPrint LogPingUnanswered :: es ++ [EvSleep 1])
         /\ Forall no_write (EvPrint LogPingUnanswered :: es ++ [EvSleep 1])
         /\ In (EvClose w) es
         /\ open_attempts (EvPrint LogPingUnanswered :: es ++ [EvSleep 1])
            = (if _manual_stop c then 0 else 1)%nat)
    /\ (forall now (c : client) (h : list event),
          is_Some (_last_ping_id c) ->
          Forall no_write
            (events_of (_ping_loop_body create_connection ws_send now c h)))
    /\ (forall schedule (c : client) (h : list event),
          forallb (unanswered json_loads) schedule = true ->
          probes_spaced
            (events_of
               (run json_loads create_connection ws_send table schedule c h))).
Proof.
  intros json_loads create_connection ws_send table. split; [| split].
  - intros now c h w p. apply unanswered_probe_tick.
  - intros now c h. apply outstanding_probe_no_write.
  - intros schedule c h Hsched.
    destruct (run_tracker_inv json_loads create_connection ws_send table
                schedule c h None Hsched) as (_ & since' & Hscan & _).
    { intros _. exact I. }
    unfold probes_spaced. rewrite Hscan. by eexists.
Qed.

(** The run of the example: two probes, one reconnection between them. *)
Example two_probes_one_reconnect :
  let r := run frames_loads open_always write_always REGISTRIES
             unanswered_run client_running [] in
  probes (events_of r) = 2%nat
  /\ open_attempts (events_of r) = 1%nat
  /\ probe_scan None (events_of r) = Some (Some 0%nat).
Proof. vm_compute. repeat split; reflexivity. Qed.

Lemma one_probe_outstanding_witness :
  (exists c' es,
     _attempt_reconnect open_always (set_last_ping_time 20 client_probing)
       ([] ++ [EvPrint LogPingUnanswered]) = (Ok tt, c', es)
     /\ _ping_loop_body open_always write_always 20 client_probing []
        = (Ok tt, c', EvPrint LogPingUnanswered :: es ++ [EvSleep 1])
     /\ Forall no_write (EvPrint LogPingUnanswered :: es ++ [EvSleep 1])
     /\ In (EvClose 0%nat) es
     /\ open_attempts (EvPrint LogPingUnanswered :: es ++ [EvSleep 1])
        = (if _manual_stop client_probing then 0 else 1)%nat)
  /\ Forall no_write
       (events_of (_ping_loop_body open_always write_always 20 client_probing []))
  /\ probes_spaced
       (events_of
          (run frames_loads open_always write_always REGISTRIES
             unanswered_run client_running [])).
Proof.
  destruct (one_probe_outstanding frames_loads open_always write_always REGISTRIES)
    as (Htick & Hquiet & Hrun).
  split; [| split].
  - apply (Htick 20 client_probing [] 0%nat 1); [reflexivity | | reflexivity | reflexivity].
    vm_compute. discriminate.
  - apply Hquiet. exists 1. reflexivity.
  - apply Hrun. reflexivity.
Defined.

(** C7, as stated, fails: with probe 5 outstanding, a pong carrying id 7
    does not leave the tracker unchanged -- it clears it. *)
Lemma pong_with_other_id_clears_tracker :
  let c := set_last_ping_id (Some 5) client_ready in
  let r := _handle_message frames_loads write_always REGISTRIES ReceiverThread
             raw_pong7 c [] in
  _last_ping_id c = Some 5
  /\ py_get pong7 "id" JNull = Ok (JInt 7)
  /\ result_of r = Ok tt
  /\ _last_ping_id (client_of r) = None.
Proof. vm_compute. repeat split; reflexivity. Qed.

Lemma pong_clears_tracker_witness :
  let loads := loads_table [(raw_pong7, pong7); (raw_pong3, pong3)] in
  let c := set_last_ping_id (Some 5) client_pending in
  _handle_message loads write_always REGISTRIES ReceiverThread raw_pong7 c []
  = (Ok tt, set_last_ping_id None c, [])
  /\ _handle_message loads write_always REGISTRIES ReceiverThread raw_pong3 c []
     = (Ok tt,
        set_last_ping_id None (set_callbacks (delete 3 (_callbacks c)) c),
        [EvCallback 0 pong3]).
Proof.
  intros loads c. split.
  - destruct (pong_clears_tracker loads write_always REGISTRIES ReceiverThread
                raw_pong7 pong7 c [] eq_refl eq_refl) as (_ & Hfree & _).
    apply (Hfree (JInt 7) (KInt 7)); [reflexivity | reflexivity |].
    intros n [= <-]. reflexivity.
  - destruct (pong_clears_tracker loads write_always REGISTRIES ReceiverThread
                raw_pong3 pong3 c [] eq_refl eq_refl) as (_ & _ & Hcb & _).
    apply (Hcb (JInt 3) (KInt 3) 3 (Cb_external 0)); reflexivity.
Defined.

Lemma state_changed_overwrites_one_entry_witness :
  _handle_state_changed_event kitchen_event client_with_state []
  = (Ok tt,
     set_store
       (<["states"%string :=
            SDict (<[KStr "light.kitchen" := kitchen_off]>
                     {[ KStr "light.kitchen" := kitchen_on ]})]>
          (store client_with_state))
       client_with_state, [])
  /\ _handle_state_changed_event removed_event client_with_state []
     = (Ok tt, client_with_state, []).
Proof.
  split.
  - destruct (state_changed_overwrites_one_entry kitchen_event kitchen_event_data
                (JStr "light.kitchen") kitchen_off
                {[ KStr "light.kitchen" := kitchen_on ]} client_with_state []
                eq_refl eq_refl eq_refl eq_refl) as [_ Hset].
    destruct (Hset (KStr "light.kitchen")) as [Hrun _];
      [reflexivity | discriminate | reflexivity | exact Hrun].
  - destruct (state_changed_overwrites_one_entry removed_event
                (JObj [("entity_id", JStr "light.kitchen"); ("old_state", kitchen_on);
                       ("new_state", JNull)]%string)
                (JStr "light.kitchen") JNull
                {[ KStr "light.kitchen" := kitchen_on ]} client_with_state []
                eq_refl eq_refl eq_refl eq_refl) as [Hskip _].
    apply Hskip. right. reflexivity.
Defined.

Lemma bootstrap_requests_witness :
  let r := _handle_message frames_loads write_always REGISTRIES ReceiverThread
             raw_auth_ok (set_ws (Some 0%nat) client0) [] in
  let types := sent_types (events_of r) in
  result_of r = Ok tt
  /\ types = "subscribe_events"%string :: map list_request (map fst REGISTRIES)
             ++ ["get_states"; "get_services"]%string
  /\ (forall name, In name (map fst REGISTRIES) ->
        count_type (list_request name) types = 1%nat)
  /\ (forall name, ~ In name (map fst REGISTRIES) ->
        count_type (list_request name) types = 0%nat)
  /\ count_type "get_states" types = 1%nat
  /\ count_type "get_services" types = 1%nat.
Proof.
  apply (bootstrap_requests frames_loads write_always REGISTRIES ReceiverThread
           raw_auth_ok auth_ok_frame).
  - reflexivity.
  - apply NoDup_ListNoDup. repeat constructor; cbn; intuition discriminate.
  - reflexivity.
  - reflexivity.
  - by eexists.
Defined.

Lemma entity_registry_update_requests_witness :
  let r := _handle_message frames_loads write_always REGISTRIES ReceiverThread
             raw_entity_updated client_ready [] in
  let types := sent_types (events_of r) in
  result_of r = Ok tt
  /\ types = [list_request "entity_registry"; "get_states"%string]
  /\ count_type (list_request "entity_registry") types = 1%nat
  /\ count_type "get_states" types = 1%nat
  /\ (forall name, name <> "entity_registry"%string ->
        count_type (list_request name) types = 0%nat).
Proof.
  apply (entity_registry_update_requests frames_loads write_always REGISTRIES
           ReceiverThread raw_entity_updated entity_updated_frame
           entity_updated_event).
  - reflexivity.
  - reflexivity.
  - reflexivity.
  - reflexivity.
  - reflexivity.
  - reflexivity.
  - split; [by eexists | reflexivity].
Defined.

Lemma auth_invalid_is_final_witness :
  let r := _handle_message frames_loads write_always REGISTRIES ReceiverThread
             raw_auth_invalid client_running [] in
  let c' := client_of r in
  (result_of r = Ok tt
   /\ _stop_event c' = true /\ _manual_stop c' = true
   /\ _ws c' = None /\ _authenticated c' = false
   /\ (forall w, _ws client_running = Some w -> In (EvClose w) (events_of r))
   /\ open_attempts (events_of r) = 0%nat)
  /\ (forall h', exists c'',
        _attempt_reconnect open_always c' h' = (Ok tt, c'', [])
        /\ halted c'')
  /\ (forall schedule h',
        same_run schedule = true ->
        let r' := run frames_loads open_always write_always REGISTRIES schedule c' h' in
        result_of r' = Ok tt
        /\ _ws (client_of r') = None
        /\ _manual_stop (client_of r') = true
        /\ open_attempts (events_of r') = 0%nat).
Proof.
  apply (auth_invalid_is_final frames_loads open_always write_always REGISTRIES
           ReceiverThread raw_auth_invalid auth_invalid_frame); reflexivity.
Defined.

Lemma failed_result_keeps_callback_witness :
  (_handle_message frames_loads write_always REGISTRIES ReceiverThread
     raw_failed3 client_pending [] = (Ok tt, client_pending, [])
   /\ (forall n, frame_pops failed3 n = false))
  /\ _callbacks
       (client_of
          (run frames_loads open_always write_always REGISTRIES
             [ReceiverIteration (RecvData raw_failed3); PingIteration 10;
              ReceiverIteration (RecvData raw_pong7)]
             client_pending []))
       !! 3 = Some (Cb_external 0).
Proof.
  destruct (failed_result_keeps_callback frames_loads open_always write_always
              REGISTRIES) as (Hdrop & Hkeep & _).
  split.
  - apply (Hdrop ReceiverThread raw_failed3 failed3 (JBool false)); reflexivity.
  - apply Hkeep.
    + intros n [cb Hn]. unfold client_pending in Hn. cbn in Hn.
      apply lookup_singleton_Some in Hn as [<- _]. reflexivity.
    + reflexivity.
    + repeat constructor.
Defined.

(* ===================================================================== *)
(** * From the elementary steps to every run                               *)
(* ===================================================================== *)

Lemma assoc_get_set_eq {A} (k : string) (v : A) kvs :
  assoc_get k (assoc_set k v kvs) = Some v.
Proof.
  induction kvs as [|[k0 v0] rest IH]; cbn.
  - by rewrite String.eqb_refl.
  - destruct (String.eqb_spec k k0) as [<- | Hne]; cbn.
    + by rewrite String.eqb_refl.
    + destruct (String.eqb_spec k k0); [congruence | exact IH].
Qed.

Section Steps.
Variable json_loads : string -> outcome json.
Variable create_connection : list event -> option websocket.
Variable ws_send : list event -> websocket -> json -> bool.
Variable table : list (string * string).
Variable R : client -> list event -> client -> Prop.
Hypothesis Hsteps : session_steps ws_send R.

Let HR : closed R := steps_closed _ _ Hsteps.

Lemma steps_emit e : is_write e = false -> preserves R (emit e).
Proof. intros He. apply preserves_emit. intros c. by apply (steps_silent _ _ Hsteps). Qed.

Lemma steps_modify (f : client -> client) :
  (forall c, store (f c) = store c /\ _callbacks (f c) = _callbacks c
             /\ _current_id (f c) = _current_id c) ->
  preserves R (modify f).
Proof.
  intros Hf. apply preserves_modify. intros c.
  destruct (Hf c) as (? & ? & ?). by apply (steps_field _ _ Hsteps).
Qed.

Lemma steps_store_cache name d : preserves R (store_set name (SDict d)).
Proof. apply preserves_modify. intros c. apply (steps_cache _ _ Hsteps). Qed.

Lemma steps_pop_callback n : preserves R (pop_callback n).
Proof. apply preserves_modify. intros c. apply (steps_pop _ _ Hsteps). Qed.

Lemma steps_open_connection : preserves R (open_connection create_connection).
Proof.
  intros c h. unfold open_connection.
  destruct (create_connection h); by apply (steps_silent _ _ Hsteps).
Qed.

(** A setter of a field other than the store, the callbacks and the
    counter; an effect other than a write. *)
Ltac steps_leaf :=
  lazymatch goal with
  | |- preserves _ (modify _) => apply steps_modify; intros []; repeat split
  | |- preserves _ (emit _) => apply steps_emit; reflexivity
  | |- preserves _ (print _) => apply steps_emit; reflexivity
  | |- preserves _ (sleep _) => apply steps_emit; reflexivity
  | |- preserves _ (store_set _ (SDict _)) => apply steps_store_cache
  | |- preserves _ (pop_callback _) => apply steps_pop_callback
  | |- preserves _ (send_message _ _ _) => apply (steps_send_message _ _ Hsteps)
  | |- preserves _ (open_connection _) => apply steps_open_connection
  | _ => idtac
  end.

Ltac steps_auto := repeat pres_step HR; steps_leaf.

Lemma steps_close_ws : preserves R _close_ws.
Proof. unfold _close_ws. steps_auto. Qed.

Lemma steps_establish_ws : preserves R (_establish_ws create_connection).
Proof. unfold _establish_ws. steps_auto. Qed.

Lemma steps_stop thr : preserves R (stop thr).
Proof. unfold stop, join. steps_auto. apply steps_close_ws. Qed.

Lemma steps_refresh_registry name : preserves R (refresh_registry ws_send name).
Proof. unfold refresh_registry. steps_auto. Qed.

Lemma steps_get_states : preserves R (_get_states ws_send).
Proof. unfold _get_states. steps_auto. Qed.

Lemma steps_on_list_result name msg : preserves R (on_list_result table name msg).
Proof. unfold on_list_result. steps_auto. Qed.

Lemma steps_handle_get_states msg : preserves R (_handle_get_states msg).
Proof. unfold _handle_get_states. steps_auto. Qed.

Lemma steps_store_services msg : preserves R (store_services msg).
Proof.
  unfold store_services. steps_auto.
  apply preserves_modify. intros c. apply (steps_services _ _ Hsteps).
Qed.

Lemma steps_invoke : forall cb msg, preserves R (invoke ws_send table cb msg).
Proof.
  fix IH 1. intros [name | | | registry [user|] | tag] msg; cbn [invoke].
  - apply steps_on_list_result.
  - apply steps_handle_get_states.
  - apply steps_store_services.
  - apply (preserves_bind _ HR); [apply steps_refresh_registry | intros _].
    apply IH.
  - apply (preserves_bind _ HR); [apply steps_refresh_registry | intros _].
    apply (preserves_ret _ HR).
  - apply steps_emit. reflexivity.
Qed.

Lemma steps_send_auth : preserves R (_send_auth ws_send).
Proof. unfold _send_auth. steps_auto. apply (steps_auth _ _ Hsteps). Qed.

Lemma steps_post_auth_init : preserves R (_post_auth_init ws_send table).
Proof.
  unfold _post_auth_init. steps_auto.
  - apply (preserves_for_each _ HR). intros name. apply steps_refresh_registry.
  - apply steps_get_states.
Qed.

Lemma steps_states_setitem entity_id new_state :
  preserves R (states_setitem entity_id new_state).
Proof. unfold states_setitem. steps_auto. Qed.

Lemma steps_handle_state_changed_event event_obj :
  preserves R (_handle_state_changed_event event_obj).
Proof.
  unfold _handle_state_changed_event. steps_auto; apply steps_states_setitem.
Qed.

Lemma steps_handle_event data : preserves R (_handle_event ws_send table data).
Proof.
  unfold _handle_event. steps_auto;
    lazymatch goal with
    | |- preserves _ (refresh_registry _ _) => apply steps_refresh_registry
    | |- preserves _ (_get_states _) => apply steps_get_states
    | |- preserves _ (_handle_state_changed_event _) =>
        apply steps_handle_state_changed_event
    end.
Qed.

Lemma steps_lookup_callback msg_id : preserves R (lookup_callback msg_id).
Proof. unfold lookup_callback. steps_auto. Qed.

Lemma steps_handle_message thr raw :
  preserves R (_handle_message json_loads ws_send table thr raw).
Proof.
  unfold _handle_message. steps_auto;
    lazymatch goal with
    | |- preserves _ (_send_auth _) => apply steps_send_auth
    | |- preserves _ (_post_auth_init _ _) => apply steps_post_auth_init
    | |- preserves _ (stop _) => apply steps_stop
    | |- preserves _ (lookup_callback _) => apply steps_lookup_callback
    | |- preserves _ (invoke _ _ _ _) => apply steps_invoke
    | |- preserves _ (_handle_event _ _ _) => apply steps_handle_event
    end.
Qed.

Lemma steps_attempt_reconnect : preserves R (_attempt_reconnect create_connection).
Proof.
  unfold _attempt_reconnect.
  apply (preserves_bind _ HR); [apply steps_close_ws | intros ?].
  apply (preserves_bind _ HR); [apply (preserves_gets _ HR) | intros manual].
  destruct manual; [apply (preserves_ret _ HR) |].
  apply (preserves_bind _ HR); [steps_leaf | intros ?].
  apply (preserves_bind _ HR).
  - apply (preserves_try_except _ HR).
    + apply (preserves_bind _ HR); [apply steps_establish_ws | intros ?].
      steps_auto.
    + intros e.
      apply (preserves_bind _ HR); [steps_leaf | intros ?].
      apply (preserves_bind _ HR); [apply steps_close_ws | intros ?].
      steps_auto.
  - intros ok. steps_auto.
Qed.

Lemma steps_ping_loop_body now :
  preserves R (_ping_loop_body create_connection ws_send now).
Proof.
  unfold _ping_loop_body. steps_auto; apply steps_attempt_reconnect.
Qed.

Lemma steps_receiver_loop_body r :
  preserves R (_receiver_loop_body json_loads ws_send table r).
Proof.
  unfold _receiver_loop_body. steps_auto. apply steps_handle_message.
Qed.

Lemma steps_connect : preserves R (connect create_connection).
Proof.
  unfold connect.
  apply (preserves_bind _ HR); [apply (preserves_gets _ HR) | intros ws].
  destruct ws as [w|]; [steps_leaf |].
  apply (preserves_bind _ HR); [apply steps_stop | intros ?].
  apply (preserves_bind _ HR); [steps_leaf | intros ?].
  apply (preserves_bind _ HR); [steps_leaf | intros ?].
  apply (preserves_bind _ HR).
  - apply (preserves_try_except _ HR); [apply steps_establish_ws |].
    intros e.
    apply (preserves_bind _ HR); [steps_leaf | intros ?].
    apply (preserves_bind _ HR); [apply steps_close_ws | intros ?].
    steps_leaf.
  - intros ?. steps_auto.
Qed.

Lemma steps_discard {A} (m : M A) : preserves R m -> preserves R (discard m).
Proof.
  intros Hm. unfold discard. apply (preserves_try_except _ HR).
  - apply (preserves_bind _ HR); [exact Hm | intros ?]. apply (preserves_ret _ HR).
  - intros ?. apply (preserves_ret _ HR).
Qed.

Lemma steps_perform a :
  preserves R (perform json_loads create_connection ws_send table a).
Proof.
  destruct a as [now | r | payload cb | registry cb kwargs | registry | | ];
    cbn [perform].
  - unfold ping_thread_step.
    apply (preserves_bind _ HR); [apply (preserves_gets _ HR) | intros t].
    destruct t as [[]|]; try apply (preserves_ret _ HR).
    apply (preserves_bind _ HR); [apply (preserves_gets _ HR) | intros stopped].
    destruct stopped; [steps_auto |].
    apply (preserves_try_except _ HR); [apply steps_ping_loop_body |].
    intros ?. steps_leaf.
  - unfold receiver_thread_step.
    apply (preserves_bind _ HR); [apply (preserves_gets _ HR) | intros t].
    destruct t as [[]|]; try apply (preserves_ret _ HR).
    apply (preserves_bind _ HR); [apply (preserves_gets _ HR) | intros stopped].
    destruct stopped; [steps_auto |].
    apply (preserves_try_except _ HR); [apply steps_receiver_loop_body |].
    intros ?. steps_leaf.
  - apply steps_discard. steps_leaf.
  - apply steps_discard. unfold update_registry. steps_leaf.
  - apply steps_discard, steps_refresh_registry.
  - apply steps_stop.
  - apply steps_connect.
Qed.

Lemma steps_run schedule :
  preserves R (run json_loads create_connection ws_send table schedule).
Proof.
  unfold run. induction schedule as [|a rest IH]; cbn [for_each].
  - apply (preserves_ret _ HR).
  - apply (preserves_bind _ HR); [apply steps_perform | intros ?; exact IH].
Qed.
End Steps.

(* ===================================================================== *)
(** * Further properties of the connection supervisor                      *)
(* ===================================================================== *)

(** X1: [_close_ws] closes the handle it finds, leaves no handle and
    clears the authenticated flag; called again it does nothing at all. *)
Theorem close_ws_idempotent :
  forall (c : client) (h : list event),
  exists c1,
    _close_ws c h
    = (Ok tt, c1, match _ws c with Some w => [EvClose w] | None => [] end)
    /\ _ws c1 = None /\ _authenticated c1 = false
    /\ _callbacks c1 = _callbacks c /\ _current_id c1 = _current_id c
    /\ _last_ping_id c1 = _last_ping_id c /\ store c1 = store c
    /\ (forall h', _close_ws c1 h' = (Ok tt, c1, [])).
Proof.
  intros c h. destruct c as [u t v ws se cid cbs lp pi lpt rt pt au ms st].
  exists (Client u t v None se cid cbs lp pi lpt rt pt false ms st).
  destruct ws as [w|]; vm_compute; repeat split.
Qed.

(** X2: [_attempt_reconnect] always returns and never leaves a half-open
    handle: afterwards the authenticated flag is off, and either a new
    handle is there, opened in this call, and the probe tracker is empty,
    or there is no handle and the tracker is as before.  It writes nothing
    to the socket, and it keeps the pending callbacks and the id counter:
    a reconnect does not purge what waits for a response. *)
Theorem reconnect_leaves_no_half_open_handle :
  forall create_connection (c : client) (h : list event),
  exists c' es,
    _attempt_reconnect create_connection c h = (Ok tt, c', es)
    /\ _authenticated c' = false
    /\ Forall no_write es
    /\ _callbacks c' = _callbacks c
    /\ _current_id c' = _current_id c
    /\ store c' = store c
    /\ ((_ws c' = None /\ _last_ping_id c' = _last_ping_id c
         /\ Forall (fun e => is_opened e = false) es)
        \/ (exists w, _ws c' = Some w /\ In (EvOpen w) es
                      /\ _last_ping_id c' = None /\ _manual_stop c = false)).
Proof.
  intros create_connection c h.
  destruct c as [u t v ws se cid cbs lp pi lpt rt pt au ms st].
  remember (_attempt_reconnect create_connection _ h) as r eqn:E.
  destruct ms, ws as [w|]; vm_compute in E;
    try match type of E with
        | context [create_connection ?x] => destruct (create_connection x) as [w'|]
        end;
    subst r; eexists _, _; (split; [reflexivity |]);
    (split; [reflexivity |]); (split; [repeat constructor |]);
    (split; [reflexivity |]); (split; [reflexivity |]); (split; [reflexivity |]).
  all: first [ solve [left; repeat split; repeat constructor]
             | solve [right; eexists; repeat split; cbn; auto 10] ].
Qed.

(** X3: [connect] on a client that has a handle only prints a line.
    Otherwise it stops what was running, clears the stop flags, calls
    [create_connection] once and, whether that worked or not, leaves both
    threads running; the handle is there exactly when the call returned
    one.  It never raises. *)
Theorem connect_starts_both_threads :
  forall create_connection (c : client) (h : list event),
    (forall w, _ws c = Some w ->
       connect create_connection c h = (Ok tt, c, [EvPrint LogAlreadyConnected]))
    /\ (_ws c = None ->
        exists c' es,
          connect create_connection c h = (Ok tt, c', es)
          /\ _receiver_thread c' = Some Running
          /\ _ping_thread c' = Some Running
          /\ _manual_stop c' = false /\ _stop_event c' = false
          /\ _authenticated c' = false
          /\ open_attempts es = 1%nat
          /\ (forall w, _ws c' = Some w <-> In (EvOpen w) es)).
Proof.
  intros create_connection c h.
  destruct c as [u t v ws se cid cbs lp pi lpt rt pt au ms st]. split.
  - intros w Hw. cbn in Hw. subst ws. vm_compute. reflexivity.
  - intros Hw. cbn in Hw. subst ws.
    remember (connect create_connection _ h) as r eqn:E.
    destruct rt as [[]|], pt as [[]|]; vm_compute in E;
      match type of E with
      | context [create_connection ?x] => destruct (create_connection x) as [w'|]
      end;
      subst r; eexists _, _; (split; [reflexivity |]);
      repeat (split; [reflexivity |]);
      intros w; cbn; split; intros Hx;
      repeat match goal with
      | H : _ \/ _ |- _ => destruct H
      | H : False |- _ => destruct H
      | H : Some _ = Some _ |- _ => injection H as ->
      | H : EvOpen _ = EvOpen _ |- _ => injection H as ->
      end; try discriminate; try reflexivity; auto 10.
Qed.

Lemma connect_starts_both_threads_witness :
  exists c' es,
    connect open_always client0 [] = (Ok tt, c', es)
    /\ _receiver_thread c' = Some Running
    /\ _ping_thread c' = Some Running
    /\ _manual_stop c' = false /\ _stop_event c' = false
    /\ _authenticated c' = false
    /\ open_attempts es = 1%nat
    /\ (forall w, _ws c' = Some w <-> In (EvOpen w) es).
Proof.
  destruct (connect_starts_both_threads open_always client0 []) as [_ Hnew].
  apply Hnew. reflexivity.
Defined.

(** X4: [stop] called from the caller's thread sets both stop flags,
    drops the handle and both thread objects and keeps the rest of the
    client; a second [stop] changes nothing and has no effect. *)
Theorem stop_idempotent :
  forall (c : client) (h : list event),
  exists c1 es,
    stop MainThread c h = (Ok tt, c1, es)
    /\ _manual_stop c1 = true /\ _stop_event c1 = true
    /\ _ws c1 = None /\ _authenticated c1 = false
    /\ _receiver_thread c1 = None /\ _ping_thread c1 = None
    /\ _callbacks c1 = _callbacks c /\ _current_id c1 = _current_id c
    /\ store c1 = store c
    /\ (forall h', stop MainThread c1 h' = (Ok tt, c1, [])).
Proof.
  intros c h. destruct c as [u t v ws se cid cbs lp pi lpt rt pt au ms st].
  exists (Client u t v None true cid cbs lp pi lpt None None false true st).
  destruct ws as [w|], rt as [[]|], pt as [[]|];
    vm_compute; eexists; repeat split.
Qed.

(* ===================================================================== *)
(** * Further properties of the correlator                                 *)
(* ===================================================================== *)

(** X5: on a Ready session, [send_message] of a dictionary whose write
    succeeds returns the current value of the id counter and advances the
    counter by one; the frame written is the payload with that id under
    ["id"] and every other field as given; the callback, if any, is
    registered under the id, and no other pending callback is touched. *)
Theorem send_message_assigns_next_id :
  forall ws_send fields callback (c : client) (h : list event) w,
    _ws c = Some w ->
    _authenticated c = true ->
    let id := _current_id c in
    let frame := JObj (assoc_set "id" (JInt id) fields) in
    ws_send (h ++ send_log c frame) w frame = true ->
    exists c',
      send_message ws_send (JObj fields) callback c h
      = (Ok id, c', send_log c frame ++ [EvSend w frame])
      /\ _current_id c' = id + 1
      /\ _callbacks c' !! id = (match callback with
                                | Some cb => Some cb
                                | None => _callbacks c !! id
                                end)
      /\ (forall n, n <> id -> _callbacks c' !! n = _callbacks c !! n)
      /\ py_get frame "id" JNull = Ok (JInt id)
      /\ (forall k, k <> "id"%string ->
            py_get frame k JNull = py_get (JObj fields) k JNull)
      /\ store c' = store c /\ _ws c' = _ws c
      /\ _last_ping_id c' = _last_ping_id c.
Proof.
  intros ws_send fields callback c h w Hw Hauth id frame Hsend.
  exists (after_send callback c).
  rewrite (send_message_run ws_send (JObj fields) frame callback c h w Hw Hauth eq_refl).
  rewrite Hsend. split; [reflexivity |].
  destruct c as [u t v ws se cid cbs lp pi lpt rt pt au ms st]. cbn in *.
  subst id frame. cbn.
  destruct callback as [cb|]; cbn; repeat split;
    try (by rewrite lookup_insert_eq);
    try (intros n Hn; by rewrite lookup_insert_ne);
    try (by rewrite assoc_get_set_eq);
    try (intros k Hk; by rewrite assoc_get_set_ne).
Qed.

Lemma send_message_assigns_next_id_witness :
  exists c',
    send_message write_always
      (JObj [("type", JStr "call_service"); ("domain", JStr "light")]%string)
      (Some (Cb_external 0)) client_pending []
    = (Ok 4, c',
       [EvSend 0%nat
          (JObj [("type", JStr "call_service"); ("domain", JStr "light");
                 ("id", JInt 4)]%string)])
    /\ _current_id c' = 5
    /\ _callbacks c' !! 4 = Some (Cb_external 0)
    /\ _callbacks c' !! 3 = Some (Cb_external 0).
Proof.
  destruct (send_message_assigns_next_id write_always
              [("type", JStr "call_service"); ("domain", JStr "light")]%string
              (Some (Cb_external 0)) client_pending [] 0%nat
              eq_refl eq_refl eq_refl)
    as (c' & Hrun & Hid & Hcb & Hother & _).
  exists c'. split; [exact Hrun |]. split; [exact Hid |]. split; [exact Hcb |].
  rewrite Hother by discriminate. reflexivity.
Defined.

(** X6: when the write raises, [send_message] raises too -- but the id is
    already consumed and the callback already registered: the counter is
    one further and the callback stays in the map, for a response that
    cannot come. *)
Theorem send_failure_keeps_registration :
  forall ws_send fields cb (c : client) (h : list event) w,
    _ws c = Some w ->
    _authenticated c = true ->
    let id := _current_id c in
    let frame := JObj (assoc_set "id" (JInt id) fields) in
    ws_send (h ++ send_log c frame) w frame = false ->
    exists c',
      send_message ws_send (JObj fields) (Some cb) c h
      = (Raise SocketError, c', send_log c frame ++ [EvSendFailed w frame])
      /\ _current_id c' = id + 1
      /\ _callbacks c' !! id = Some cb.
Proof.
  intros ws_send fields cb c h w Hw Hauth id frame Hsend.
  exists (after_send (Some cb) c).
  rewrite (send_message_run ws_send (JObj fields) frame (Some cb) c h w Hw Hauth eq_refl).
  rewrite Hsend. split; [reflexivity |].
  destruct c as [u t v ws se cid cbs lp pi lpt rt pt au ms st]. cbn.
  split; [reflexivity | by rewrite lookup_insert_eq].
Qed.

Lemma send_failure_keeps_registration_witness :
  exists c',
    send_message (fun _ _ _ => false) (JObj [("type", JStr "get_states")]%string)
      (Some Cb_handle_get_states) client_ready []
    = (Raise SocketError, c',
       [EvSendFailed 0%nat
          (JObj [("type", JStr "get_states"); ("id", JInt 1)]%string)])
    /\ _current_id c' = 2
    /\ _callbacks c' !! 1 = Some Cb_handle_get_states.
Proof.
  apply (send_failure_keeps_registration (fun _ _ _ => false)
           [("type", JStr "get_states")]%string Cb_handle_get_states
           client_ready [] 0%nat); reflexivity.
Defined.

Lemma large_ids_never_popped json_loads (schedule : list activity) :
  exists N, forall n, N <= n ->
    Forall (fun a => activity_pops json_loads a n = false) schedule.
Proof.
  induction schedule as [|a rest [N HN]].
  - exists 0. intros n _. constructor.
  - assert (Ha : exists m, forall n, m <= n -> activity_pops json_loads a n = false).
    { destruct a as [now | [| | |raw] | payload cb | registry cb kwargs | registry | | ];
        try (exists 0; intros n _; reflexivity).
      cbn [activity_pops]. destruct (json_loads raw) as [data|];
        [| exists 0; intros n _; reflexivity].
      unfold frame_pops. destruct (frame_key data) as [m|].
      - exists (m + 1). intros n Hn. apply andb_false_intro2. apply Z.eqb_neq. lia.
      - exists 0. intros n _. apply andb_false_r. }
    destruct Ha as [m Hm]. exists (Z.max N m). intros n Hn. constructor.
    + apply Hm. lia.
    + apply HN. lia.
Qed.

(** X7: ids are never reused.  Whatever the two threads and the callers
    do, one call or loop iteration after another and in any order --
    frames handled, reconnections, [stop], [connect], writes that fail --
    the id counter never goes back, and every callback still registered
    sits under an id the counter has already passed: the next
    [send_message] cannot take the id of a pending request. *)
Theorem ids_never_reused :
  forall json_loads create_connection ws_send table schedule
         (c : client) (h : list event),
    ids_fresh c ->
    let c' := client_of (run json_loads create_connection ws_send table schedule c h) in
    ids_fresh c' /\ _current_id c <= _current_id c'.
Proof.
  intros json_loads create_connection ws_send table schedule c h Hfresh c'.
  destruct (large_ids_never_popped json_loads schedule) as [N HN].
  destruct (keeps_run json_loads create_connection ws_send table N schedule
              (HN N (Z.le_refl N)) c h Hfresh) as (Hf & Hle & _).
  split; [exact Hf | exact Hle].
Qed.

Lemma ids_never_reused_witness :
  let c' := client_of
              (run frames_loads open_always write_always REGISTRIES
                 [CallConnect; ReceiverIteration (RecvData raw_auth_ok);
                  CallSendMessage (JObj [("type", JStr "get_config")]%string)
                    (Some (Cb_external 1));
                  PingIteration 10; ReceiverIteration (RecvData raw_pong7);
                  CallStop]
                 client0 []) in
  ids_fresh c' /\ _current_id client0 <= _current_id c'.
Proof.
  apply (ids_never_reused frames_loads open_always write_always REGISTRIES).
  intros n [cb Hn]. vm_compute in Hn. discriminate.
Defined.

(* ===================================================================== *)
(** * Further properties of the cache handlers                             *)
(* ===================================================================== *)

Lemma index_by_app id_field (l1 l2 : list json) :
  forall acc,
    index_by id_field (l1 ++ l2) acc
    = (let? m := index_by id_field l1 acc in index_by id_field l2 m).
Proof.
  induction l1 as [|item rest IH]; intros acc; cbn; [done |].
  destruct (py_get item id_field JNull) as [rec_id|]; cbn; [| done].
  destruct (truthy rec_id); [| apply IH].
  destruct (py_key rec_id) as [k|]; cbn; [apply IH | done].
Qed.

Lemma index_by_untouched id_field k (items : list json) :
  forall acc m,
    index_by id_field items acc = Ok m ->
    (forall item rec_id, In item items ->
       py_get item id_field JNull = Ok rec_id -> truthy rec_id = true ->
       py_key rec_id <> Ok k) ->
    m !! k = acc !! k.
Proof.
  induction items as [|item rest IH]; intros acc m Hidx Hno; cbn in Hidx.
  - by injection Hidx as <-.
  - destruct (py_get item id_field JNull) as [rec_id|] eqn:Hget; [| discriminate].
    cbn in Hidx. destruct (truthy rec_id) eqn:Htruthy.
    + destruct (py_key rec_id) as [k0|] eqn:Hkey; [| discriminate].
      cbn in Hidx. rewrite (IH _ _ Hidx).
      * apply lookup_insert_ne. intros ->.
        apply (Hno item rec_id); [by left | done | done | done].
      * intros it rid Hin. apply Hno. by right.
    + apply (IH _ _ Hidx). intros it rid Hin. apply Hno. by right.
Qed.

(** X8: the loop that rebuilds a cache entry.  When two items of a
    response carry the same id, the later one is the one cached: an item
    with a truthy id ends up under its id unless an item after it in the
    response has the same id. *)
Theorem index_by_last_wins :
  forall id_field (before after : list json) item rec_id k acc m,
    index_by id_field (before ++ item :: after) acc = Ok m ->
    py_get item id_field JNull = Ok rec_id ->
    truthy rec_id = true ->
    py_key rec_id = Ok k ->
    (forall item' rec_id', In item' after ->
       py_get item' id_field JNull = Ok rec_id' -> truthy rec_id' = true ->
       py_key rec_id' <> Ok k) ->
    m !! k = Some item.
Proof.
  intros id_field before after item rec_id k acc m Hidx Hget Htruthy Hkey Hlast.
  rewrite index_by_app in Hidx.
  destruct (index_by id_field before acc) as [m1|] eqn:H1; [| discriminate].
  cbn in Hidx. rewrite Hget in Hidx. cbn in Hidx.
  rewrite Htruthy, Hkey in Hidx. cbn in Hidx.
  rewrite (index_by_untouched id_field k after _ m Hidx Hlast).
  apply lookup_insert_eq.
Qed.

Lemma index_by_last_wins_witness :
  exists m,
    index_by "id" [hall_label; attic_label; hall_label; kitchen_on] ∅ = Ok m
    /\ m !! KStr "attic" = Some attic_label.
Proof.
  eexists. split; [reflexivity |].
  apply (index_by_last_wins "id" [hall_label] [hall_label; kitchen_on]
           attic_label (JStr "attic") (KStr "attic") ∅ _ eq_refl);
    [reflexivity | reflexivity | reflexivity |].
  intros item' rec_id' [<- | [<- | []]] Hg Ht Hk;
    vm_compute in Hg; injection Hg as <-; vm_compute in Ht; try discriminate;
    vm_compute in Hk; discriminate.
Defined.

(** X9: the response to [get_states] replaces the State Cache wholesale,
    also when it lists nothing: a response without a [result], or with an
    empty one, empties the cache (a registry listing with an empty result
    leaves its cache entry alone).  The new cache holds items of the
    response only, each under its truthy [entity_id]; nothing else of the
    client changes.  A [result] that cannot be iterated raises and leaves
    the cache as it was. *)
Theorem get_states_replaces_cache :
  forall msg result (c : client) (h : list event),
    py_get msg "result" (JList []) = Ok result ->
    (forall items new_states,
       py_iter result = Ok items ->
       index_by "entity_id" items ∅ = Ok new_states ->
       _handle_get_states msg c h
       = (Ok tt, set_store (<["states"%string := SDict new_states]> (store c)) c, [])
       /\ (items = [] -> new_states = ∅)
       /\ (forall k item, new_states !! k = Some item ->
             In item items
             /\ exists entity_id,
                  py_get item "entity_id" JNull = Ok entity_id
                  /\ truthy entity_id = true /\ py_key entity_id = Ok k))
    /\ (forall e, py_iter result = Raise e ->
          _handle_get_states msg c h = (Raise e, c, [])).
Proof.
  intros msg result c h Hres. unfold _handle_get_states. rewrite Hres. py_step.
  split.
  - intros items new_states Hiter Hidx. rewrite Hiter. cbn [obind].
    rewrite Hidx. py_step. split; [reflexivity |]. split.
    + intros ->. cbn in Hidx. by injection Hidx as <-.
    + intros k item Hk.
      destruct (index_by_from items ∅ new_states Hidx) as (Hfrom & _ & _).
      destruct (Hfrom k item Hk) as [Hempty | ?]; [| done].
      by rewrite lookup_empty in Hempty.
  - intros e Hiter. rewrite Hiter. cbn [obind]. py_step. reflexivity.
Qed.

Lemma get_states_replaces_cache_witness :
  _handle_get_states (JObj [("id", JInt 5); ("type", JStr "result")]%string)
    client_with_state []
  = (Ok tt,
     set_store (<["states"%string := SDict ∅]> (store client_with_state))
       client_with_state, []).
Proof.
  destruct (get_states_replaces_cache
              (JObj [("id", JInt 5); ("type", JStr "result")]%string) (JList [])
              client_with_state [] eq_refl) as [Hok _].
  apply (Hok [] ∅); reflexivity.
Defined.

(* ===================================================================== *)
(** * Further properties of the registry update                            *)
(* ===================================================================== *)

(** X10: what happens when the response to [update_registry] arrives on a
    Ready session whose write succeeds: first one listing request for the
    registry that was updated goes out, under the next id and with the
    callback that will rebuild the cache entry registered under that id;
    only then the caller's own callback is called, with the response. *)
Theorem update_result_refreshes_then_calls_back :
  forall ws_send table registry tag msg (c : client) (h : list event) w,
    _ws c = Some w ->
    _authenticated c = true ->
    let id := _current_id c in
    let frame := JObj [("type", JStr (list_request registry)); ("id", JInt id)]%string in
    ws_send (h ++ send_log c frame) w frame = true ->
    exists c',
      invoke ws_send table (Cb_on_update_result registry (Some (Cb_external tag))) msg c h
      = (Ok tt, c', send_log c frame ++ [EvSend w frame; EvCallback tag msg])
      /\ _callbacks c' !! id = Some (Cb_on_list_result registry)
      /\ (forall n, n <> id -> _callbacks c' !! n = _callbacks c !! n)
      /\ _current_id c' = id + 1
      /\ store c' = store c.
Proof.
  intros ws_send table registry tag msg c h w Hw Hauth id frame Hsend.
  exists (after_send (Some (Cb_on_list_result registry)) c).
  cbn [invoke]. unfold refresh_registry. py_step.
  assert (Hrun : send_message ws_send
                   (JObj [("type"%string, JStr ("config/" +:+ registry +:+ "/list"))])
                   (Some (Cb_on_list_result registry)) c h
                 = (Ok id, after_send (Some (Cb_on_list_result registry)) c,
                    send_log c frame ++ [EvSend w frame])).
  { rewrite (send_message_run ws_send
               (JObj [("type"%string, JStr ("config/" +:+ registry +:+ "/list"))])
               frame (Some (Cb_on_list_result registry)) c h w Hw Hauth eq_refl).
    by rewrite Hsend. }
  rewrite (bind_run _ _ _ _ _ _ _ Hrun). py_step.
  unfold emit. cbn [result_of client_of events_of].
  rewrite <- app_assoc. split; [reflexivity |].
  destruct c as [u t v ws se cid cbs lp pi lpt rt pt au ms st]. cbn. subst id. cbn.
  repeat split.
  - by rewrite lookup_insert_eq.
  - intros n Hn. by rewrite lookup_insert_ne.
Qed.

Lemma update_result_refreshes_then_calls_back_witness :
  exists c',
    invoke write_always REGISTRIES
      (Cb_on_update_result "label_registry" (Some (Cb_external 2)))
      labels_listing client_ready []
    = (Ok tt, c',
       [EvSend 0%nat
          (JObj [("type", JStr "config/label_registry/list"); ("id", JInt 1)]%string);
        EvCallback 2 labels_listing])
    /\ _callbacks c' !! 1 = Some (Cb_on_list_result "label_registry")
    /\ _current_id c' = 2.
Proof.
  destruct (update_result_refreshes_then_calls_back write_always REGISTRIES
              "label_registry" 2 labels_listing client_ready [] 0%nat
              eq_refl eq_refl eq_refl)
    as (c' & Hrun & Hcb & _ & Hid & _).
  exists c'. split; [exact Hrun |]. split; [exact Hcb | exact Hid].
Defined.

(** X11: when that response arrives while the session is not Ready, the
    refresh raises before anything is written and the caller's callback is
    never called: the client is as before and no effect happened. *)
Theorem update_result_when_not_ready :
  forall ws_send table registry user msg (c : client) (h : list event),
    _ws c = None \/ _authenticated c = false ->
    exists text,
      invoke ws_send table (Cb_on_update_result registry user) msg c h
      = (Raise (RuntimeError text), c, []).
Proof.
  intros ws_send table registry user msg c h Hnot.
  destruct c as [u t v ws se cid cbs lp pi lpt rt pt au ms st]. cbn in Hnot.
  cbn [invoke]. unfold refresh_registry, send_message.
  destruct ws as [w|].
  - destruct Hnot as [? | ->]; [discriminate |].
    eexists. py_run. reflexivity.
  - eexists. py_run. reflexivity.
Qed.

Lemma update_result_when_not_ready_witness :
  exists text,
    invoke write_always REGISTRIES
      (Cb_on_update_result "label_registry" (Some (Cb_external 2)))
      labels_listing client0 []
    = (Raise (RuntimeError text), client0, []).
Proof.
  apply (update_result_when_not_ready write_always REGISTRIES "label_registry"
           (Some (Cb_external 2)) labels_listing client0 []).
  left. reflexivity.
Defined.

(* ===================================================================== *)
(** * Further properties of the event router                               *)
(* ===================================================================== *)

(** X12: events the router has no handler for change nothing and write
    nothing.  An event that is neither [state_changed] nor the update of a
    registry of the table leaves the client as it was; it is dropped
    silently when it is a registry update or one of the two recorder
    statistics events, and reported by one printed line otherwise. *)
Theorem unrouted_event_changes_nothing :
  forall ws_send table data event_obj event_type upd (c : client) (h : list event),
    py_get data "event" (JObj []) = Ok event_obj ->
    py_get event_obj "event_type" JNull = Ok event_type ->
    is_registry_update event_type = Ok upd ->
    (upd = true -> in_table table (registry_of event_type) = false) ->
    str_eq event_type "state_changed" = false ->
    _handle_event ws_send table data c h
    = (Ok tt, c,
       if upd
          || str_eq event_type "recorder_5min_statistics_generated"
          || str_eq event_type "recorder_hourly_statistics_generated"
       then [] else [EvPrint (LogUnhandledEvent data)]).
Proof.
  intros ws_send table data event_obj event_type upd c h Hev Hty Hupd Htab Hsc.
  unfold _handle_event. rewrite Hev. py_step. rewrite Hty. py_step.
  rewrite Hupd. py_step. destruct upd.
  - rewrite (Htab eq_refl). reflexivity.
  - rewrite Hsc. cbn [orb].
    destruct (str_eq event_type "recorder_5min_statistics_generated"
              || str_eq event_type "recorder_hourly_statistics_generated");
      reflexivity.
Qed.

Lemma unrouted_event_changes_nothing_witness :
  let data :=
    JObj [("type", JStr "event");
          ("event", JObj [("event_type", JStr "category_registry_updated")])]%string in
  _handle_event write_always REGISTRIES data client_ready [] = (Ok tt, client_ready, []).
Proof.
  intros data.
  apply (unrouted_event_changes_nothing write_always REGISTRIES data
           (JObj [("event_type", JStr "category_registry_updated")]%string)
           (JStr "category_registry_updated") true client_ready []);
    reflexivity.
Defined.

(** X13: the update of a registry of the table other than the entity
    registry, on a Ready session whose writes succeed, issues exactly one
    request, the listing of that registry -- and no [get_states]. *)
Theorem registry_update_requests_one_listing :
  forall ws_send table data event_obj event_type name (c : client) (h : list event),
    (forall h' w payload, ws_send h' w payload = true) ->
    py_get data "event" (JObj []) = Ok event_obj ->
    py_get event_obj "event_type" JNull = Ok event_type ->
    is_registry_update event_type = Ok true ->
    registry_of event_type = name ->
    in_table table name = true ->
    name <> "entity_registry"%string ->
    ready c ->
    let r := _handle_event ws_send table data c h in
    let types := sent_types (events_of r) in
    result_of r = Ok tt
    /\ types = [list_request name]
    /\ count_type "get_states" types = 0%nat
    /\ store (client_of r) = store c.
Proof.
  intros ws_send table data event_obj event_type name c h Hsend Hev Hty Hupd Hname
    Hin Hne [[w Hw] Hauth] r types.
  set (frame := JObj [("type", JStr (list_request name));
                      ("id", JInt (_current_id c))]%string).
  set (h1 := h ++ [EvPrint (LogRegistryChanged name)]).
  assert (Hrun : send_message ws_send
                   (JObj [("type"%string, JStr ("config/" +:+ name +:+ "/list"))])
                   (Some (Cb_on_list_result name)) c h1
                 = (Ok (_current_id c), after_send (Some (Cb_on_list_result name)) c,
                    send_log c frame ++ [EvSend w frame])).
  { rewrite (send_message_run ws_send
               (JObj [("type"%string, JStr ("config/" +:+ name +:+ "/list"))])
               frame (Some (Cb_on_list_result name)) c h1 w Hw Hauth eq_refl).
    by rewrite Hsend. }
  assert (Hr : r = (Ok tt, after_send (Some (Cb_on_list_result name)) c,
                    EvPrint (LogRegistryChanged name)
                      :: send_log c frame ++ [EvSend w frame])).
  { subst r. unfold _handle_event. rewrite Hev. py_step. rewrite Hty. py_step.
    rewrite Hupd. py_step. rewrite Hname, Hin.
    apply String.eqb_neq in Hne. rewrite Hne.
    unfold print. rewrite bind_emit. fold h1.
    unfold refresh_registry. py_step.
    rewrite (bind_run _ _ _ _ _ _ _ Hrun). py_step.
    unfold ret. cbn [result_of client_of events_of]. by rewrite app_nil_r. }
  subst types. rewrite Hr. py_step.
  change (sent_types (EvPrint (LogRegistryChanged name)
                        :: send_log c frame ++ [EvSend w frame]))
    with (sent_types (send_log c frame ++ [EvSend w frame])).
  rewrite sent_types_app.
  assert (Hlog : sent_types (send_log c frame) = []).
  { unfold send_log. by destruct (verbose c). }
  rewrite Hlog. cbn [app sent_types].
  change (frame_type frame) with (list_request name).
  repeat split.
Qed.

Lemma registry_update_requests_one_listing_witness :
  let data :=
    JObj [("type", JStr "event");
          ("event", JObj [("event_type", JStr "label_registry_updated")])]%string in
  let r := _handle_event write_always REGISTRIES data client_ready [] in
  result_of r = Ok tt
  /\ sent_types (events_of r) = ["config/label_registry/list"%string]
  /\ count_type "get_states" (sent_types (events_of r)) = 0%nat
  /\ store (client_of r) = store client_ready.
Proof.
  intros data.
  apply (registry_update_requests_one_listing write_always REGISTRIES data
           (JObj [("event_type", JStr "label_registry_updated")]%string)
           (JStr "label_registry_updated") "label_registry" client_ready []);
    try reflexivity.
  - discriminate.
  - split; [by exists 0%nat | reflexivity].
Defined.

(* ===================================================================== *)
(** * Further properties of the authentication handshake                   *)
(* ===================================================================== *)

(** X14: an [auth_required] frame on an open connection makes the client
    write exactly one frame, the [auth] frame with its token and without
    an id, whether or not the session was Ready; the session is not
    authenticated afterwards, and the id counter, the pending callbacks
    and the cache are not touched.  If the write raises, the handler
    raises. *)
Theorem auth_required_sends_token :
  forall json_loads ws_send table thr raw data (c : client) (h : list event) w,
    json_loads raw = Ok data ->
    py_get data "type" JNull = Ok (JStr "auth_required") ->
    _ws c = Some w ->
    let frame := JObj [("type", JStr "auth"); ("access_token", JStr (token c))]%string in
    let log := EvPrint LogAuthRequested
               :: (if verbose c then [EvPrint LogSendingAuth] else []) in
    _handle_message json_loads ws_send table thr raw c h
    = (if ws_send (h ++ log) w frame
       then (Ok tt, set_authenticated false c, log ++ [EvSend w frame])
       else (Raise SocketError, set_authenticated false c, log ++ [EvSendFailed w frame]))
    /\ py_get frame "id" JNull = Ok JNull
    /\ _current_id (set_authenticated false c) = _current_id c
    /\ _callbacks (set_authenticated false c) = _callbacks c
    /\ store (set_authenticated false c) = store c.
Proof.
  intros json_loads ws_send table thr raw data c h w Hload Htype Hw frame log.
  split; [| by destruct c].
  unfold _handle_message. rewrite Hload.
  destruct data as [| | | | | |fields]; try discriminate.
  rewrite Htype. py_step. cbn [py_get]. py_step.
  cbn [str_eq String.eqb Ascii.eqb Bool.eqb].
  destruct c as [u t v ws se cid cbs lp pi lpt rt pt au ms st]. cbn in Hw. subst ws.
  subst frame log. cbn [verbose token].
  unfold print. rewrite bind_emit. unfold _send_auth. py_run.
  unfold sock_send, print, emit, bind, ret. cbn.
  destruct v; cbn; rewrite <- ?app_assoc; cbn;
    match goal with |- context [ws_send ?x w ?p] => destruct (ws_send x w p) end;
    reflexivity.
Qed.

Lemma auth_required_sends_token_witness :
  _handle_message
    (loads_table [("auth?"%string, JObj [("type", JStr "auth_required")]%string)])
    write_always REGISTRIES ReceiverThread "auth?" client_ready []
  = (Ok tt, set_authenticated false client_ready,
     [EvPrint LogAuthRequested;
      EvSend 0%nat
        (JObj [("type", JStr "auth"); ("access_token", JStr "secret")]%string)]).
Proof.
  apply (auth_required_sends_token
           (loads_table [("auth?"%string, JObj [("type", JStr "auth_required")]%string)])
           write_always REGISTRIES ReceiverThread "auth?"
           (JObj [("type", JStr "auth_required")]%string) client_ready [] 0%nat);
    reflexivity.
Defined.

(* ===================================================================== *)
(** * Further properties of the two loops                                  *)
(* ===================================================================== *)

(** X15: a read that fails (the peer closed, or any other error) makes
    the receiver drop the handle without closing it and without writing
    anything; the authenticated flag, the probe tracker and the pending
    callbacks stay as they are.  The receiver does not reconnect: the next
    iteration of the ping loop does, at once, whatever the time and the
    ping interval -- one call of [create_connection]. *)
Theorem read_failure_leaves_reconnect_to_monitor :
  forall json_loads create_connection ws_send table r now
         (c : client) (h : list event) w,
    r = RecvClosed \/ r = RecvError ->
    _ws c = Some w ->
    _receiver_thread c = Some Running ->
    _ping_thread c = Some Running ->
    _stop_event c = false ->
    _manual_stop c = false ->
    exists line c2 es,
      receiver_thread_step json_loads ws_send table r c h
      = (Ok tt, set_ws None c, [EvPrint line])
      /\ ping_thread_step create_connection ws_send now (set_ws None c)
           (h ++ [EvPrint line])
         = (Ok tt, c2, es)
      /\ open_attempts es = 1%nat
      /\ Forall no_write es
      /\ _authenticated c2 = false
      /\ _callbacks c2 = _callbacks c.
Proof.
  intros json_loads create_connection ws_send table r now c h w Hr Hw Hrt Hpt Hse Hms.
  destruct c as [u t v ws se cid cbs lp pi lpt rt pt au ms st].
  cbn in Hw, Hrt, Hpt, Hse, Hms. subst ws rt pt se ms.
  destruct Hr as [-> | ->];
    [exists LogReceiverClosed | exists LogReceiverError];
    match goal with
    | |- context [ping_thread_step ?cc ?ww ?n ?c0 ?h0] =>
        remember (ping_thread_step cc ww n c0 h0) as r2 eqn:E
    end;
    vm_compute in E;
    match type of E with
    | context [create_connection ?x] => destruct (create_connection x) as [w'|]
    end;
    subst r2; eexists _, _; (split; [vm_compute; reflexivity |]);
    (split; [reflexivity |]); (split; [reflexivity |]);
    (split; [repeat constructor |]); split; reflexivity.
Qed.

Lemma read_failure_leaves_reconnect_to_monitor_witness :
  exists line c2 es,
    receiver_thread_step frames_loads write_always REGISTRIES RecvClosed
      client_running []
    = (Ok tt, set_ws None client_running, [EvPrint line])
    /\ ping_thread_step open_always write_always 3 (set_ws None client_running)
         [EvPrint line]
       = (Ok tt, c2, es)
    /\ open_attempts es = 1%nat
    /\ Forall no_write es
    /\ _authenticated c2 = false
    /\ _callbacks c2 = _callbacks client_running.
Proof.
  apply (read_failure_leaves_reconnect_to_monitor frames_loads open_always
           write_always REGISTRIES RecvClosed 3 client_running [] 0%nat);
    first [reflexivity | by left].
Defined.

(** X16: a frame that decodes to something other than an object (a JSON
    array, string, number, ...) is not discarded like undecodable text:
    reading its [type] raises, nothing catches it in the loop, and the
    receiver thread ends.  The client is otherwise as before, and from
    then on no frame is read. *)
Theorem non_object_frame_ends_receiver :
  forall json_loads ws_send table raw data (c : client) (h : list event),
    json_loads raw = Ok data ->
    (forall fields, data <> JObj fields) ->
    raw <> EmptyString ->
    is_Some (_ws c) ->
    _receiver_thread c = Some Running ->
    _stop_event c = false ->
    let c' := set_receiver_thread (Some Finished) c in
    receiver_thread_step json_loads ws_send table (RecvData raw) c h = (Ok tt, c', [])
    /\ (forall r h',
          receiver_thread_step json_loads ws_send table r c' h' = (Ok tt, c', [])).
Proof.
  intros json_loads ws_send table raw data c h Hload Hnot Hraw [w Hw] Hrt Hse c'.
  subst c'. destruct c as [u t v ws se cid cbs lp pi lpt rt pt au ms st].
  cbn in Hw, Hrt, Hse. subst ws rt se. split; [| intros r h'; reflexivity].
  unfold receiver_thread_step. py_run.
  assert (Hbody : _receiver_loop_body json_loads ws_send table (RecvData raw)
                    (Client u t v (Some w) false cid cbs lp pi lpt (Some Running)
                       pt au ms st) h
                  = (Raise AttributeError,
                     Client u t v (Some w) false cid cbs lp pi lpt (Some Running)
                       pt au ms st, [])).
  { unfold _receiver_loop_body. py_run.
    apply String.eqb_neq in Hraw. rewrite Hraw.
    unfold _handle_message. rewrite Hload.
    destruct data as [| | | | | |fields]; try (py_step; reflexivity).
    by destruct (Hnot fields). }
  rewrite (try_except_raise _ _ _ _ _ _ _ Hbody). reflexivity.
Qed.

Lemma non_object_frame_ends_receiver_witness :
  receiver_thread_step (loads_table [("[1, 2]"%string, JList [JInt 1; JInt 2])])
    write_always REGISTRIES (RecvData "[1, 2]") client_running []
  = (Ok tt, set_receiver_thread (Some Finished) client_running, []).
Proof.
  apply (non_object_frame_ends_receiver
           (loads_table [("[1, 2]"%string, JList [JInt 1; JInt 2])])
           write_always REGISTRIES "[1, 2]" (JList [JInt 1; JInt 2])
           client_running []);
    first [reflexivity | discriminate | by exists 0%nat].
Defined.

(** X17: with a handle present, an iteration of the ping loop does
    nothing but sleep one second as long as the ping interval has not
    elapsed or the session is not authenticated: no probe, no reconnection,
    no change of the client.  In particular an outstanding probe is left
    alone, and nothing is checked on a connection that never gets its
    [auth_ok]. *)
Theorem ping_waits_for_interval_and_auth :
  forall create_connection ws_send now (c : client) (h : list event),
    is_Some (_ws c) ->
    now - _last_ping_time c < _ping_interval c \/ _authenticated c = false ->
    _ping_loop_body create_connection ws_send now c h = (Ok tt, c, [EvSleep 1]).
Proof.
  intros create_connection ws_send now c h [w Hw] Hidle.
  destruct c as [u t v ws se cid cbs lp pi lpt rt pt au ms st].
  cbn in Hw, Hidle. subst ws. unfold _ping_loop_body. py_run.
  assert (Hcond : (pi <=? now - lpt) && au = false).
  { destruct Hidle as [Hlt | ->]; [| apply andb_false_r].
    apply andb_false_intro1. apply Z.leb_gt. exact Hlt. }
  rewrite Hcond. py_run. reflexivity.
Qed.

Lemma ping_waits_for_interval_and_auth_witness :
  _ping_loop_body open_always write_always 12 client_probing []
  = (Ok tt, client_probing, [EvSleep 1]).
Proof.
  apply (ping_waits_for_interval_and_auth open_always write_always 12
           client_probing []); [by exists 0%nat | left; vm_compute; reflexivity].
Defined.

(** X18: when the write of a probe raises, nothing in the ping loop
    catches it and the ping thread ends: the handle is still there, the
    tracker is still empty, the id of the lost probe is used up, and no
    later iteration probes or reconnects. *)
Theorem failed_probe_ends_monitor :
  forall create_connection ws_send now (c : client) (h : list event) w,
    _ws c = Some w ->
    _authenticated c = true ->
    _ping_interval c <= now - _last_ping_time c ->
    _last_ping_id c = None ->
    _ping_thread c = Some Running ->
    _stop_event c = false ->
    let frame := ping_frame (_current_id c) in
    ws_send (h ++ send_log c frame) w frame = false ->
    exists c',
      ping_thread_step create_connection ws_send now c h
      = (Ok tt, c', send_log c frame ++ [EvSendFailed w frame])
      /\ _ping_thread c' = Some Finished
      /\ _ws c' = Some w
      /\ _last_ping_id c' = None
      /\ _current_id c' = _current_id c + 1
      /\ (forall now' h',
            ping_thread_step create_connection ws_send now' c' h' = (Ok tt, c', [])).
Proof.
  intros create_connection ws_send now c h w Hw Hauth Hdue Hlp Hpt Hse frame Hsend.
  destruct c as [u t v ws se cid cbs lp pi lpt rt pt au ms st].
  cbn in Hw, Hauth, Hdue, Hlp, Hpt, Hse. subst ws au lp pt se.
  set (c1 := Client u t v (Some w) false cid cbs None pi now rt (Some Running)
               true ms st).
  exists (set_ping_thread (Some Finished) (after_send None c1)).
  split; [| repeat split].
  unfold ping_thread_step. py_run.
  assert (Hbody : _ping_loop_body create_connection ws_send now
                    (Client u t v (Some w) false cid cbs None pi lpt rt
                       (Some Running) true ms st) h
                  = (Raise SocketError, after_send None c1,
                     send_log c1 frame ++ [EvSendFailed w frame])).
  { unfold _ping_loop_body. py_run.
    apply Z.leb_le in Hdue. rewrite Hdue. cbn [andb]. py_run.
    assert (Hrun : send_message ws_send (JObj [("type"%string, JStr "ping")]) None c1 h
                   = (Raise SocketError, after_send None c1,
                      send_log c1 frame ++ [EvSendFailed w frame])).
    { rewrite (send_message_run ws_send (JObj [("type"%string, JStr "ping")])
                 frame None c1 h w eq_refl eq_refl eq_refl).
      change (send_log c1 frame) with
        (send_log (Client u t v (Some w) false cid cbs None pi lpt rt
                     (Some Running) true ms st) frame).
      by rewrite Hsend. }
    fold c1. rewrite (bind_raise _ _ _ _ _ _ _ Hrun).
    reflexivity. }
  rewrite (try_except_raise _ _ _ _ _ _ _ Hbody). py_step.
  unfold modify. cbn [result_of client_of events_of]. by rewrite app_nil_r.
Qed.

Lemma failed_probe_ends_monitor_witness :
  exists c',
    ping_thread_step open_always (fun _ _ _ => false) 10 client_running []
    = (Ok tt, c', [EvSendFailed 0%nat (ping_frame 1)])
    /\ _ping_thread c' = Some Finished
    /\ _ws c' = Some 0%nat
    /\ _last_ping_id c' = None
    /\ _current_id c' = 2
    /\ (forall now' h',
          ping_thread_step open_always (fun _ _ _ => false) now' c' h'
          = (Ok tt, c', [])).
Proof.
  apply (failed_probe_ends_monitor open_always (fun _ _ _ => false) 10
           client_running [] 0%nat); first [reflexivity | vm_compute; discriminate].
Defined.

(* ===================================================================== *)
(** * The State Cache is always a mapping                                  *)
(* ===================================================================== *)

Lemma cache_kept_same c es c' : store c' = store c -> cache_kept c es c'.
Proof. intros Hst [d Hd]. exists d. by rewrite Hst. Qed.

Lemma cache_kept_steps ws_send : session_steps ws_send cache_kept.
Proof.
  split.
  - split; [by intros c Hc | intros c c1 c2 es1 es2 H1 H2 Hc; auto].
  - intros e c _. by apply cache_kept_same.
  - intros c c' Hst _ _. by apply cache_kept_same.
  - intros name d [] [d0 Hd0]. unfold has_state_cache. cbn in *.
    destruct (decide (name = "states"%string)) as [-> | Hne].
    + exists d. by rewrite lookup_insert_eq.
    + exists d0. by rewrite lookup_insert_ne.
  - intros v [] [d0 Hd0]. unfold has_state_cache. cbn in *.
    exists d0. by rewrite lookup_insert_ne.
  - intros n []. by apply cache_kept_same.
  - intros payload callback c h.
    destruct (_ws c) as [w|] eqn:Hw.
    2:{ unfold send_message. py_run. rewrite Hw. by apply cache_kept_same. }
    destruct (_authenticated c) eqn:Hauth.
    2:{ unfold send_message. py_run. rewrite Hw. py_run. rewrite Hauth. py_run.
        by apply cache_kept_same. }
    destruct (py_setitem payload "id" (JInt (_current_id c))) as [payload'|e] eqn:Hset.
    + rewrite (send_message_run ws_send payload payload' callback c h w Hw Hauth Hset).
      destruct (ws_send _ w payload'); apply cache_kept_same;
        destruct c, callback; reflexivity.
    + unfold send_message. py_run. rewrite Hw. py_run. rewrite Hauth. py_run.
      rewrite Hset. py_run. apply cache_kept_same. by destruct c.
  - intros tok c h. unfold sock_send. destruct (_ws c) as [w|]; [| by apply cache_kept_same].
    destruct (ws_send h w _); by apply cache_kept_same.
Qed.

Lemma initial_store_states table :
  initial_store table !! "states"%string = Some (SDict ∅).
Proof. unfold initial_store. apply lookup_insert_eq. Qed.

(** X19: the State Cache is a mapping from [__init__] on.  Whatever the
    two threads and the callers do, one call or loop iteration after
    another, the entry ["states"] of the store is there and is a mapping;
    so the write of a [state_changed] event for an entity named by a
    string always goes through. *)
Theorem states_is_mapping :
  forall json_loads create_connection ws_send table url token verbose schedule
         (h : list event),
    let c := client_of (run json_loads create_connection ws_send table schedule
                          (__init__ table url token verbose) h) in
    has_state_cache c
    /\ (forall entity_id new_state h',
          exists d,
            store c !! "states"%string = Some (SDict d)
            /\ states_setitem (JStr entity_id) new_state c h'
               = (Ok tt,
                  set_store (<["states"%string
                               := SDict (<[KStr entity_id := new_state]> d)]>
                               (store c)) c, [])).
Proof.
  intros json_loads create_connection ws_send table url token verbose schedule h c.
  assert (Hc : has_state_cache c).
  { apply (steps_run json_loads create_connection ws_send table cache_kept
             (cache_kept_steps ws_send) schedule).
    exists ∅. apply initial_store_states. }
  split; [exact Hc |].
  intros entity_id new_state h'. destruct Hc as [d Hd]. exists d.
  split; [exact Hd |].
  unfold states_setitem. py_step. rewrite Hd. cbn [py_key]. py_step. reflexivity.
Qed.

(* ===================================================================== *)
(** * The ids of the frames written                                        *)
(* ===================================================================== *)

Lemma request_ids_app es1 es2 :
  request_ids (es1 ++ es2) = request_ids es1 ++ request_ids es2.
Proof.
  induction es1 as [|e rest IH]; [done |].
  destruct e; cbn; rewrite ?IH; try done;
    by destruct (frame_id payload).
Qed.

Lemma request_ids_silent es :
  Forall (fun e => is_write e = false) es -> request_ids es = [].
Proof.
  induction 1 as [|e rest He _ IH]; [done |].
  destruct e; try discriminate; exact IH.
Qed.

Lemma ids_between_weaken lo lo' ids hi :
  lo' <= lo -> ids_between lo ids hi -> ids_between lo' ids hi.
Proof. destruct ids as [|i rest]; cbn; [lia |]. intros ? [? ?]. split; [lia | done]. Qed.

Lemma ids_between_app lo mid hi l1 l2 :
  ids_between lo l1 mid -> ids_between mid l2 hi -> ids_between lo (l1 ++ l2) hi.
Proof.
  revert lo. induction l1 as [|i rest IH]; intros lo H1 H2; cbn in *.
  - by apply (ids_between_weaken mid).
  - destruct H1 as [? H1]. split; [done |]. by apply IH.
Qed.

Lemma ids_between_sorted lo ids hi :
  ids_between lo ids hi ->
  StronglySorted Z.lt ids /\ Forall (fun i => lo <= i < hi) ids /\ lo <= hi.
Proof.
  revert lo. induction ids as [|i rest IH]; intros lo Hb; cbn in Hb.
  - repeat split; [constructor | constructor | done].
  - destruct Hb as [Hlo Hb]. destruct (IH _ Hb) as (Hs & Hall & Hle).
    repeat split; [| | lia].
    + constructor; [done |].
      eapply Forall_impl; [exact Hall |]. cbn. intros j Hj. lia.
    + constructor; [lia |].
      eapply Forall_impl; [exact Hall |]. cbn. intros j Hj. lia.
Qed.

Lemma numbered_same c es c' :
  request_ids es = [] -> _current_id c' = _current_id c -> numbered c es c'.
Proof. intros Hes Hid. unfold numbered. rewrite Hes, Hid. cbn. lia. Qed.

Lemma frame_id_setitem payload n payload' :
  py_setitem payload "id" (JInt n) = Ok payload' -> frame_id payload' = Some n.
Proof.
  destruct payload as [| | | | | |fields]; try discriminate.
  intros [= <-]. unfold frame_id. cbn. by rewrite assoc_get_set_eq.
Qed.

Lemma numbered_steps ws_send : session_steps ws_send numbered.
Proof.
  split.
  - split.
    + intros c. by apply numbered_same.
    + intros c c1 c2 es1 es2 H1 H2. unfold numbered in *.
      rewrite request_ids_app. by apply (ids_between_app _ (_current_id c1)).
  - intros e c He. apply numbered_same; [| done].
    apply request_ids_silent. by constructor.
  - intros c c' _ _ Hid. by apply numbered_same.
  - intros name d []. by apply numbered_same.
  - intros v []. by apply numbered_same.
  - intros n []. by apply numbered_same.
  - intros payload callback c h.
    destruct (_ws c) as [w|] eqn:Hw.
    2:{ unfold send_message. py_run. rewrite Hw. by apply numbered_same. }
    destruct (_authenticated c) eqn:Hauth.
    2:{ unfold send_message. py_run. rewrite Hw. py_run. rewrite Hauth. py_run.
        by apply numbered_same. }
    destruct (py_setitem payload "id" (JInt (_current_id c))) as [payload'|e] eqn:Hset.
    + rewrite (send_message_run ws_send payload payload' callback c h w Hw Hauth Hset).
      assert (Hlog : request_ids (send_log c payload') = []).
      { unfold send_log. by destruct (verbose c). }
      assert (Hid : _current_id (after_send callback c) = _current_id c + 1).
      { by destruct c, callback. }
      destruct (ws_send _ w payload'); unfold numbered; py_step;
        rewrite request_ids_app, Hlog, Hid; cbn;
        rewrite (frame_id_setitem _ _ _ Hset); cbn; lia.
    + unfold send_message. py_run. rewrite Hw. py_run. rewrite Hauth. py_run.
      rewrite Hset. py_run. unfold numbered. py_step. destruct c; cbn. lia.
  - intros tok c h. unfold sock_send. destruct (_ws c) as [w|]; [| by apply numbered_same].
    destruct (ws_send h w _); by apply numbered_same.
Qed.

(** X20: the frames handed to the socket carry strictly increasing ids.
    Over any run in which one call or loop iteration follows another, the
    ids of the frames written from either thread or by a caller, in the
    order they were written and counting the writes that failed, go up
    strictly; each lies between the counter before the run and the counter
    after it.  No two requests of a session carry the same id, across
    reconnections too. *)
Theorem request_ids_increase :
  forall json_loads create_connection ws_send table schedule
         (c : client) (h : list event),
    let r := run json_loads create_connection ws_send table schedule c h in
    StronglySorted Z.lt (request_ids (events_of r))
    /\ Forall (fun i => _current_id c <= i < _current_id (client_of r))
         (request_ids (events_of r))
    /\ _current_id c <= _current_id (client_of r).
Proof.
  intros json_loads create_connection ws_send table schedule c h r.
  apply ids_between_sorted.
  apply (steps_run json_loads create_connection ws_send table numbered
           (numbered_steps ws_send) schedule).
Qed.

(* ===================================================================== *)
(** * An id that was used is never registered again                        *)
(* ===================================================================== *)

Lemma retired_same n c es c' :
  _callbacks c' = _callbacks c -> _current_id c' = _current_id c ->
  stays_retired n c es c'.
Proof.
  intros Hcb Hid (Hf & Hlt & Hn). unfold retired, ids_fresh. by rewrite Hcb, Hid.
Qed.

Lemma retired_after_send n callback c es :
  stays_retired n c es (after_send callback c).
Proof.
  intros (Hf & Hlt & Hn).
  destruct (keeps_after_send n callback c [] Hf) as (Hf' & Hle & _).
  split; [exact Hf' |]. split; [lia |].
  destruct c as [u t v ws se cid cbs lp pi lpt rt pt au ms st].
  destruct callback as [cb|]; cbn in *; [| done].
  rewrite lookup_insert_ne by lia. done.
Qed.

Lemma stays_retired_steps ws_send n : session_steps ws_send (stays_retired n).
Proof.
  split.
  - split; [by intros c Hc | intros c c1 c2 es1 es2 H1 H2 Hc; auto].
  - intros e c _. by apply retired_same.
  - intros c c' _ Hcb Hid. by apply retired_same.
  - intros name d []. by apply retired_same.
  - intros v []. by apply retired_same.
  - intros m [] (Hf & Hlt & Hn). unfold retired, ids_fresh in *. cbn in *.
    split; [| split; [done |]].
    + intros k [cb Hk]. apply Hf. apply lookup_delete_Some in Hk as [_ Hk].
      by eexists.
    + apply lookup_delete_None. by right.
  - intros payload callback c h.
    destruct (_ws c) as [w|] eqn:Hw.
    2:{ unfold send_message. py_run. rewrite Hw. by apply retired_same. }
    destruct (_authenticated c) eqn:Hauth.
    2:{ unfold send_message. py_run. rewrite Hw. py_run. rewrite Hauth. py_run.
        by apply retired_same. }
    destruct (py_setitem payload "id" (JInt (_current_id c))) as [payload'|e] eqn:Hset.
    + rewrite (send_message_run ws_send payload payload' callback c h w Hw Hauth Hset).
      destruct (ws_send _ w payload'); apply retired_after_send.
    + unfold send_message. py_run. rewrite Hw. py_run. rewrite Hauth. py_run.
      rewrite Hset. py_run. apply (retired_after_send n None).
  - intros tok c h. unfold sock_send. destruct (_ws c) as [w|]; [| by apply retired_same].
    destruct (ws_send h w _); by apply retired_same.
Qed.

(** X21: an id that was handed out and has no callback waiting is never
    registered again.  Once the callback of a request was popped -- its
    response arrived -- no run, one call or loop iteration after another,
    puts a callback under that id again: a response that arrives twice
    finds nothing to call. *)
Theorem retired_id_stays_retired :
  forall json_loads create_connection ws_send table schedule n
         (c : client) (h : list event),
    ids_fresh c ->
    n < _current_id c ->
    _callbacks c !! n = None ->
    _callbacks
      (client_of (run json_loads create_connection ws_send table schedule c h))
      !! n = None.
Proof.
  intros json_loads create_connection ws_send table schedule n c h Hf Hlt Hn.
  apply (steps_run json_loads create_connection ws_send table (stays_retired n)
           (stays_retired_steps ws_send n) schedule c h).
  by repeat split.
Qed.

Lemma retired_id_stays_retired_witness :
  _callbacks
    (client_of
       (run frames_loads open_always write_always REGISTRIES
          [CallRefreshRegistry "label_registry";
           ReceiverIteration (RecvData raw_failed3); PingIteration 30;
           CallSendMessage (JObj [("type", JStr "get_config")]%string)
             (Some (Cb_external 1))]
          client_pending []))
    !! 2 = None.
Proof.
  apply (retired_id_stays_retired frames_loads open_always write_always REGISTRIES).
  - intros n [cb Hn]. unfold client_pending in Hn. cbn in Hn.
    apply lookup_singleton_Some in Hn as [<- _]. reflexivity.
  - reflexivity.
  - reflexivity.
Defined.

(* ===================================================================== *)
(** * A request and its response                                           *)
(* ===================================================================== *)

(** X22: the round trip of a request.  A request sent on a Ready session
    with a callback, followed by a result frame that carries the id the
    request was given and a truthy [success], calls that callback once
    with the frame and leaves the pending callbacks as they were before
    the request; if the same result arrives again, nothing happens. *)
Theorem request_response_round_trip :
  forall json_loads ws_send table thr fields tag raw data success
         (c : client) (h : list event) w,
    _ws c = Some w ->
    _authenticated c = true ->
    ids_fresh c ->
    let id := _current_id c in
    let frame := JObj (assoc_set "id" (JInt id) fields) in
    ws_send (h ++ send_log c frame) w frame = true ->
    json_loads raw = Ok data ->
    py_get data "type" JNull = Ok (JStr "result") ->
    py_get data "success" (JBool false) = Ok success ->
    truthy success = true ->
    py_get data "id" JNull = Ok (JInt id) ->
    exists c1 c2,
      send_message ws_send (JObj fields) (Some (Cb_external tag)) c h
      = (Ok id, c1, send_log c frame ++ [EvSend w frame])
      /\ (forall h1,
            _handle_message json_loads ws_send table thr raw c1 h1
            = (Ok tt, c2, [EvCallback tag data]))
      /\ _callbacks c2 = _callbacks c
      /\ (forall h2,
            _handle_message json_loads ws_send table thr raw c2 h2
            = (Ok tt, c2, [])).
Proof.
  intros json_loads ws_send table thr fields tag raw data success c h w
    Hw Hauth Hfresh id frame Hsend Hload Htype Hsucc Htrue Hid.
  assert (Hfree : _callbacks c !! id = None).
  { destruct (_callbacks c !! id) as [cb|] eqn:Hcb; [| done].
    assert (id < _current_id c) by (apply Hfresh; by eexists). subst id. lia. }
  exists (after_send (Some (Cb_external tag)) c),
         (set_callbacks (_callbacks c) (after_send (Some (Cb_external tag)) c)).
  split.
  { rewrite (send_message_run ws_send (JObj fields) frame _ c h w Hw Hauth eq_refl).
    by rewrite Hsend. }
  assert (Hhead : forall c' h',
            _handle_message json_loads ws_send table thr raw c' h'
            = (found <- lookup_callback (JInt id) ;;
               match found with
               | Some (n, cb) => pop_callback n ;; invoke ws_send table cb data
               | None => ret tt
               end) c' h').
  { intros c' h'. unfold _handle_message. rewrite Hload.
    destruct data as [| | | | | |dfields]; try discriminate.
    rewrite Htype, Hid. py_step.
    cbn [str_eq String.eqb Ascii.eqb Bool.eqb].
    rewrite Hsucc. py_step. by rewrite Htrue. }
  destruct c as [u t v ws se cid cbs lp pi lpt rt pt au ms st].
  cbn in Hw, Hauth, Hfree, id. subst ws au. subst id.
  split; [| split; [reflexivity |]].
  - intros h1. rewrite Hhead. unfold lookup_callback. cbn [py_key]. py_run.
    cbn [int_key after_send _callbacks _current_id set_callbacks set_current_id].
    py_run. rewrite lookup_insert_eq. cbn [fmap option_fmap option_map].
    unfold pop_callback. py_run. cbn [invoke].
    rewrite delete_insert_id by done. reflexivity.
  - intros h2. rewrite Hhead. unfold lookup_callback. cbn [py_key]. py_run.
    cbn [int_key after_send _callbacks _current_id set_callbacks set_current_id].
    py_run. rewrite Hfree. reflexivity.
Qed.

Lemma request_response_round_trip_witness :
  let answer :=
    JObj [("id", JInt 1); ("type", JStr "result"); ("success", JBool true)]%string in
  let loads := loads_table [("answer"%string, answer)] in
  exists c1 c2,
    send_message write_always (JObj [("type", JStr "get_config")]%string)
      (Some (Cb_external 5)) client_ready []
    = (Ok 1, c1,
       [EvSend 0%nat (JObj [("type", JStr "get_config"); ("id", JInt 1)]%string)])
    /\ (forall h1,
          _handle_message loads write_always REGISTRIES ReceiverThread "answer" c1 h1
          = (Ok tt, c2, [EvCallback 5 answer]))
    /\ _callbacks c2 = _callbacks client_ready
    /\ (forall h2,
          _handle_message loads write_always REGISTRIES ReceiverThread "answer" c2 h2
          = (Ok tt, c2, [])).
Proof.
  intros answer loads.
  apply (request_response_round_trip loads write_always REGISTRIES ReceiverThread
           [("type", JStr "get_config")]%string 5 "answer" answer (JBool true)
           client_ready [] 0%nat); try reflexivity.
  intros n [cb Hn]. vm_compute in Hn. discriminate.
Defined.

(* ===================================================================== *)
(** * The store a new client starts with                                   *)
(* ===================================================================== *)

Lemma fold_empty_mappings (names : list string) :
  forall (acc : gmap string store_val) name,
    fold_left (fun st n => <[n := SDict ∅]> st) names acc !! name
    = if existsb (String.eqb name) names then Some (SDict ∅) else acc !! name.
Proof.
  induction names as [|n rest IH]; intros acc name; cbn; [done |].
  rewrite IH. destruct (existsb (String.eqb name) rest).
  - by rewrite orb_true_r.
  - rewrite orb_false_r. destruct (String.eqb_spec name n) as [-> | Hne].
    + by rewrite lookup_insert_eq.
    + by rewrite lookup_insert_ne.
Qed.

Lemma in_table_keys table name :
  in_table table name = existsb (String.eqb name) (map fst table).
Proof.
  unfold in_table. induction table as [|[k v] rest IH]; cbn; [done |].
  destruct (String.eqb name k); [done | exact IH].
Qed.

(** X23: a new client starts with empty caches and nothing else: its
    store has an empty mapping under the name of each registry of the
    table and under ["states"], and no other entry -- none for
    ["services"], which only the response to [get_services] creates. *)
Theorem new_client_has_empty_caches :
  forall table url token verbose name,
    store (__init__ table url token verbose) !! name
    = (if String.eqb name "states" || in_table table name
       then Some (SDict ∅) else None).
Proof.
  intros table url token verbose name.
  cbn [store __init__]. unfold initial_store.
  destruct (String.eqb_spec name "states") as [-> | Hne].
  - by rewrite lookup_insert_eq.
  - rewrite lookup_insert_ne by done. rewrite fold_empty_mappings, in_table_keys.
    cbn [orb]. by destruct (existsb _ _).
Qed.

(* ===================================================================== *)
(** * The frame of a registry update                                       *)
(* ===================================================================== *)

Lemma fold_assoc_set_other (kwargs : list (string * json)) k :
  forall acc,
    ~ In k (map fst kwargs) ->
    assoc_get k (fold_left (fun acc kv => assoc_set (fst kv) (snd kv) acc) kwargs acc)
    = assoc_get k acc.
Proof.
  induction kwargs as [|[k0 v0] rest IH]; intros acc Hnot; cbn; [done |].
  rewrite IH by (intros Hin; apply Hnot; by right).
  apply assoc_get_set_ne. intros ->. apply Hnot. by left.
Qed.

Lemma fold_assoc_set_get (kwargs : list (string * json)) k v :
  forall acc,
    NoDup (map fst kwargs) -> In (k, v) kwargs ->
    assoc_get k (fold_left (fun acc kv => assoc_set (fst kv) (snd kv) acc) kwargs acc)
    = Some v.
Proof.
  induction kwargs as [|[k0 v0] rest IH]; intros acc Hnd Hin; [destruct Hin |].
  cbn in Hnd. apply NoDup_cons in Hnd as [Hk0 Hnd]. cbn [fold_left fst snd].
  destruct Hin as [[= -> ->] | Hin].
  - rewrite fold_assoc_set_other.
    + apply assoc_get_set_eq.
    + intros Hin. apply Hk0. by apply list_elem_of_In.
  - by apply IH.
Qed.

(** X24: the frame of a registry update.  On a Ready session whose write
    succeeds, [update_registry] returns the id it gave the request; the
    frame written carries that id and every keyword argument under its
    name (an argument named ["id"] is overwritten by the id of the
    request); its type is [config/<registry>/update] unless an argument
    named ["type"] replaced it; and the callback that will refresh the
    registry is registered under the id. *)
Theorem update_registry_frame :
  forall ws_send registry callback kwargs (c : client) (h : list event) w,
    (forall h' w' payload, ws_send h' w' payload = true) ->
    _ws c = Some w ->
    _authenticated c = true ->
    NoDup (map fst kwargs) ->
    exists c' frame,
      update_registry ws_send registry callback kwargs c h
      = (Ok (_current_id c), c', send_log c frame ++ [EvSend w frame])
      /\ py_get frame "id" JNull = Ok (JInt (_current_id c))
      /\ (forall k v, In (k, v) kwargs -> k <> "id"%string ->
            py_get frame k JNull = Ok v)
      /\ (~ In "type"%string (map fst kwargs) ->
          frame_type frame = "config/" +:+ registry +:+ "/update")
      /\ _callbacks c' !! _current_id c = Some (Cb_on_update_result registry callback)
      /\ _current_id c' = _current_id c + 1.
Proof.
  intros ws_send registry callback kwargs c h w Hsend Hw Hauth Hnd.
  unfold update_registry, update_payload.
  set (fields := fold_left (fun acc kv => assoc_set (fst kv) (snd kv) acc) kwargs
                   [("type"%string, JStr ("config/" +:+ registry +:+ "/update"))]).
  set (frame := JObj (assoc_set "id" (JInt (_current_id c)) fields)).
  exists (after_send (Some (Cb_on_update_result registry callback)) c), frame.
  split.
  { rewrite (send_message_run ws_send (JObj fields) frame _ c h w Hw Hauth eq_refl).
    by rewrite Hsend. }
  split; [subst frame; cbn; by rewrite assoc_get_set_eq |].
  split; [| split; [| split]].
  - intros k v Hin Hk. subst frame fields. cbn [py_get].
    rewrite assoc_get_set_ne by done.
    by rewrite (fold_assoc_set_get kwargs k v _ Hnd Hin).
  - intros Hno. subst frame fields. unfold frame_type. cbn [py_get].
    rewrite assoc_get_set_ne by discriminate.
    rewrite fold_assoc_set_other by done. reflexivity.
  - destruct c. cbn. by rewrite lookup_insert_eq.
  - by destruct c.
Qed.

Lemma update_registry_frame_witness :
  exists c' frame,
    update_registry write_always "entity_registry" None
      [("entity_id", JStr "light.kitchen"); ("disabled_by", JStr "user")]%string
      client_ready []
    = (Ok 1, c', [EvSend 0%nat frame])
    /\ py_get frame "disabled_by" JNull = Ok (JStr "user")
    /\ frame_type frame = "config/entity_registry/update"%string.
Proof.
  destruct (update_registry_frame write_always "entity_registry" None
              [("entity_id", JStr "light.kitchen"); ("disabled_by", JStr "user")]%string
              client_ready [] 0%nat)
    as (c' & frame & Hrun & _ & Hkw & Hty & _).
  - reflexivity.
  - reflexivity.
  - reflexivity.
  - apply (bool_decide_unpack _). vm_compute. exact I.
  - exists c', frame. split; [exact Hrun |]. split.
    + apply Hkw; [right; by left | discriminate].
    + apply Hty. cbn. intros [? | [? | []]]; discriminate.
Defined.

(* ===================================================================== *)
(** * [flatten_fields]                                                     *)
(* ===================================================================== *)

Lemma assoc_get_absent {A} k (kvs : list (string * A)) :
  ~ In k (map fst kvs) -> assoc_get k kvs = None.
Proof.
  induction kvs as [|[k0 v0] rest IH]; cbn; [done |]. intros Hnot.
  destruct (String.eqb_spec k k0) as [-> | Hne].
  - destruct Hnot. by left.
  - apply IH. intros Hin. apply Hnot. by right.
Qed.

Lemma assoc_set_new {A} k (v : A) kvs :
  ~ In k (map fst kvs) -> assoc_set k v kvs = kvs ++ [(k, v)].
Proof.
  induction kvs as [|[k0 v0] rest IH]; cbn; [done |]. intros Hnot.
  destruct (String.eqb_spec k k0) as [-> | Hne].
  - destruct Hnot. by left.
  - f_equal. apply IH. intros Hin. apply Hnot. by right.
Qed.

Lemma set_all_lookup (items : list (string * json)) k :
  forall result,
    NoDup (map fst items) ->
    assoc_get k (set_all items result)
    = match assoc_get k items with
      | Some v => Some v
      | None => assoc_get k result
      end.
Proof.
  unfold set_all.
  induction items as [|[k0 v0] rest IH]; intros result Hnd; cbn; [done |].
  cbn in Hnd. apply NoDup_cons in Hnd as [Hk0 Hnd]. rewrite (IH _ Hnd).
  destruct (String.eqb_spec k k0) as [-> | Hne].
  - rewrite assoc_get_absent.
    + apply assoc_get_set_eq.
    + intros Hin. apply Hk0. by apply list_elem_of_In.
  - destruct (assoc_get k rest); [done |]. by apply assoc_get_set_ne.
Qed.

Lemma set_all_fresh (items : list (string * json)) :
  forall result,
    NoDup (map fst (result ++ items)) -> set_all items result = result ++ items.
Proof.
  unfold set_all.
  induction items as [|[k0 v0] rest IH]; intros result Hnd; cbn.
  - by rewrite app_nil_r.
  - assert (Hnew : ~ In k0 (map fst result)).
    { rewrite map_app in Hnd. apply NoDup_app in Hnd as (_ & Hdisj & _).
      intros Hin. apply list_elem_of_In in Hin. apply (Hdisj k0 Hin).
      cbn. apply list_elem_of_In. by left. }
    rewrite (assoc_set_new _ _ _ Hnew).
    rewrite IH; rewrite <- app_assoc; [done |]. exact Hnd.
Qed.

Lemma flatten_loop_plain (items : list (string * json)) :
  forall result,
    ~ In "advanced_fields"%string (map fst items) ->
    flatten_loop items result = Ok (set_all items result).
Proof.
  induction items as [|[k0 v0] rest IH]; intros result Hno; cbn; [done |].
  destruct (String.eqb_spec k0 "advanced_fields") as [-> | Hne].
  - destruct Hno. by left.
  - cbn. apply IH. intros Hin. apply Hno. by right.
Qed.

Lemma flatten_loop_app (l1 l2 : list (string * json)) :
  forall result,
    flatten_loop (l1 ++ l2) result
    = (let? m := flatten_loop l1 result in flatten_loop l2 m).
Proof.
  induction l1 as [|[k0 v0] rest IH]; intros result; cbn; [done |].
  destruct (if String.eqb k0 "advanced_fields" then py_contains v0 "fields"
            else Ok false) as [[]|]; cbn; [| apply IH | done].
  destruct (py_getitem v0 "fields") as [inner|]; cbn; [| done].
  destruct (py_items inner) as [adv_items|]; cbn; [apply IH | done].
Qed.

(** X25: a definition without an advanced section comes back as it is:
    on an object none of whose keys is ["advanced_fields"],
    [flatten_fields] returns the same fields with the same values in the
    same order. *)
Theorem flatten_fields_plain_is_identity :
  forall items,
    NoDup (map fst items) ->
    ~ In "advanced_fields"%string (map fst items) ->
    flatten_fields (JObj items) = Ok (JObj items).
Proof.
  intros items Hnd Hno. unfold flatten_fields. cbn [py_items obind].
  rewrite (flatten_loop_plain items [] Hno). cbn [obind].
  by rewrite (set_all_fresh items []).
Qed.

Lemma flatten_fields_plain_is_identity_witness :
  let items := [("transition", JObj [("example", JInt 3)]);
                ("brightness", JObj [("example", JInt 120)])]%string in
  flatten_fields (JObj items) = Ok (JObj items).
Proof.
  intros items. apply flatten_fields_plain_is_identity.
  - apply (bool_decide_unpack _). vm_compute. exact I.
  - cbn. intros [? | [? | []]]; discriminate.
Defined.

(** X26: the advanced section is merged into the top level.  When the
    value under ["advanced_fields"] has a mapping under ["fields"], the
    result has no nesting left: looking a name up in it gives the field of
    that name that comes last among the top-level fields before the
    section, the fields of the section, and the top-level fields after
    it.  The other entries of the section (as [collapsed]) are dropped. *)
Theorem flatten_fields_merges_advanced :
  forall before adv inner after,
    ~ In "advanced_fields"%string (map fst (before ++ after)) ->
    py_contains adv "fields" = Ok true ->
    py_getitem adv "fields" = Ok (JObj inner) ->
    NoDup (map fst before) -> NoDup (map fst inner) -> NoDup (map fst after) ->
    exists result,
      flatten_fields (JObj (before ++ ("advanced_fields"%string, adv) :: after))
      = Ok (JObj result)
      /\ (forall k,
            assoc_get k result
            = match assoc_get k after with
              | Some v => Some v
              | None =>
                  match assoc_get k inner with
                  | Some v => Some v
                  | None => assoc_get k before
                  end
              end).
Proof.
  intros before adv inner after Hno Hin Hget Hb Hi Ha.
  rewrite map_app in Hno.
  assert (Hnb : ~ In "advanced_fields"%string (map fst before)).
  { intros H. apply Hno. apply in_or_app. by left. }
  assert (Hna : ~ In "advanced_fields"%string (map fst after)).
  { intros H. apply Hno. apply in_or_app. by right. }
  exists (set_all after (set_all inner (set_all before []))). split.
  - unfold flatten_fields. cbn [py_items obind].
    rewrite flatten_loop_app, (flatten_loop_plain before [] Hnb). cbn [obind].
    cbn [flatten_loop]. rewrite String.eqb_refl, Hin. cbn [obind].
    rewrite Hget. cbn [obind py_items].
    by rewrite (flatten_loop_plain after _ Hna).
  - intros k. rewrite !set_all_lookup by done. cbn [assoc_get].
    destruct (assoc_get k after); [done |].
    destruct (assoc_get k inner); [done |].
    by destruct (assoc_get k before).
Qed.

Lemma flatten_fields_merges_advanced_witness :
  exists result,
    flatten_fields light_turn_on_fields = Ok (JObj result)
    /\ assoc_get "transition"%string result = Some (JObj [("example"%string, JInt 5)])
    /\ assoc_get "collapsed"%string result = None.
Proof.
  destruct (flatten_fields_merges_advanced
              [("transition", JObj [("example", JInt 3)])]%string
              (JObj [("collapsed", JBool true);
                     ("fields", JObj [("flash", JObj [("example", JStr "short")]);
                                      ("transition", JObj [("example", JInt 5)])])]%string)
              [("flash", JObj [("example", JStr "short")]);
               ("transition", JObj [("example", JInt 5)])]%string
              [("brightness", JObj [("example", JInt 120)])]%string)
    as (result & Hrun & Hlook).
  - cbn. intros [? | [? | []]]; discriminate.
  - reflexivity.
  - reflexivity.
  - apply (bool_decide_unpack _). vm_compute. exact I.
  - apply (bool_decide_unpack _). vm_compute. exact I.
  - apply (bool_decide_unpack _). vm_compute. exact I.
  - exists result. split; [exact Hrun |]. split; rewrite Hlook; reflexivity.
Defined.

(** X27: a section that is not a mapping with a mapping under
    ["fields"] makes [flatten_fields] raise, whatever the other fields
    are: [TypeError] when the value under ["advanced_fields"] is null, a
    number or a boolean, [AttributeError] when its ["fields"] is not a
    mapping.  An advanced section without ["fields"] is kept as an
    ordinary field. *)
Theorem flatten_fields_rejects_bad_section :
  forall before adv after,
    ~ In "advanced_fields"%string (map fst before) ->
    let fields := JObj (before ++ ("advanced_fields"%string, adv) :: after) in
    (py_contains adv "fields" = Raise TypeError ->
     flatten_fields fields = Raise TypeError)
    /\ (forall section inner,
          adv = JObj section -> assoc_get "fields" section = Some inner ->
          (forall items, inner <> JObj items) ->
          flatten_fields fields = Raise AttributeError)
    /\ (forall section,
          adv = JObj section -> assoc_get "fields" section = None ->
          NoDup (map fst (before ++ ("advanced_fields"%string, adv) :: after)) ->
          ~ In "advanced_fields"%string (map fst after) ->
          flatten_fields fields = Ok fields).
Proof.
  intros before adv after Hnb fields. subst fields.
  unfold flatten_fields. cbn [py_items obind].
  rewrite flatten_loop_app, (flatten_loop_plain before [] Hnb). cbn [obind].
  cbn [flatten_loop]. rewrite String.eqb_refl.
  split; [| split].
  - intros ->. reflexivity.
  - intros section inner -> Hf Hnot. cbn [py_contains py_getitem]. rewrite Hf. cbn [obind].
    destruct inner as [| | | | | |items]; try reflexivity. by destruct (Hnot items).
  - intros section -> Hf Hnd Hna. cbn [py_contains]. rewrite Hf. cbn [obind].
    rewrite (flatten_loop_plain after _ Hna). cbn [obind].
    rewrite map_app in Hnd. cbn [map fst] in Hnd.
    assert (Hnew : ~ In "advanced_fields"%string (map fst (set_all before []))).
    { rewrite (set_all_fresh before []).
      - exact Hnb.
      - cbn. by apply NoDup_app in Hnd as (? & _ & _). }
    rewrite (set_all_fresh before []) in *
      by (cbn; by apply NoDup_app in Hnd as (? & _ & _)).
    cbn [app] in *. rewrite (assoc_set_new _ _ _ Hnb).
    rewrite set_all_fresh.
    + by rewrite <- app_assoc.
    + rewrite <- app_assoc. cbn [app]. by rewrite map_app.
Qed.

Lemma flatten_fields_rejects_bad_section_witness :
  flatten_fields
    (JObj [("transition", JObj [("example", JInt 3)]);
           ("advanced_fields", JNull)]%string)
  = Raise TypeError.
Proof.
  destruct (flatten_fields_rejects_bad_section
              [("transition", JObj [("example", JInt 3)])]%string JNull [])
    as (Hscalar & _).
  - cbn. intros [? | []]; discriminate.
  - apply Hscalar. reflexivity.
Defined.
